(** * Notion <-> GitHub Projects sync: a shallow embedding of the sync script

    The development follows the script top to bottom: the JavaScript
    primitives it relies on ([Date], truthiness, object lookup), the record
    types, the status tables, the two clients ([NotionClient],
    [GitHubClient]) and the [SyncEngine].  Asynchronous calls are awaited one
    after the other in the script, so the embedding is a sequential state
    and exception monad over a [World] holding both stores. *)

From Stdlib Require Import ZArith List String Ascii Bool Lia DecimalString.
Import ListNotations.
Open Scope string_scope.
Open Scope Z_scope.

(* ====================================================================== *)
(** ** JavaScript primitives *)
(* ====================================================================== *)

(** A thrown JavaScript exception, kept as the text that [`${error}`]
    produces for it. *)
Inductive Result (A : Type) : Type :=
| Ok (a : A)
| Throw (e : string).
Arguments Ok {A} a.
Arguments Throw {A} e.

(** A JavaScript number as the script uses it for time values: [None] is
    [NaN], [Some t] an integral number of milliseconds. *)
Definition jsnum : Type := option Z.

Definition NaN : jsnum := None.

(** [a > b] on numbers: any comparison with [NaN] is [false]. *)
Definition js_gt (a b : jsnum) : bool :=
  match a, b with
  | Some x, Some y => x >? y
  | _, _ => false
  end.

(** Truthiness of a possibly missing string ([undefined], [null] and the
    empty string are falsy). *)
Definition truthy (s : option string) : bool :=
  match s with
  | Some EmptyString => false
  | Some _ => true
  | None => false
  end.

(** The text of a possibly missing string where the script has tested it. *)
Definition text (s : option string) : string :=
  match s with
  | Some t => t
  | None => ""
  end.

(** The [Date] parser is implementation-defined outside the ISO format, so
    it is an interface of the development. *)
Class DateImpl : Type := Date_parse : string -> option Z.

(** ECMAScript [TimeClip]: a time value beyond 8.64e15 ms is [NaN]. *)
Definition TimeClip (t : jsnum) : jsnum :=
  match t with
  | Some v => if Z.abs v <=? 8640000000000000 then Some v else None
  | None => None
  end.

(** [new Date(s).getTime()] *)
Definition Date_of_string `{DateImpl} (s : string) : jsnum :=
  TimeClip (Date_parse s).

(** [new Date(n)] for a number [n], as a time value. *)
Definition Date_of_number (n : jsnum) : jsnum := TimeClip n.

(** Decimal rendering of numbers, as template literals do. *)
Definition nat_to_string (n : nat) : string :=
  NilZero.string_of_uint (Nat.to_uint n).

Definition Z_to_string (z : Z) : string :=
  NilZero.string_of_int (Z.to_int z).

Fixpoint zeros (n : nat) : string :=
  match n with
  | O => ""
  | S k => "0" ++ zeros k
  end.

(** A non-negative number on at least [width] digits. *)
Definition pad (width : nat) (z : Z) : string :=
  let s := Z_to_string z in
  zeros (width - String.length s) ++ s.

(** Civil date of a day number counted from 1970-01-01 (proleptic
    Gregorian calendar). *)
Definition civil_from_days (z : Z) : Z * Z * Z :=
  let z := z + 719468 in
  let era := z / 146097 in
  let doe := z - era * 146097 in
  let yoe := (doe - doe / 1460 + doe / 36524 - doe / 146096) / 365 in
  let doy := doe - (365 * yoe + yoe / 4 - yoe / 100) in
  let mp := (5 * doy + 2) / 153 in
  let d := doy - (153 * mp + 2) / 5 + 1 in
  let m := if mp <? 10 then mp + 3 else mp - 9 in
  let y := yoe + era * 400 in
  ((if m <=? 2 then y + 1 else y), m, d).

Definition days_from_civil (y m d : Z) : Z :=
  let y := if m <=? 2 then y - 1 else y in
  let era := y / 400 in
  let yoe := y - era * 400 in
  let doy := (153 * (if 2 <? m then m - 3 else m + 9) + 2) / 5 + d - 1 in
  let doe := yoe * 365 + yoe / 4 - yoe / 100 + doy in
  era * 146097 + doe - 719468.

Definition iso_year (y : Z) : string :=
  if (0 <=? y) && (y <=? 9999) then pad 4 y
  else (if y <? 0 then "-" else "+") ++ pad 6 (Z.abs y).

(** The text of [toISOString] for a valid time value. *)
Definition iso_string (t : Z) : string :=
  let day := t / 86400000 in
  let ms := t mod 86400000 in
  let '(y, m, d) := civil_from_days day in
  iso_year y ++ "-" ++ pad 2 m ++ "-" ++ pad 2 d ++ "T"
    ++ pad 2 (ms / 3600000) ++ ":" ++ pad 2 ((ms / 60000) mod 60) ++ ":"
    ++ pad 2 ((ms / 1000) mod 60) ++ "." ++ pad 3 (ms mod 1000) ++ "Z".

(** [d.toISOString()]: a [RangeError] on an invalid date. *)
Definition toISOString (d : jsnum) : Result string :=
  match d with
  | Some t => Ok (iso_string t)
  | None => Throw "RangeError: Invalid time value"
  end.

(** A concrete [Date] parser for the format [toISOString] prints,
    [YYYY-MM-DDTHH:mm:ss.sssZ]; every other text is [NaN]. *)
Definition digit_of_ascii (c : ascii) : option Z :=
  let n := Z.of_nat (nat_of_ascii c) in
  if (48 <=? n) && (n <=? 57) then Some (n - 48) else None.

Fixpoint digits_value (acc : Z) (s : string) : option Z :=
  match s with
  | EmptyString => Some acc
  | String c rest =>
      match digit_of_ascii c with
      | Some d => digits_value (10 * acc + d) rest
      | None => None
      end
  end.

Definition field (s : string) (pos len : nat) : option Z :=
  digits_value 0 (substring pos len s).

Definition sep (s : string) (pos : nat) (c : string) : bool :=
  String.eqb (substring pos 1 s) c.

Definition days_in_month (y m : Z) : Z :=
  days_from_civil (if m =? 12 then y + 1 else y) (if m =? 12 then 1 else m + 1) 1
  - days_from_civil y m 1.

Definition iso_parse (s : string) : option Z :=
  if negb (Nat.eqb (String.length s) 24) then None
  else if negb (sep s 4 "-" && sep s 7 "-" && sep s 10 "T" && sep s 13 ":"
                && sep s 16 ":" && sep s 19 "." && sep s 23 "Z") then None
  else
    match field s 0 4, field s 5 2, field s 8 2,
          field s 11 2, field s 14 2, field s 17 2, field s 20 3 with
    | Some y, Some mo, Some d, Some h, Some mi, Some sec, Some ms =>
        if (1 <=? mo) && (mo <=? 12) && (1 <=? d) && (d <=? days_in_month y mo)
           && (h <=? 23) && (mi <=? 59) && (sec <=? 59)
        then Some (days_from_civil y mo d * 86400000
                   + h * 3600000 + mi * 60000 + sec * 1000 + ms)
        else None
    | _, _, _, _, _, _, _ => None
    end.

Definition iso_dates : DateImpl := iso_parse.

(* ====================================================================== *)
(** ** Type definitions *)
(* ====================================================================== *)

Module NotionProject.
Record t : Type := mk {
  id : string;
  name : string;
  status : string;
  description : option string;
  githubProjectId : option string;
  githubProjectUrl : option string;
  lastSyncAt : option string;
  updatedAt : string;
}.
End NotionProject.

(** [Partial<NotionProject>] *)
Module NotionProjectPartial.
Record t : Type := mk {
  id : option string;
  name : option string;
  status : option string;
  description : option string;
  githubProjectId : option string;
  githubProjectUrl : option string;
  lastSyncAt : option string;
  updatedAt : option string;
}.
Definition empty : t := mk None None None None None None None None.
End NotionProjectPartial.

Module NotionAction.
Record t : Type := mk {
  id : string;
  title : string;
  status : string;
  projectId : option string;
  githubIssueId : option string;
  githubIssueNumber : Z;
  githubIssueUrl : option string;
  description : option string;
  lastSyncAt : option string;
  updatedAt : string;
}.
End NotionAction.

(** [Partial<NotionAction>] *)
Module NotionActionPartial.
Record t : Type := mk {
  id : option string;
  title : option string;
  status : option string;
  projectId : option string;
  githubIssueId : option string;
  githubIssueNumber : option Z;
  githubIssueUrl : option string;
  description : option string;
  lastSyncAt : option string;
  updatedAt : option string;
}.
Definition empty : t := mk None None None None None None None None None None.
End NotionActionPartial.

Module GitHubProject.
Record t : Type := mk {
  id : string;
  number : Z;
  title : string;
  url : string;
  shortDescription : option string;
  updatedAt : string;
}.
End GitHubProject.

(** The state of an issue as GitHub reports it. *)
Inductive IssueState : Type := OPEN | CLOSED.

(** [GitHubIssue]; the optional [projectItems] is requested by no query of
    the script and is left out. *)
Module GitHubIssue.
Record t : Type := mk {
  id : string;
  number : Z;
  title : string;
  body : option string;
  state : IssueState;
  url : string;
  updatedAt : string;
}.
End GitHubIssue.

(* ====================================================================== *)
(** ** Status mapping *)
(* ====================================================================== *)

(** Reading [table[key]] on an object literal: an own property, a member
    inherited from [Object.prototype] (a function or object, hence truthy),
    or [undefined]. *)
Inductive Lookup (V : Type) : Type :=
| Own (v : V)
| Inherited (key : string)
| Undefined.
Arguments Own {V} v.
Arguments Inherited {V} key.
Arguments Undefined {V}.

Definition Object_prototype : list string :=
  [ "constructor"; "__defineGetter__"; "__defineSetter__"; "hasOwnProperty";
    "__lookupGetter__"; "__lookupSetter__"; "isPrototypeOf";
    "propertyIsEnumerable"; "toString"; "valueOf"; "__proto__";
    "toLocaleString" ].

Fixpoint own_property {V : Type} (table : list (string * V)) (key : string)
    : option V :=
  match table with
  | [] => None
  | (k, v) :: rest => if String.eqb k key then Some v else own_property rest key
  end.

Definition js_get {V : Type} (table : list (string * V)) (key : string)
    : Lookup V :=
  match own_property table key with
  | Some v => Own v
  | None =>
      if existsb (String.eqb key) Object_prototype then Inherited key
      else Undefined
  end.

Definition NOTION_TO_GITHUB_STATUS : list (string * IssueState) :=
  [ ("Not Started", OPEN);
    ("In Progress", OPEN);
    ("Blocked", OPEN);
    ("On Hold", OPEN);
    ("Completed", CLOSED);
    ("Cancelled", CLOSED) ].

Definition GITHUB_TO_NOTION_STATUS : list (string * string) :=
  [ ("OPEN", "In Progress");
    ("CLOSED", "Completed") ].

Definition IssueState_text (s : IssueState) : string :=
  match s with
  | OPEN => "OPEN"
  | CLOSED => "CLOSED"
  end.

(** The value handed to [updateIssue] as [state]: one of the two state
    names, or an inherited member that is neither. *)
Inductive StateArg : Type :=
| IsState (s : IssueState)
| NotAState (key : string).

(** [NOTION_TO_GITHUB_STATUS[status] || 'OPEN'] *)
Definition trackerStatusToBoardState (status : string) : StateArg :=
  match js_get NOTION_TO_GITHUB_STATUS status with
  | Own s => IsState s
  | Inherited k => NotAState k
  | Undefined => IsState OPEN
  end.

(** [GITHUB_TO_NOTION_STATUS[state] || current]; both state names are own
    keys of the table. *)
Definition boardStateToTrackerStatus (state : IssueState) (current : string)
    : string :=
  match own_property GITHUB_TO_NOTION_STATUS (IssueState_text state) with
  | Some s => if truthy (Some s) then s else current
  | None => current
  end.

(** A tracker status taken to the board and back.  An inherited member is
    no key of the reverse table: the lookup is [undefined] and the [||]
    gives the status back. *)
Definition status_round_trip (status : string) : string :=
  match trackerStatusToBoardState status with
  | IsState s => boardStateToTrackerStatus s status
  | NotAState _ => status
  end.

(** The [updates] argument of [GitHubClient.updateIssue]. *)
Module IssueUpdates.
Record t : Type := mk {
  title : option string;
  body : option string;
  state : option StateArg;
}.
End IssueUpdates.

Inductive Direction : Type :=
| notion_to_github
| github_to_notion
| conflict.

Record SyncState : Type := mkSyncState {
  direction : Direction;
  reason : string;
}.

(* ====================================================================== *)
(** ** The two stores and the world of a run *)
(* ====================================================================== *)

(** A page of the actions database: the fields [getActions] reads, with the
    whole [Project] relation, which the query filters on. *)
Module ActionPage.
Record t : Type := mk {
  id : string;
  title : string;
  status : string;
  Project : list string;
  githubIssueId : option string;
  githubIssueNumber : Z;
  githubIssueUrl : option string;
  description : option string;
  lastSyncAt : option string;
  last_edited_time : string;
}.
End ActionPage.

(** Both stores.  A page of the projects database is kept as the record
    [getProjects] makes of it; project items are (project id, content id)
    pairs in board order. *)
Record Stores : Type := mkStores {
  notionProjects : list NotionProject.t;
  notionActions : list ActionPage.t;
  githubProjects : list GitHubProject.t;
  githubProjectItems : list (string * string);
  githubIssues : list GitHubIssue.t;
  githubRepos : list string;
}.

Inductive ConsoleArg : Type :=
| arg_project_updates (u : NotionProjectPartial.t)
| arg_action_updates (u : NotionActionPartial.t)
| arg_issue_updates (u : IssueUpdates.t)
| arg_error (e : string).

Inductive ConsoleEntry : Type :=
| stdout (msg : string) (args : list ConsoleArg)
| stderr (msg : string) (args : list ConsoleArg).

(** An invocation of a client method that writes; kept as a history of the
    run, it decides nothing. *)
Inductive WriteCall : Type :=
| call_updateProject (pageId : string) (updates : NotionProjectPartial.t)
    (dryRun : bool)
| call_updateAction (pageId : string) (updates : NotionActionPartial.t)
    (dryRun : bool)
| call_getOrCreateProject (title : string) (description : option string)
    (dryRun : bool)
| call_createIssue (repo title : string) (body projectId : option string)
    (dryRun : bool)
| call_updateIssue (issueId : string) (updates : IssueUpdates.t)
    (dryRun : bool)
| call_addIssueToProject (issueId projectId : string) (dryRun : bool).

(** The world of a run: the stores, the wall clock, the fate of the coming
    network requests ([Some e]: the request is rejected with [e]; past the
    end of the list every request goes through), the store's supply of new
    identifiers, the console and the history of write invocations. *)
Record World : Type := mkWorld {
  stores : Stores;
  clock : Z;
  faults : list (option string);
  fresh : nat;
  console : list ConsoleEntry;
  invoked : list WriteCall;
}.

Definition with_stores (s : Stores) (w : World) : World :=
  mkWorld s (clock w) (faults w) (fresh w) (console w) (invoked w).
Definition with_clock (c : Z) (w : World) : World :=
  mkWorld (stores w) c (faults w) (fresh w) (console w) (invoked w).
Definition with_faults (f : list (option string)) (w : World) : World :=
  mkWorld (stores w) (clock w) f (fresh w) (console w) (invoked w).
Definition with_fresh (n : nat) (w : World) : World :=
  mkWorld (stores w) (clock w) (faults w) n (console w) (invoked w).
Definition with_console (c : list ConsoleEntry) (w : World) : World :=
  mkWorld (stores w) (clock w) (faults w) (fresh w) c (invoked w).
Definition with_invoked (i : list WriteCall) (w : World) : World :=
  mkWorld (stores w) (clock w) (faults w) (fresh w) (console w) i.

Definition with_notionProjects (l : list NotionProject.t) (s : Stores) : Stores :=
  mkStores l (notionActions s) (githubProjects s) (githubProjectItems s)
    (githubIssues s) (githubRepos s).
Definition with_notionActions (l : list ActionPage.t) (s : Stores) : Stores :=
  mkStores (notionProjects s) l (githubProjects s) (githubProjectItems s)
    (githubIssues s) (githubRepos s).
Definition with_githubProjects (l : list GitHubProject.t) (s : Stores) : Stores :=
  mkStores (notionProjects s) (notionActions s) l (githubProjectItems s)
    (githubIssues s) (githubRepos s).
Definition with_githubProjectItems (l : list (string * string)) (s : Stores)
    : Stores :=
  mkStores (notionProjects s) (notionActions s) (githubProjects s) l
    (githubIssues s) (githubRepos s).
Definition with_githubIssues (l : list GitHubIssue.t) (s : Stores) : Stores :=
  mkStores (notionProjects s) (notionActions s) (githubProjects s)
    (githubProjectItems s) l (githubRepos s).

(** *** The monad of the script: state and exceptions *)

Definition M (A : Type) : Type := World -> Result A * World.

Definition ret {A : Type} (a : A) : M A := fun w => (Ok a, w).

Definition bind {A B : Type} (m : M A) (k : A -> M B) : M B :=
  fun w =>
    match m w with
    | (Ok a, w') => k a w'
    | (Throw e, w') => (Throw e, w')
    end.

Definition throw {A : Type} (e : string) : M A := fun w => (Throw e, w).

Definition lift {A : Type} (r : Result A) : M A := fun w => (r, w).

(** [try { body } catch (error) { handler }] *)
Definition try_catch {A : Type} (body : M A) (handler : string -> M A) : M A :=
  fun w =>
    match body w with
    | (Ok a, w') => (Ok a, w')
    | (Throw e, w') => handler e w'
    end.

Definition gets {A : Type} (f : World -> A) : M A := fun w => (Ok (f w), w).

Definition modify (f : World -> World) : M unit := fun w => (Ok tt, f w).

Declare Scope script_scope.
Delimit Scope script_scope with script.
Notation "x <- m ;; k" := (bind m (fun x => k))
  (at level 61, m at next level, right associativity) : script_scope.
Notation "m ;; k" := (bind m (fun _ => k))
  (at level 61, right associativity) : script_scope.
Open Scope script_scope.

(** [for (const x of xs) { body }] *)
Fixpoint for_of {A : Type} (xs : list A) (body : A -> M unit) : M unit :=
  match xs with
  | [] => ret tt
  | x :: rest => body x ;; for_of rest body
  end.

Definition console_log (msg : string) (args : list ConsoleArg) : M unit :=
  modify (fun w => with_console (console w ++ [stdout msg args]) w).

Definition console_error (msg : string) (args : list ConsoleArg) : M unit :=
  modify (fun w => with_console (console w ++ [stderr msg args]) w).

Definition record (c : WriteCall) : M unit :=
  modify (fun w => with_invoked (invoked w ++ [c]) w).

(** [new Date().toISOString()]: the clock is read and moves on. *)
Definition Date_now : M string :=
  fun w => (Ok (iso_string (clock w)), with_clock (clock w + 1) w).

(** One request to a remote store. *)
Definition request : M unit :=
  fun w =>
    match faults w with
    | [] => (Ok tt, w)
    | None :: rest => (Ok tt, with_faults rest w)
    | Some e :: rest => (Throw e, with_faults rest w)
    end.

Definition set_stores (f : Stores -> Stores) : M unit :=
  modify (fun w => with_stores (f (stores w)) w).

(** Replace the first element satisfying [p]; [None] when there is none. *)
Fixpoint update_first {A : Type} (p : A -> bool) (f : A -> A) (l : list A)
    : option (list A) :=
  match l with
  | [] => None
  | x :: rest =>
      if p x then Some (f x :: rest)
      else match update_first p f rest with
           | Some rest' => Some (x :: rest')
           | None => None
           end
  end.

Definition nl : string := String (ascii_of_nat 10) EmptyString.

(* ====================================================================== *)
(** ** Clients *)
(* ====================================================================== *)

Module NotionClient.

Definition to_action (p : ActionPage.t) : NotionAction.t :=
  NotionAction.mk (ActionPage.id p) (ActionPage.title p) (ActionPage.status p)
    (hd_error (ActionPage.Project p))
    (ActionPage.githubIssueId p) (ActionPage.githubIssueNumber p)
    (ActionPage.githubIssueUrl p) (ActionPage.description p)
    (ActionPage.lastSyncAt p) (ActionPage.last_edited_time p).

(** [getProjects]: one query of the projects database. *)
Definition getProjects : M (list NotionProject.t) :=
  request ;;
  gets (fun w => notionProjects (stores w)).

(** [getActions]: the filter is set only for a truthy [projectId]. *)
Definition getActions (projectId : option string) : M (list NotionAction.t) :=
  request ;;
  pages <- gets (fun w => notionActions (stores w)) ;;
  let results :=
    if truthy projectId
    then filter (fun p => existsb (String.eqb (text projectId))
                            (ActionPage.Project p)) pages
    else pages in
  ret (map to_action results).

(** The properties [updateProject] sends, applied to the stored page;
    [edited] is the modification time the store gives the page. *)
Definition project_properties (updates : NotionProjectPartial.t)
    (lastSync edited : string) (p : NotionProject.t) : NotionProject.t :=
  NotionProject.mk
    (NotionProject.id p)
    (NotionProject.name p)
    (if truthy (NotionProjectPartial.status updates)
     then text (NotionProjectPartial.status updates)
     else NotionProject.status p)
    (NotionProject.description p)
    (if truthy (NotionProjectPartial.githubProjectId updates)
     then NotionProjectPartial.githubProjectId updates
     else NotionProject.githubProjectId p)
    (if truthy (NotionProjectPartial.githubProjectUrl updates)
     then NotionProjectPartial.githubProjectUrl updates
     else NotionProject.githubProjectUrl p)
    (Some lastSync)
    edited.

Definition updateProject (pageId : string) (updates : NotionProjectPartial.t)
    (dryRun : bool) : M unit :=
  record (call_updateProject pageId updates dryRun) ;;
  if dryRun then
    console_log ("[DRY RUN] Would update Notion project " ++ pageId ++ ":")
      [arg_project_updates updates]
  else
    lastSync <- Date_now ;;
    request ;;
    edited <- Date_now ;;
    pages <- gets (fun w => notionProjects (stores w)) ;;
    match update_first (fun p => String.eqb (NotionProject.id p) pageId)
            (project_properties updates lastSync edited) pages with
    | Some pages' => set_stores (with_notionProjects pages')
    | None => throw ("APIResponseError: Could not find page with ID: " ++ pageId)
    end.

Definition action_properties (updates : NotionActionPartial.t)
    (lastSync edited : string) (p : ActionPage.t) : ActionPage.t :=
  ActionPage.mk
    (ActionPage.id p)
    (ActionPage.title p)
    (if truthy (NotionActionPartial.status updates)
     then text (NotionActionPartial.status updates)
     else ActionPage.status p)
    (ActionPage.Project p)
    (if truthy (NotionActionPartial.githubIssueId updates)
     then NotionActionPartial.githubIssueId updates
     else ActionPage.githubIssueId p)
    (match NotionActionPartial.githubIssueNumber updates with
     | Some n => if n =? 0 then ActionPage.githubIssueNumber p else n
     | None => ActionPage.githubIssueNumber p
     end)
    (if truthy (NotionActionPartial.githubIssueUrl updates)
     then NotionActionPartial.githubIssueUrl updates
     else ActionPage.githubIssueUrl p)
    (ActionPage.description p)
    (Some lastSync)
    edited.

Definition updateAction (pageId : string) (updates : NotionActionPartial.t)
    (dryRun : bool) : M unit :=
  record (call_updateAction pageId updates dryRun) ;;
  if dryRun then
    console_log ("[DRY RUN] Would update Notion action " ++ pageId ++ ":")
      [arg_action_updates updates]
  else
    lastSync <- Date_now ;;
    request ;;
    edited <- Date_now ;;
    pages <- gets (fun w => notionActions (stores w)) ;;
    match update_first (fun p => String.eqb (ActionPage.id p) pageId)
            (action_properties updates lastSync edited) pages with
    | Some pages' => set_stores (with_notionActions pages')
    | None => throw ("APIResponseError: Could not find page with ID: " ++ pageId)
    end.

End NotionClient.

Module GitHubClient.

(** [listProjects]: the first hundred projects of the organization. *)
Definition listProjects : M (list GitHubProject.t) :=
  request ;;
  gets (fun w => firstn 100 (githubProjects (stores w))).

Definition dry_run_project (title : string) (description : option string)
    (now : string) : GitHubProject.t :=
  GitHubProject.mk "dry-run-id" 0 title "https://github.com/dry-run"
    description now.

(** The [createProjectV2] mutation. *)
Definition createProjectV2 (title : string) (body : option string)
    : M GitHubProject.t :=
  request ;;
  n <- gets fresh ;;
  now <- Date_now ;;
  let project :=
    GitHubProject.mk ("PVT_" ++ nat_to_string n) (Z.of_nat n) title
      ("https://github.com/projects/" ++ nat_to_string n) body now in
  modify (with_fresh (S n)) ;;
  set_stores (fun s => with_githubProjects (githubProjects s ++ [project]) s) ;;
  ret project.

Definition getOrCreateProject (title : string) (description : option string)
    (dryRun : bool) : M GitHubProject.t :=
  record (call_getOrCreateProject title description dryRun) ;;
  existingProjects <- listProjects ;;
  match find (fun p => String.eqb (GitHubProject.title p) title)
          existingProjects with
  | Some existing =>
      console_log ("✓ Found existing GitHub project: " ++ title) [] ;;
      ret existing
  | None =>
      if dryRun then
        console_log ("[DRY RUN] Would create GitHub project: " ++ title) [] ;;
        now <- Date_now ;;
        ret (dry_run_project title description now)
      else
        request ;;
        project <- createProjectV2 title description ;;
        console_log ("✓ Created GitHub project: " ++ title) [] ;;
        ret project
  end.

Definition dry_run_issue (title : string) (body : option string)
    (now : string) : GitHubIssue.t :=
  GitHubIssue.mk "dry-run-issue-id" 0 title body OPEN
    "https://github.com/dry-run" now.

Definition addIssueToProject (issueId projectId : string) (dryRun : bool)
    : M unit :=
  record (call_addIssueToProject issueId projectId dryRun) ;;
  if dryRun then
    console_log ("[DRY RUN] Would add issue " ++ issueId ++ " to project "
                 ++ projectId) []
  else
    request ;;
    s <- gets stores ;;
    if existsb (fun p => String.eqb (GitHubProject.id p) projectId)
         (githubProjects s)
       && existsb (fun i => String.eqb (GitHubIssue.id i) issueId)
            (githubIssues s)
    then
      if existsb (fun it => String.eqb (fst it) projectId
                            && String.eqb (snd it) issueId)
           (githubProjectItems s)
      then ret tt
      else set_stores (fun s =>
             with_githubProjectItems
               (githubProjectItems s ++ [(projectId, issueId)]) s)
    else throw "GraphqlResponseError: Could not resolve to a node".

(** The repository lookup of [createIssue]. *)
Definition repository (repo : string) : M unit :=
  request ;;
  repos <- gets (fun w => githubRepos (stores w)) ;;
  if existsb (String.eqb repo) repos then ret tt
  else throw "GraphqlResponseError: Could not resolve to a Repository".

(** The [createIssue] mutation. *)
Definition createIssue_mutation (title : string) (body : option string)
    : M GitHubIssue.t :=
  request ;;
  n <- gets fresh ;;
  now <- Date_now ;;
  let issue :=
    GitHubIssue.mk ("I_" ++ nat_to_string n) (Z.of_nat n) title body OPEN
      ("https://github.com/issues/" ++ nat_to_string n) now in
  modify (with_fresh (S n)) ;;
  set_stores (fun s => with_githubIssues (githubIssues s ++ [issue]) s) ;;
  ret issue.

Definition createIssue (repo title : string) (body projectId : option string)
    (dryRun : bool) : M GitHubIssue.t :=
  record (call_createIssue repo title body projectId dryRun) ;;
  if dryRun then
    console_log ("[DRY RUN] Would create GitHub issue in " ++ repo ++ ": "
                 ++ title) [] ;;
    now <- Date_now ;;
    ret (dry_run_issue title body now)
  else
    repository repo ;;
    issue <- createIssue_mutation title body ;;
    (if truthy projectId
     then addIssueToProject (GitHubIssue.id issue) (text projectId) dryRun
     else ret tt) ;;
    console_log ("✓ Created GitHub issue #"
                 ++ Z_to_string (GitHubIssue.number issue) ++ ": " ++ title) [] ;;
    ret issue.

Definition touch (now : string) (i : GitHubIssue.t) : GitHubIssue.t :=
  GitHubIssue.mk (GitHubIssue.id i) (GitHubIssue.number i)
    (GitHubIssue.title i) (GitHubIssue.body i) (GitHubIssue.state i)
    (GitHubIssue.url i) now.

(** A mutation on one stored issue; the store stamps its modification
    time. *)
Definition mutate_issue (issueId : string)
    (f : GitHubIssue.t -> GitHubIssue.t) : M unit :=
  request ;;
  now <- Date_now ;;
  issues <- gets (fun w => githubIssues (stores w)) ;;
  match update_first (fun i => String.eqb (GitHubIssue.id i) issueId)
          (fun i => touch now (f i)) issues with
  | Some issues' => set_stores (with_githubIssues issues')
  | None => throw "GraphqlResponseError: Could not resolve to a node"
  end.

Definition set_state (s : IssueState) (i : GitHubIssue.t) : GitHubIssue.t :=
  GitHubIssue.mk (GitHubIssue.id i) (GitHubIssue.number i)
    (GitHubIssue.title i) (GitHubIssue.body i) s (GitHubIssue.url i)
    (GitHubIssue.updatedAt i).

(** The [updateIssue] mutation: a variable left [undefined] is not sent. *)
Definition set_title_body (title body : option string) (i : GitHubIssue.t)
    : GitHubIssue.t :=
  GitHubIssue.mk (GitHubIssue.id i) (GitHubIssue.number i)
    (match title with Some t => t | None => GitHubIssue.title i end)
    (match body with Some b => Some b | None => GitHubIssue.body i end)
    (GitHubIssue.state i) (GitHubIssue.url i) (GitHubIssue.updatedAt i).

Definition updateIssue (issueId : string) (updates : IssueUpdates.t)
    (dryRun : bool) : M unit :=
  record (call_updateIssue issueId updates dryRun) ;;
  if dryRun then
    console_log ("[DRY RUN] Would update GitHub issue " ++ issueId ++ ":")
      [arg_issue_updates updates]
  else
    match IssueUpdates.state updates with
    | Some (IsState CLOSED) => mutate_issue issueId (set_state CLOSED)
    | Some (IsState OPEN) => mutate_issue issueId (set_state OPEN)
    | _ => ret tt
    end ;;
    if truthy (IssueUpdates.title updates) || truthy (IssueUpdates.body updates)
    then mutate_issue issueId
           (set_title_body (IssueUpdates.title updates)
              (IssueUpdates.body updates))
    else ret tt.

(** [getIssuesByProject]: the first hundred items of the project, those
    whose content is an issue. *)
Definition getIssuesByProject (projectId : string) : M (list GitHubIssue.t) :=
  request ;;
  s <- gets stores ;;
  if existsb (fun p => String.eqb (GitHubProject.id p) projectId)
       (githubProjects s)
  then
    let nodes :=
      firstn 100
        (filter (fun it => String.eqb (fst it) projectId)
           (githubProjectItems s)) in
    ret (flat_map
           (fun it =>
              match find (fun i => String.eqb (GitHubIssue.id i) (snd it))
                      (githubIssues s) with
              | Some i => [i]
              | None => []
              end) nodes)
  else throw "TypeError: Cannot read properties of null (reading 'items')".

End GitHubClient.

(* ====================================================================== *)
(** ** Sync logic *)
(* ====================================================================== *)

Module SyncEngine.

Definition bindR {A B : Type} (r : Result A) (k : A -> Result B) : Result B :=
  match r with
  | Ok a => k a
  | Throw e => Throw e
  end.

(** [lastSyncAt ? new Date(lastSyncAt).getTime() : 0] *)
Definition lastSync_time `{DateImpl} (lastSyncAt : option string) : jsnum :=
  if truthy lastSyncAt then Date_of_string (text lastSyncAt) else Some 0.

(** [SyncEngine.determineSyncDirection] *)
Definition determineSyncDirection `{DateImpl}
    (notionUpdatedAt githubUpdatedAt : string) (lastSyncAt : option string)
    : Result SyncState :=
  let notionTime := Date_of_string notionUpdatedAt in
  let githubTime := Date_of_string githubUpdatedAt in
  let lastSync := lastSync_time lastSyncAt in
  let notionChangedSinceSync := js_gt notionTime lastSync in
  let githubChangedSinceSync := js_gt githubTime lastSync in
  if notionChangedSinceSync && githubChangedSinceSync then
    bindR (toISOString (Date_of_number notionTime)) (fun n =>
    bindR (toISOString (Date_of_number githubTime)) (fun g =>
    Ok (mkSyncState conflict
          ("Both updated since last sync (Notion: " ++ n ++ ", GitHub: " ++ g ++ ")"))))
  else if notionChangedSinceSync then
    bindR (toISOString (Date_of_number notionTime)) (fun n =>
    Ok (mkSyncState notion_to_github ("Notion updated at " ++ n)))
  else if githubChangedSinceSync then
    bindR (toISOString (Date_of_number githubTime)) (fun g =>
    Ok (mkSyncState github_to_notion ("GitHub updated at " ++ g)))
  else
    Ok (mkSyncState notion_to_github "No changes detected, defaulting to Notion").

Definition Direction_text (d : Direction) : string :=
  match d with
  | notion_to_github => "notion-to-github"
  | github_to_notion => "github-to-notion"
  | conflict => "conflict"
  end.

(** One turn of the loop of [syncActions]: the body of its [try]. *)
Definition syncAction `{DateImpl} (dryRun : bool) (repo : string)
    (githubProject : GitHubProject.t) (githubIssues : list GitHubIssue.t)
    (action : NotionAction.t) : M unit :=
  if truthy (NotionAction.githubIssueId action) then
    match find (fun i => String.eqb (GitHubIssue.id i)
                           (text (NotionAction.githubIssueId action)))
            githubIssues with
    | None =>
        console_log ("    ⚠️  Linked GitHub issue not found for: "
                     ++ NotionAction.title action) []
    | Some githubIssue =>
        syncState <- lift (determineSyncDirection
                             (NotionAction.updatedAt action)
                             (GitHubIssue.updatedAt githubIssue)
                             (NotionAction.lastSyncAt action)) ;;
        console_log ("    → " ++ NotionAction.title action ++ ": "
                     ++ Direction_text (direction syncState)) [] ;;
        match direction syncState with
        | conflict =>
            console_log "      ⚠️  CONFLICT: Manual resolution required" []
        | notion_to_github =>
            let githubState :=
              trackerStatusToBoardState (NotionAction.status action) in
            GitHubClient.updateIssue (GitHubIssue.id githubIssue)
              (IssueUpdates.mk (Some (NotionAction.title action))
                 (NotionAction.description action) (Some githubState))
              dryRun ;;
            NotionClient.updateAction (NotionAction.id action)
              NotionActionPartial.empty dryRun ;;
            console_log ("      ✓ Updated GitHub issue #"
                         ++ Z_to_string (GitHubIssue.number githubIssue)) []
        | github_to_notion =>
            let notionStatus :=
              boardStateToTrackerStatus (GitHubIssue.state githubIssue)
                (NotionAction.status action) in
            NotionClient.updateAction (NotionAction.id action)
              (NotionActionPartial.mk None None (Some notionStatus) None None
                 None None None None None)
              dryRun ;;
            console_log "      ✓ Updated Notion action from GitHub" []
        end
    end
  else
    githubIssue <- GitHubClient.createIssue repo (NotionAction.title action)
                     (NotionAction.description action)
                     (Some (GitHubProject.id githubProject)) dryRun ;;
    NotionClient.updateAction (NotionAction.id action)
      (NotionActionPartial.mk None None None None
         (Some (GitHubIssue.id githubIssue))
         (Some (GitHubIssue.number githubIssue))
         (Some (GitHubIssue.url githubIssue)) None None None)
      dryRun ;;
    console_log ("    ✓ Created & linked GitHub issue #"
                 ++ Z_to_string (GitHubIssue.number githubIssue) ++ ": "
                 ++ NotionAction.title action) [].

(** One turn of the loop of [syncActions], with its [catch]. *)
Definition syncAction_guarded `{DateImpl} (dryRun : bool) (repo : string)
    (githubProject : GitHubProject.t) (githubIssues : list GitHubIssue.t)
    (action : NotionAction.t) : M unit :=
  try_catch (syncAction dryRun repo githubProject githubIssues action)
    (fun error =>
       console_error ("    ✗ Error syncing action "
                      ++ NotionAction.title action ++ ": " ++ error) []).

Definition syncActions `{DateImpl} (dryRun : bool)
    (notionProject : NotionProject.t) (githubProject : GitHubProject.t)
    (repo : string) : M unit :=
  console_log (nl ++ "  📝 Syncing Actions for "
               ++ NotionProject.name notionProject ++ "...") [] ;;
  notionActions <- NotionClient.getActions
                     (Some (NotionProject.id notionProject)) ;;
  githubIssues <- GitHubClient.getIssuesByProject
                    (GitHubProject.id githubProject) ;;
  console_log ("  Found " ++ nat_to_string (List.length notionActions)
               ++ " Notion actions, "
               ++ nat_to_string (List.length githubIssues)
               ++ " GitHub issues") [] ;;
  for_of notionActions
    (syncAction_guarded dryRun repo githubProject githubIssues).

(** The end of a turn of the loop of [syncProjects], once the GitHub
    project is known: the link is written back and the actions are
    synced. *)
Definition linkProject `{DateImpl} (dryRun : bool) (repo : string)
    (project : NotionProject.t) (githubProject : GitHubProject.t) : M unit :=
  NotionClient.updateProject (NotionProject.id project)
    (NotionProjectPartial.mk None None None None
       (Some (GitHubProject.id githubProject))
       (Some (GitHubProject.url githubProject)) None None)
    dryRun ;;
  console_log ("  ✓ Synced with GitHub Project #"
               ++ Z_to_string (GitHubProject.number githubProject)) [] ;;
  syncActions dryRun project githubProject repo.

(** One turn of the loop of [syncProjects]: the body of its [try]; where
    the script says [continue] the turn ends. *)
Definition syncProject `{DateImpl} (dryRun : bool) (repo : string)
    (project : NotionProject.t) : M unit :=
  if truthy (NotionProject.githubProjectId project) then
    allProjects <- GitHubClient.listProjects ;;
    match find (fun p => String.eqb (GitHubProject.id p)
                           (text (NotionProject.githubProjectId project)))
            allProjects with
    | None =>
        console_log "  ⚠️  Linked GitHub project not found, creating new one" [] ;;
        githubProject <- GitHubClient.getOrCreateProject
                           (NotionProject.name project)
                           (NotionProject.description project) dryRun ;;
        linkProject dryRun repo project githubProject
    | Some githubProject =>
        syncState <- lift (determineSyncDirection
                             (NotionProject.updatedAt project)
                             (GitHubProject.updatedAt githubProject)
                             (NotionProject.lastSyncAt project)) ;;
        console_log ("  ℹ️  Sync: " ++ Direction_text (direction syncState)
                     ++ " (" ++ reason syncState ++ ")") [] ;;
        match direction syncState with
        | conflict =>
            console_log "  ⚠️  CONFLICT: Manual resolution required" []
        | _ => linkProject dryRun repo project githubProject
        end
    end
  else
    githubProject <- GitHubClient.getOrCreateProject
                       (NotionProject.name project)
                       (NotionProject.description project) dryRun ;;
    linkProject dryRun repo project githubProject.

(** One turn of the loop of [syncProjects], with its [catch]. *)
Definition syncProject_guarded `{DateImpl} (dryRun : bool) (repo : string)
    (project : NotionProject.t) : M unit :=
  console_log (nl ++ "→ Processing: " ++ NotionProject.name project) [] ;;
  try_catch (syncProject dryRun repo project)
    (fun error =>
       console_error ("  ✗ Error syncing project: " ++ error) []).

Definition syncProjects `{DateImpl} (dryRun : bool) (repo : string) : M unit :=
  console_log (nl ++ "📊 Syncing Projects..." ++ nl) [] ;;
  notionProjects <- NotionClient.getProjects ;;
  console_log ("Found " ++ nat_to_string (List.length notionProjects)
               ++ " Notion projects") [] ;;
  for_of notionProjects (syncProject_guarded dryRun repo).

Definition run `{DateImpl} (dryRun : bool) (repo : string) : M unit :=
  console_log "🔄 ChittyCan™ Notion ↔ GitHub Sync" [] ;;
  console_log "====================================" [] ;;
  console_log ("Mode: " ++ (if dryRun then "🔍 DRY RUN" else "🚀 LIVE")) [] ;;
  console_log ("Repository: " ++ repo ++ nl) [] ;;
  try_catch
    (syncProjects dryRun repo ;;
     console_log (nl ++ "✅ Sync completed successfully!") [] ;;
     if dryRun
     then console_log (nl ++ "💡 Run with DRY_RUN=false to apply changes") []
     else ret tt)
    (fun error =>
       console_error (nl ++ "❌ Sync failed:") [arg_error error] ;;
       throw error).

End SyncEngine.

(* ====================================================================== *)
(** ** Vocabulary of the statements *)
(* ====================================================================== *)

Import SyncEngine.

(** The direction with the two sides exchanged. *)
Definition swap_direction (d : Direction) : Direction :=
  match d with
  | notion_to_github => github_to_notion
  | github_to_notion => notion_to_github
  | conflict => conflict
  end.

(** The direction of a decision, when there is one. *)
Definition decided (r : Result SyncState) : option Direction :=
  match r with
  | Ok st => Some (direction st)
  | Throw _ => None
  end.

(** [needle] occurs in [hay]. *)
Fixpoint contains (needle hay : string) : bool :=
  match hay with
  | EmptyString => String.eqb needle EmptyString
  | String _ rest => String.prefix needle hay || contains needle rest
  end.

Definition no_changes : SyncState :=
  mkSyncState notion_to_github "No changes detected, defaulting to Notion".

(** The decision table as the specification words it, on three times:
    left is the tracker (Notion), right the board (GitHub). *)
Definition decision_table (left right lastSync : Z) : Direction :=
  let leftChanged := left >? lastSync in
  let rightChanged := right >? lastSync in
  if leftChanged && rightChanged then conflict
  else if leftChanged then notion_to_github
  else if rightChanged then github_to_notion
  else notion_to_github.

(** The fate of the next request. *)
Definition next_fault (w : World) : option string :=
  match faults w with
  | Some e :: _ => Some e
  | _ => None
  end.

(** The world once the next request has gone. *)
Definition after_request (w : World) : World :=
  with_faults (tl (faults w)) w.

Definition say (entries : list ConsoleEntry) (w : World) : World :=
  with_console (console w ++ entries) w.

(** [keeps R m]: whatever [m] returns, the world it leaves is related by [R]
    to the world it started in. *)
Definition keeps {A : Type} (R : World -> World -> Prop) (m : M A) : Prop :=
  forall w r w', m w = (r, w') -> R w w'.

(** Both stores are as they were. *)
Definition same_stores (w w' : World) : Prop := stores w' = stores w.

(** The console has only been added to. *)
Definition console_grows (w w' : World) : Prop :=
  exists entries, console w' = (console w ++ entries)%list.



(** The stored issue, and the stored action page, of an identifier. *)
Definition issue_of (issueId : string) (w : World) : option GitHubIssue.t :=
  find (fun i => String.eqb (GitHubIssue.id i) issueId)
    (githubIssues (stores w)).

Definition page_of (pageId : string) (w : World) : option ActionPage.t :=
  find (fun p => String.eqb (ActionPage.id p) pageId)
    (notionActions (stores w)).

(** The four lines [run] opens with. *)
Definition banner (dryRun : bool) (repo : string) : list ConsoleEntry :=
  [ stdout "🔄 ChittyCan™ Notion ↔ GitHub Sync" [];
    stdout "====================================" [];
    stdout ("Mode: " ++ (if dryRun then "🔍 DRY RUN" else "🚀 LIVE")) [];
    stdout ("Repository: " ++ repo ++ nl) [] ].

(** What [run] prints once [syncProjects] has returned. *)
Definition closing_report (dryRun : bool) : list ConsoleEntry :=
  stdout (nl ++ "✅ Sync completed successfully!") []
  :: (if dryRun
      then [stdout (nl ++ "💡 Run with DRY_RUN=false to apply changes") []]
      else []).

(** The line that opens the turn of a project. *)
Definition processing (p : NotionProject.t) : ConsoleEntry :=
  stdout (nl ++ "→ Processing: " ++ NotionProject.name p) [].

Definition project_error (e : string) : ConsoleEntry :=
  stderr ("  ✗ Error syncing project: " ++ e) [].

Definition action_error (a : NotionAction.t) (e : string) : ConsoleEntry :=
  stderr ("    ✗ Error syncing action " ++ NotionAction.title a ++ ": " ++ e) [].

Definition entry_text (c : ConsoleEntry) : string :=
  match c with
  | stdout msg _ => msg
  | stderr msg _ => msg
  end.

Definition is_digit (c : ascii) : bool :=
  match digit_of_ascii c with
  | Some _ => true
  | None => false
  end.

Fixpoint has_digit (s : string) : bool :=
  match s with
  | EmptyString => false
  | String c rest => is_digit c || has_digit rest
  end.

Definition is_stderr (c : ConsoleEntry) : bool :=
  match c with
  | stderr _ _ => true
  | stdout _ _ => false
  end.

(** The project as it would be were it not linked. *)
Definition unlinked (p : NotionProject.t) : NotionProject.t :=
  NotionProject.mk (NotionProject.id p) (NotionProject.name p)
    (NotionProject.status p) (NotionProject.description p) None
    (NotionProject.githubProjectUrl p) (NotionProject.lastSyncAt p)
    (NotionProject.updatedAt p).

Definition project_missing : ConsoleEntry :=
  stdout "  ⚠️  Linked GitHub project not found, creating new one" [].

Definition issue_missing (a : NotionAction.t) : ConsoleEntry :=
  stdout ("    ⚠️  Linked GitHub issue not found for: " ++ NotionAction.title a) [].

Definition is_createIssue (c : WriteCall) : bool :=
  match c with
  | call_createIssue _ _ _ _ _ => true
  | _ => false
  end.

(* ====================================================================== *)
(** ** Sample stores *)
(* ====================================================================== *)

Definition t_sync : string := "2024-03-01T00:00:00.000Z".
Definition t_plus1 : string := "2024-03-01T00:00:00.001Z".
Definition t_plus2 : string := "2024-03-01T00:00:00.002Z".
Definition t_before : string := "2024-02-29T12:00:00.000Z".

Definition launch_plan : NotionProject.t :=
  NotionProject.mk "np-1" "Launch Plan" "In Progress" (Some "Q2 launch")
    (Some "PVT_1") (Some "https://github.com/projects/1") (Some t_sync) t_plus1.

Definition launch_plan_unlinked : NotionProject.t :=
  NotionProject.mk "np-1" "Launch Plan" "In Progress" (Some "Q2 launch")
    None None None t_plus1.

Definition launch_board (updatedAt : string) : GitHubProject.t :=
  GitHubProject.mk "PVT_1" 1 "Launch Plan" "https://github.com/projects/1"
    (Some "Q2 launch") updatedAt.

Definition write_copy (status : string) (link : option string)
    (updatedAt : string) : ActionPage.t :=
  ActionPage.mk "na-1" "Write copy" status ["np-1"] link
    (match link with Some _ => 2 | None => 0 end)
    (match link with Some _ => Some "https://github.com/issues/2" | None => None end)
    (Some "Landing page text") (Some t_sync) updatedAt.

Definition copy_issue (title : string) (state : IssueState)
    (updatedAt : string) : GitHubIssue.t :=
  GitHubIssue.mk "I_2" 2 title (Some "Old text") state
    "https://github.com/issues/2" updatedAt.

Definition a_world (s : Stores) (f : list (option string)) : World :=
  mkWorld s 1709300000000 f 3 [] [].

(** A linked project and a linked action; the updated times are the
    arguments. *)
Definition linked_stores (project : NotionProject.t) (board : GitHubProject.t)
    (page : ActionPage.t) (issue : GitHubIssue.t) : Stores :=
  mkStores [project] [page] [board] [("PVT_1", "I_2")] [issue]
    ["chittyreception"].

(** Both sides of the project and of the action edited after the last
    sync. *)
Definition conflict_world : World :=
  a_world (linked_stores launch_plan (launch_board t_plus2)
             (write_copy "In Progress" (Some "I_2") t_plus1)
             (copy_issue "Write copy" OPEN t_plus2)) [].

(** A first run: one tracker project with one action, nothing linked, an
    empty board. *)
Definition first_run_stores : Stores :=
  mkStores [launch_plan_unlinked] [write_copy "In Progress" None t_plus1]
    [] [] [] ["chittyreception"].

Definition first_run_world : World := a_world first_run_stores [].

(** The first run again, with the board refusing the second request. *)
Definition board_down_world : World :=
  a_world first_run_stores [None; Some "Error: GitHub unavailable"].

(** A first request to the board that is refused. *)
Definition board_refuses_world : World :=
  a_world first_run_stores [Some "Error: GitHub unavailable"].

(** The project is linked and found; the action is linked to an issue
    that the board's project no longer lists. *)
Definition stale_issue_world : World :=
  a_world (mkStores [launch_plan]
             [write_copy "In Progress" (Some "I_2") t_plus1]
             [launch_board t_before] [] [] ["chittyreception"]) [].

(** The project is linked to a board project that is gone. *)
Definition stale_project_world : World :=
  a_world (mkStores [launch_plan] [] [] [] [] ["chittyreception"]) [].

(** A linked project renamed on the tracker since the last sync, and a
    linked action whose issue was renamed and closed on the board since. *)
Definition renamed_board : GitHubProject.t :=
  GitHubProject.mk "PVT_1" 1 "Launch Plan (draft)"
    "https://github.com/projects/1" (Some "Draft") t_before.

Definition renamed_world : World :=
  a_world (mkStores [launch_plan]
             [write_copy "In Progress" (Some "I_2") t_before]
             [renamed_board] [("PVT_1", "I_2")]
             [copy_issue "Write final copy" CLOSED t_plus1]
             ["chittyreception"]) [].

(** A linked action completed on the tracker since the last sync. *)
Definition completed_world : World :=
  a_world (linked_stores launch_plan (launch_board t_before)
             (write_copy "Completed" (Some "I_2") t_plus1)
             (copy_issue "Write copy (old)" OPEN t_before)) [].

(* ====================================================================== *)
(** ** Database identifiers *)
(* ====================================================================== *)

Definition in_range (lo hi : nat) (c : ascii) : bool :=
  (lo <=? nat_of_ascii c)%nat && (nat_of_ascii c <=? hi)%nat.

(** [[a-f0-9]] under the [i] flag. *)
Definition is_hex_digit (c : ascii) : bool :=
  in_range 48 57 c || in_range 97 102 c || in_range 65 70 c.

(** [\w] *)
Definition is_word_char (c : ascii) : bool :=
  in_range 48 57 c || in_range 97 122 c || in_range 65 90 c
  || Ascii.eqb c "_".

(** [d] and [s] under the [i] flag. *)
Definition is_d (c : ascii) : bool := Ascii.eqb c "d" || Ascii.eqb c "D".
Definition is_s (c : ascii) : bool := Ascii.eqb c "s" || Ascii.eqb c "S".

Fixpoint take_while (p : ascii -> bool) (s : string) : string :=
  match s with
  | EmptyString => EmptyString
  | String c rest => if p c then String c (take_while p rest) else EmptyString
  end.

Fixpoint all_chars (p : ascii -> bool) (s : string) : bool :=
  match s with
  | EmptyString => true
  | String c rest => p c && all_chars p rest
  end.

(** [/ds\/([a-f0-9]+)/i] tried at the start of the text: the group it
    captures. *)
Definition ds_here (s : string) : option string :=
  match s with
  | String d (String s' (String slash rest)) =>
      if is_d d && is_s s' && Ascii.eqb slash "/" then
        match take_while is_hex_digit rest with
        | EmptyString => None
        | captured => Some captured
        end
      else None
  | _ => None
  end.

(** [url.match(/ds\/([a-f0-9]+)/i)]: the group of the leftmost match. *)
Fixpoint ds_match (url : string) : option string :=
  match ds_here url with
  | Some captured => Some captured
  | None =>
      match url with
      | EmptyString => None
      | String _ rest => ds_match rest
      end
  end.

(** Thirty-two word characters at the start of the text. *)
Definition word32_here (s : string) : bool :=
  (32 <=? String.length s)%nat && all_chars is_word_char (substring 0 32 s).

(** [s.replace(/(\w{8})(\w{4})(\w{4})(\w{4})(\w{12})/, '$1-$2-$3-$4-$5')]:
    the leftmost run of thirty-two word characters is cut 8-4-4-4-12. *)
Fixpoint dash_first_32 (s : string) : string :=
  if word32_here s then
    substring 0 8 s ++ "-" ++ substring 8 4 s ++ "-" ++ substring 12 4 s
      ++ "-" ++ substring 16 4 s ++ "-" ++ substring 20 12 s
      ++ substring 32 (String.length s - 32) s
  else
    match s with
    | EmptyString => EmptyString
    | String c rest => String c (dash_first_32 rest)
    end.

(** [NotionClient.extractDatabaseId] *)
Definition extractDatabaseId (url : string) : Result string :=
  match ds_match url with
  | None => Throw ("Error: Could not extract database ID from URL: " ++ url)
  | Some captured => Ok (dash_first_32 captured)
  end.

Fixpoint remove_dashes (s : string) : string :=
  match s with
  | EmptyString => EmptyString
  | String c rest =>
      if Ascii.eqb c "-" then remove_dashes rest
      else String c (remove_dashes rest)
  end.

(* ====================================================================== *)
(** ** Page properties *)
(* ====================================================================== *)

(** A property value of a Notion page, by its kind: the plain texts of a
    title or of a rich text, the name of the selected option, a number, a
    url, the start of a date, the ids of a relation; or a value of a kind the
    script does not read. *)
Inductive Property : Type :=
| P_title (plain_texts : list string)
| P_rich_text (plain_texts : list string)
| P_select (name : option string)
| P_number (n : option Z)
| P_url (url : option string)
| P_date (start : option string)
| P_relation (ids : list string)
| P_other.

(** What [getPropertyValue] returns. *)
Inductive JsValue : Type :=
| V_null
| V_string (s : string)
| V_number (n : Z)
| V_ids (ids : list string).

(** [x || ''] and [x || null] on a possibly missing text. *)
Definition or_empty (x : option string) : JsValue :=
  if truthy x then V_string (text x) else V_string "".

Definition or_null (x : option string) : JsValue :=
  if truthy x then V_string (text x) else V_null.

(** [NotionClient.getPropertyValue]: the field named by [type] is read,
    whatever the kind of the property. *)
Definition getPropertyValue (properties : list (string * Property))
    (name type : string) : JsValue :=
  match js_get properties name with
  | Undefined => V_null
  | found =>
      let prop := match found with Own p => p | _ => P_other end in
      if String.eqb type "title" then
        match prop with
        | P_title items => or_empty (hd_error items)
        | _ => V_string ""
        end
      else if String.eqb type "rich_text" then
        match prop with
        | P_rich_text items => or_empty (hd_error items)
        | _ => V_string ""
        end
      else if String.eqb type "select" then
        match prop with
        | P_select name => or_null name
        | _ => V_null
        end
      else if String.eqb type "number" then
        match prop with
        | P_number (Some n) => if n =? 0 then V_null else V_number n
        | _ => V_null
        end
      else if String.eqb type "url" then
        match prop with
        | P_url u => or_null u
        | _ => V_null
        end
      else if String.eqb type "date" then
        match prop with
        | P_date start => or_null start
        | _ => V_null
        end
      else if String.eqb type "relation" then
        match prop with
        | P_relation ids => V_ids ids
        | _ => V_ids []
        end
      else V_null
  end.

(** A value that an [if], an [||] or a [?:] takes for false. *)
Definition falsy (v : JsValue) : bool :=
  match v with
  | V_null => true
  | V_string s => negb (truthy (Some s))
  | V_number n => n =? 0
  | V_ids _ => false
  end.

(* ====================================================================== *)
(** ** Configuration and the entry point *)
(* ====================================================================== *)

(** The variables of the environment the script reads. *)
Module ProcessEnv.
Record t : Type := mk {
  NOTION_TOKEN : option string;
  NOTION_PROJECTS_DS : option string;
  NOTION_ACTIONS_DS : option string;
  GITHUB_TOKEN : option string;
  GITHUB_ORG : option string;
  DRY_RUN : option string;
}.
End ProcessEnv.

(** [Env], the type inferred from [EnvSchema]. *)
Module Env.
Record t : Type := mk {
  NOTION_TOKEN : string;
  NOTION_PROJECTS_DS : string;
  NOTION_ACTIONS_DS : string;
  GITHUB_TOKEN : string;
  GITHUB_ORG : string;
  DRY_RUN : string;
}.
End Env.

(** What the schema library decides by itself: which texts are urls, and
    the messages of the issues the schema gives no message for. *)
Class ZodImpl : Type := {
  is_url : string -> bool;
  required_message : string;
  invalid_enum_message : string -> string;
}.

(** An issue of a parse: the path and the message. *)
Definition Issue : Type := (string * string)%type.

(** [z.string().min(1, message)] at [path]. *)
Definition check_min1 `{ZodImpl} (path message : string) (v : option string)
    : list Issue :=
  match v with
  | None => [(path, required_message)]
  | Some EmptyString => [(path, message)]
  | Some _ => []
  end.

(** [z.string().url(message)] at [path]. *)
Definition check_url `{ZodImpl} (path message : string) (v : option string)
    : list Issue :=
  match v with
  | None => [(path, required_message)]
  | Some s => if is_url s then [] else [(path, message)]
  end.

(** [z.enum(['true', 'false'])] at [path]. *)
Definition check_enum `{ZodImpl} (path : string) (v : string) : list Issue :=
  if String.eqb v "true" || String.eqb v "false" then []
  else [(path, invalid_enum_message v)].

(** [EnvSchema.parse] of the object [validateEnv] builds, where [DRY_RUN]
    is [process.env.DRY_RUN || 'true']. *)
Definition EnvSchema_parse `{ZodImpl} (e : ProcessEnv.t)
    : list Issue + Env.t :=
  let dry := if truthy (ProcessEnv.DRY_RUN e)
             then text (ProcessEnv.DRY_RUN e) else "true" in
  let issues :=
    (check_min1 "NOTION_TOKEN" "NOTION_TOKEN is required"
       (ProcessEnv.NOTION_TOKEN e)
     ++ check_url "NOTION_PROJECTS_DS" "NOTION_PROJECTS_DS must be a valid URL"
          (ProcessEnv.NOTION_PROJECTS_DS e)
     ++ check_url "NOTION_ACTIONS_DS" "NOTION_ACTIONS_DS must be a valid URL"
          (ProcessEnv.NOTION_ACTIONS_DS e)
     ++ check_min1 "GITHUB_TOKEN" "GITHUB_TOKEN is required"
          (ProcessEnv.GITHUB_TOKEN e)
     ++ check_min1 "GITHUB_ORG" "GITHUB_ORG is required"
          (ProcessEnv.GITHUB_ORG e)
     ++ check_enum "DRY_RUN" dry)%list in
  match issues with
  | [] =>
      inr (Env.mk (text (ProcessEnv.NOTION_TOKEN e))
             (text (ProcessEnv.NOTION_PROJECTS_DS e))
             (text (ProcessEnv.NOTION_ACTIONS_DS e))
             (text (ProcessEnv.GITHUB_TOKEN e))
             (text (ProcessEnv.GITHUB_ORG e)) dry)
  | _ => inl issues
  end.

(** [validateEnv]: [None] where the script calls [process.exit(1)]. *)
Definition validateEnv `{ZodImpl} (e : ProcessEnv.t) (w : World)
    : option Env.t * World :=
  match EnvSchema_parse e with
  | inr env => (Some env, w)
  | inl issues =>
      (None,
       say (stderr "❌ Environment validation failed:" []
            :: map (fun i => stderr ("  - " ++ fst i ++ ": " ++ snd i) []) issues)
         w)
  end.

(** What the handler of [main().catch] does: the exit code is 1. *)
Definition fatal (error : string) (w : World) : Z * World :=
  (1, say [stderr "Fatal error:" [arg_error error]] w).

(** The script run directly: [main()] with its [catch]; the result is the
    exit code of the process, [argv2] is [process.argv[2]]. *)
Definition main `{DateImpl} `{ZodImpl} (e : ProcessEnv.t)
    (argv2 : option string) (w : World) : Z * World :=
  match validateEnv e w with
  | (None, w1) => (1, w1)
  | (Some env, w1) =>
      let dryRun := String.eqb (Env.DRY_RUN env) "true" in
      let repo := if truthy argv2 then text argv2 else "chittyreception" in
      match extractDatabaseId (Env.NOTION_PROJECTS_DS env) with
      | Throw error => fatal error w1
      | Ok _ =>
          match extractDatabaseId (Env.NOTION_ACTIONS_DS env) with
          | Throw error => fatal error w1
          | Ok _ =>
              match run dryRun repo w1 with
              | (Ok _, w2) => (0, w2)
              | (Throw error, w2) => fatal error w2
              end
          end
      end
  end.

(** A schema library for the samples: a url starts with [https://]. *)
Definition sample_zod : ZodImpl :=
  {| is_url := String.prefix "https://";
     required_message := "Required";
     invalid_enum_message := fun v =>
       "Invalid enum value. Expected 'true' | 'false', received '" ++ v ++ "'" |}.

Definition sample_env (dry : option string) : ProcessEnv.t :=
  ProcessEnv.mk (Some "secret_abc")
    (Some "https://www.notion.so/acme/ds/0123456789abcdef0123456789abcdef?db=1")
    (Some "https://www.notion.so/acme/ds/fedcba9876543210fedcba9876543210?db=2")
    (Some "ghp_abc") (Some "acme") dry.

(* ====================================================================== *)
(** ** Vocabulary of further statements on the engine *)
(* ====================================================================== *)

(** The [dryRun] argument of an invocation. *)
Definition flag_of (c : WriteCall) : bool :=
  match c with
  | call_updateProject _ _ d => d
  | call_updateAction _ _ d => d
  | call_getOrCreateProject _ _ d => d
  | call_createIssue _ _ _ _ d => d
  | call_updateIssue _ _ d => d
  | call_addIssueToProject _ _ d => d
  end.

Definition is_getOrCreateProject (c : WriteCall) : bool :=
  match c with
  | call_getOrCreateProject _ _ _ => true
  | _ => false
  end.

(** The history of invocations has only been added to, by invocations that
    satisfy [P]. *)
Definition appended_calls (P : WriteCall -> bool) (w w' : World) : Prop :=
  exists calls,
    invoked w' = (invoked w ++ calls)%list /\ forallb P calls = true.

(** Every invocation made carries the flag [d]. *)
Definition flags_follow (d : bool) : World -> World -> Prop :=
  appended_calls (fun c => Bool.eqb (flag_of c) d).

(** Nothing has been created on the board: its projects are as they were,
    its issues and project items are the same ones, and neither
    [createIssue] nor [getOrCreateProject] has been invoked. *)
Definition creates_nothing (w w' : World) : Prop :=
  githubProjects (stores w') = githubProjects (stores w) /\
  map GitHubIssue.id (githubIssues (stores w'))
  = map GitHubIssue.id (githubIssues (stores w)) /\
  githubProjectItems (stores w') = githubProjectItems (stores w) /\
  appended_calls
    (fun c => negb (is_createIssue c) && negb (is_getOrCreateProject c)) w w'.

(** No board project has been created or looked for by title. *)
Definition no_project_created (w w' : World) : Prop :=
  githubProjects (stores w') = githubProjects (stores w) /\
  appended_calls (fun c => negb (is_getOrCreateProject c)) w w'.

(** No record has been deleted, and the tracker has gained none: its pages
    are the same ones, and the board has at most gained projects, issues
    and project items after those it had. *)
Definition records_kept (w w' : World) : Prop :=
  map NotionProject.id (notionProjects (stores w'))
  = map NotionProject.id (notionProjects (stores w)) /\
  map ActionPage.id (notionActions (stores w'))
  = map ActionPage.id (notionActions (stores w)) /\
  (exists more,
     map GitHubProject.id (githubProjects (stores w'))
     = (map GitHubProject.id (githubProjects (stores w)) ++ more)%list) /\
  (exists more,
     map GitHubIssue.id (githubIssues (stores w'))
     = (map GitHubIssue.id (githubIssues (stores w)) ++ more)%list) /\
  (exists more,
     githubProjectItems (stores w')
     = (githubProjectItems (stores w) ++ more)%list).

(** The tracker's projects are as they were, and the board's projects are
    those it had, as they were, before any that was created. *)
Definition projects_stay (w w' : World) : Prop :=
  notionProjects (stores w') = notionProjects (stores w) /\
  exists created,
    githubProjects (stores w') = (githubProjects (stores w) ++ created)%list.

(** The stored tracker project of an identifier. *)
Definition project_row (pageId : string) (w : World) : option NotionProject.t :=
  find (fun p => String.eqb (NotionProject.id p) pageId)
    (notionProjects (stores w)).

(** A board with a hundred other projects listed before "Launch Plan". *)
Definition filler (n : nat) : GitHubProject.t :=
  GitHubProject.mk ("PVT_old_" ++ nat_to_string n) (Z.of_nat n)
    ("Archive " ++ nat_to_string n) "https://github.com/projects/old" None
    t_before.

(** A linked project with an action, completed on the tracker, that has no
    issue yet; the faults are the argument. *)
Definition unlinked_action_world (f : list (option string)) : World :=
  a_world (mkStores [launch_plan] [write_copy "Completed" None t_plus1]
             [launch_board t_before] [] [] ["chittyreception"]) f.

Definition crowded_world : World :=
  a_world (mkStores [launch_plan_unlinked] []
             (map filler (seq 0 100) ++ [launch_board t_before]) [] []
             ["chittyreception"]) [].

(** The lines printed in the turn of a project: one form for every
    [console.log] and [console.error] of the loop of [syncProjects], of
    [syncActions] and of the client methods they call, with what the line
    interpolates left free. *)
Inductive turn_line : ConsoleEntry -> Prop :=
| line_processing (name : string) :
    turn_line (stdout (nl ++ "→ Processing: " ++ name) [])
| line_project_missing :
    turn_line (stdout "  ⚠️  Linked GitHub project not found, creating new one" [])
| line_project_direction (d : Direction) (reason : string) :
    turn_line (stdout ("  ℹ️  Sync: " ++ Direction_text d
                       ++ " (" ++ reason ++ ")") [])
| line_project_conflict :
    turn_line (stdout "  ⚠️  CONFLICT: Manual resolution required" [])
| line_project_synced (number : Z) :
    turn_line (stdout ("  ✓ Synced with GitHub Project #" ++ Z_to_string number) [])
| line_project_error (e : string) :
    turn_line (stderr ("  ✗ Error syncing project: " ++ e) [])
| line_syncing_actions (name : string) :
    turn_line (stdout (nl ++ "  📝 Syncing Actions for " ++ name ++ "...") [])
| line_found_actions (actions issues : nat) :
    turn_line (stdout ("  Found " ++ nat_to_string actions
                       ++ " Notion actions, " ++ nat_to_string issues
                       ++ " GitHub issues") [])
| line_issue_missing (title : string) :
    turn_line (stdout ("    ⚠️  Linked GitHub issue not found for: " ++ title) [])
| line_action_direction (title : string) (d : Direction) :
    turn_line (stdout ("    → " ++ title ++ ": " ++ Direction_text d) [])
| line_action_conflict :
    turn_line (stdout "      ⚠️  CONFLICT: Manual resolution required" [])
| line_issue_updated (number : Z) :
    turn_line (stdout ("      ✓ Updated GitHub issue #" ++ Z_to_string number) [])
| line_action_updated :
    turn_line (stdout "      ✓ Updated Notion action from GitHub" [])
| line_issue_linked (number : Z) (title : string) :
    turn_line (stdout ("    ✓ Created & linked GitHub issue #" ++ Z_to_string number ++ ": "
                       ++ title) [])
| line_action_error (title e : string) :
    turn_line (stderr ("    ✗ Error syncing action " ++ title ++ ": " ++ e) [])
| line_dry_update_project (pageId : string) (u : NotionProjectPartial.t) :
    turn_line (stdout ("[DRY RUN] Would update Notion project " ++ pageId ++ ":")
                 [arg_project_updates u])
| line_dry_update_action (pageId : string) (u : NotionActionPartial.t) :
    turn_line (stdout ("[DRY RUN] Would update Notion action " ++ pageId ++ ":")
                 [arg_action_updates u])
| line_project_found (title : string) :
    turn_line (stdout ("✓ Found existing GitHub project: " ++ title) [])
| line_dry_create_project (title : string) :
    turn_line (stdout ("[DRY RUN] Would create GitHub project: " ++ title) [])
| line_project_created (title : string) :
    turn_line (stdout ("✓ Created GitHub project: " ++ title) [])
| line_dry_add_issue (issueId projectId : string) :
    turn_line (stdout ("[DRY RUN] Would add issue " ++ issueId ++ " to project " ++ projectId) [])
| line_dry_create_issue (repo title : string) :
    turn_line (stdout ("[DRY RUN] Would create GitHub issue in " ++ repo ++ ": " ++ title) [])
| line_issue_created (number : Z) (title : string) :
    turn_line (stdout ("✓ Created GitHub issue #" ++ Z_to_string number ++ ": " ++ title) [])
| line_dry_update_issue (issueId : string) (u : IssueUpdates.t) :
    turn_line (stdout ("[DRY RUN] Would update GitHub issue " ++ issueId ++ ":")
                 [arg_issue_updates u]).

(** What has been printed are lines of the turns of projects. *)
Definition prints_turn_lines (w w' : World) : Prop :=
  exists out,
    console w' = (console w ++ out)%list /\ Forall turn_line out.

(** The two lines [syncProjects] prints before its loop. *)
Definition projects_heading (found : nat) : list ConsoleEntry :=
  [ stdout (nl ++ "📊 Syncing Projects..." ++ nl) [];
    stdout ("Found " ++ nat_to_string found ++ " Notion projects") [] ].

(* ====================================================================== *)
(** ** The direction decision *)
(* ====================================================================== *)

Example iso_string_epoch : iso_string 0 = "1970-01-01T00:00:00.000Z".
Proof. reflexivity. Qed.

Example iso_string_before_epoch : iso_string (-1) = "1969-12-31T23:59:59.999Z".
Proof. reflexivity. Qed.

Example iso_string_last_day :
  iso_string 8640000000000000 = "+275760-09-13T00:00:00.000Z".
Proof. reflexivity. Qed.

Example iso_parse_t_sync : iso_parse t_sync = Some 1709251200000.
Proof. reflexivity. Qed.

Example iso_parse_back : iso_parse (iso_string 1709251200001) = Some 1709251200001.
Proof. reflexivity. Qed.

Example iso_parse_no_such_day : iso_parse "2023-02-29T00:00:00.000Z" = None.
Proof. reflexivity. Qed.

Section Direction.

Context `{DateImpl}.

Lemma TimeClip_idem (t : jsnum) : TimeClip (TimeClip t) = TimeClip t.
Proof.
  destruct t as [v|]; simpl; auto.
  destruct (Z.abs v <=? 8640000000000000) eqn:E; simpl; auto.
  now rewrite E.
Qed.

Lemma Date_of_number_of_string (s : string) :
  Date_of_number (Date_of_string s) = Date_of_string s.
Proof. apply TimeClip_idem. Qed.

Lemma js_gt_valid (a b : jsnum) :
  js_gt a b = true -> exists x y, a = Some x /\ b = Some y /\ x > y.
Proof.
  destruct a as [x|], b as [y|]; simpl; try discriminate.
  intros E. exists x, y. repeat split. now apply Z.gtb_gt.
Qed.

Lemma js_gt_NaN_r (a : jsnum) : js_gt a NaN = false.
Proof. now destruct a. Qed.

Lemma toISOString_changed (s : string) (b : jsnum) :
  js_gt (Date_of_string s) b = true ->
  exists iso, toISOString (Date_of_number (Date_of_string s)) = Ok iso.
Proof.
  intros E. rewrite Date_of_number_of_string.
  destruct (js_gt_valid _ _ E) as (x & y & -> & _ & _).
  now exists (iso_string x).
Qed.

(** The decision as a function of the two comparisons. *)
Lemma direction_by_cases (l r : string) (s : option string) :
  exists st,
    determineSyncDirection l r s = Ok st /\
    direction st =
      (if js_gt (Date_of_string l) (lastSync_time s)
       then if js_gt (Date_of_string r) (lastSync_time s)
            then conflict else notion_to_github
       else if js_gt (Date_of_string r) (lastSync_time s)
            then github_to_notion else notion_to_github) /\
    (js_gt (Date_of_string l) (lastSync_time s) = false ->
     js_gt (Date_of_string r) (lastSync_time s) = false ->
     st = no_changes).
Proof.
  unfold determineSyncDirection.
  destruct (js_gt (Date_of_string l) (lastSync_time s)) eqn:El;
    destruct (js_gt (Date_of_string r) (lastSync_time s)) eqn:Er; simpl.
  - destruct (toISOString_changed _ _ El) as [n ->].
    destruct (toISOString_changed _ _ Er) as [g ->]. simpl.
    eexists; repeat split; discriminate.
  - destruct (toISOString_changed _ _ El) as [n ->]. simpl.
    eexists; repeat split; discriminate.
  - destruct (toISOString_changed _ _ Er) as [g ->]. simpl.
    eexists; repeat split; discriminate.
  - eexists; repeat split.
Qed.

(** C1: for a pair with valid timestamps, the last sync being the time that
    [lastSyncAt] parses to, or 0 when [lastSyncAt] is missing or empty, the
    decision is the table of the specification applied to the three times:
    conflict when both sides are later than the last sync, the changed
    side's direction when one is, and notion-to-github with the "no changes"
    reason when neither is.  The decision is a value computed from the three
    times alone: it never throws. *)
Theorem direction_follows_decision_table
    (l r : string) (s : option string) (tl tr ts : Z) :
  Date_of_string l = Some tl ->
  Date_of_string r = Some tr ->
  match s with
  | Some (String c x) => Date_of_string (String c x) = Some ts
  | Some EmptyString => ts = 0
  | None => ts = 0
  end ->
  exists st,
    determineSyncDirection l r s = Ok st /\
    direction st = decision_table tl tr ts /\
    (tl > ts -> tr > ts -> direction st = conflict) /\
    (tl > ts -> tr <= ts -> direction st = notion_to_github) /\
    (tl <= ts -> tr > ts -> direction st = github_to_notion) /\
    (tl <= ts -> tr <= ts -> st = no_changes).
Proof.
  intros Hl Hr Hs.
  assert (L : lastSync_time s = Some ts).
  { unfold lastSync_time. destruct s as [[|c x]|]; simpl; congruence. }
  destruct (direction_by_cases l r s) as (st & E & D & N).
  exists st. rewrite Hl, Hr, L in D, N. simpl in D, N.
  split; [exact E|]. unfold decision_table.
  destruct (Z.gtb_spec tl ts), (Z.gtb_spec tr ts); simpl in *;
    repeat split; intros; try lia; auto.
Qed.

(** C10: the decision never throws, whatever the three texts; a side whose
    text does not parse is [NaN], compares false and counts as unchanged, so
    that two unparseable sides give the no-changes default (as does an
    unparseable [lastSyncAt], against which nothing compares greater). *)
Theorem direction_never_throws (l r : string) (s : option string) :
  exists st,
    determineSyncDirection l r s = Ok st /\
    (Date_parse l = None ->
       Date_of_string l = NaN /\
       js_gt (Date_of_string l) (lastSync_time s) = false /\
       direction st <> conflict /\
       (direction st = github_to_notion \/ st = no_changes)) /\
    (Date_parse r = None ->
       Date_of_string r = NaN /\
       js_gt (Date_of_string r) (lastSync_time s) = false /\
       direction st = notion_to_github) /\
    (Date_parse l = None -> Date_parse r = None -> st = no_changes) /\
    (truthy s = true -> Date_parse (text s) = None ->
       lastSync_time s = NaN /\ st = no_changes).
Proof.
  destruct (direction_by_cases l r s) as (st & E & D & N).
  exists st. split; [exact E|].
  assert (P : forall x, Date_parse x = None -> Date_of_string x = NaN)
    by (intros x Hx; unfold Date_of_string; now rewrite Hx).
  split; [|split; [|split]].
  - intros Hl. rewrite (P _ Hl) in D, N. simpl in D, N.
    split; [now apply P|]. split; [now rewrite (P _ Hl)|].
    destruct (js_gt (Date_of_string r) (lastSync_time s)).
    + split; [rewrite D; discriminate | now left].
    + split; [rewrite D; discriminate | right; now apply N].
  - intros Hr. rewrite (P _ Hr) in D. simpl in D.
    split; [now apply P|]. split; [now rewrite (P _ Hr)|].
    now destruct (js_gt (Date_of_string l) (lastSync_time s)).
  - intros Hl Hr. apply N; [rewrite (P _ Hl) | rewrite (P _ Hr)]; reflexivity.
  - intros T Hs.
    assert (L : lastSync_time s = NaN)
      by (unfold lastSync_time; rewrite T; now apply P).
    split; [exact L|]. apply N; rewrite L; apply js_gt_NaN_r.
Qed.

(** C3, as amended: the decision is total, and exchanging the two
    [updatedAt] texts exchanges the direction whenever at least one side
    changed since the last sync; when neither changed both orders give the
    notion-to-github default. *)
Theorem direction_swap_when_changed (l r : string) (s : option string) :
  exists a b,
    determineSyncDirection l r s = Ok a /\
    determineSyncDirection r l s = Ok b /\
    (js_gt (Date_of_string l) (lastSync_time s)
       || js_gt (Date_of_string r) (lastSync_time s) = true ->
     direction b = swap_direction (direction a)) /\
    (js_gt (Date_of_string l) (lastSync_time s) = false ->
     js_gt (Date_of_string r) (lastSync_time s) = false ->
     a = no_changes /\ b = no_changes).
Proof.
  destruct (direction_by_cases l r s) as (a & Ea & Da & Na).
  destruct (direction_by_cases r l s) as (b & Eb & Db & Nb).
  exists a, b. repeat split; auto.
  rewrite Da, Db.
  destruct (js_gt (Date_of_string l) (lastSync_time s)),
           (js_gt (Date_of_string r) (lastSync_time s));
    simpl; intros; congruence.
Qed.

End Direction.

(** The decision table at three ISO texts: the tracker's side older than
    the last sync, the board's side one millisecond after it. *)
Lemma direction_follows_decision_table_witness :
  exists st,
    @determineSyncDirection iso_dates t_before t_plus1 (Some t_sync) = Ok st /\
    direction st = decision_table 1709208000000 1709251200001 1709251200000 /\
    direction st = github_to_notion.
Proof.
  destruct (@direction_follows_decision_table iso_dates t_before t_plus1
              (Some t_sync) 1709208000000 1709251200001 1709251200000
              eq_refl eq_refl eq_refl)
    as (st & E & D & _ & _ & G & _).
  exists st. split; [exact E|]. split; [exact D|]. apply G; lia.
Defined.

(** Two texts that are no dates, never synced. *)
Lemma direction_never_throws_witness :
  @determineSyncDirection iso_dates "yesterday" "n/a" None = Ok no_changes.
Proof.
  destruct (@direction_never_throws iso_dates "yesterday" "n/a" None)
    as (st & E & _ & _ & N & _).
  rewrite E. f_equal. apply N; reflexivity.
Defined.

(** One side changed: exchanging the texts exchanges the direction. *)
Lemma direction_swap_when_changed_witness :
  exists a b,
    @determineSyncDirection iso_dates t_plus1 t_before (Some t_sync) = Ok a /\
    @determineSyncDirection iso_dates t_before t_plus1 (Some t_sync) = Ok b /\
    direction b = swap_direction (direction a).
Proof.
  destruct (@direction_swap_when_changed iso_dates t_plus1 t_before (Some t_sync))
    as (a & b & Ea & Eb & S & _).
  exists a, b. repeat split; auto.
Defined.

(** Neither side changed since the last sync: both orders of the two texts
    give notion-to-github, which is not its own exchange. *)
Lemma direction_swap_fails_without_changes :
  decided (@determineSyncDirection iso_dates t_sync t_before (Some t_plus1))
  <> option_map swap_direction
       (decided (@determineSyncDirection iso_dates t_before t_sync (Some t_plus1))).
Proof. vm_compute. discriminate. Qed.

(* ====================================================================== *)
(** ** The status tables *)
(* ====================================================================== *)

Lemma boardStateToTrackerStatus_values (st : IssueState) (current : string) :
  boardStateToTrackerStatus st current =
    match st with OPEN => "In Progress" | CLOSED => "Completed" end.
Proof. now destruct st. Qed.

Example inherited_member_is_no_state :
  trackerStatusToBoardState "constructor" = NotAState "constructor".
Proof. reflexivity. Qed.

Example unknown_status_is_open :
  trackerStatusToBoardState "Waiting" = IsState OPEN.
Proof. reflexivity. Qed.

Lemma status_round_trip_range (s : string) :
  status_round_trip s = "In Progress" \/ status_round_trip s = "Completed"
  \/ (status_round_trip s = s /\ exists k, trackerStatusToBoardState s = NotAState k).
Proof.
  unfold status_round_trip.
  destruct (trackerStatusToBoardState s) as [st|k] eqn:E.
  - rewrite boardStateToTrackerStatus_values. destruct st; auto.
  - right; right. split; eauto.
Qed.

(** C6: the round trip through the two tables returns the status it was
    given for "Completed" (by way of CLOSED) and, among the statuses of the
    table, exactly for "In Progress" and "Completed"; every other status
    collapses without failure onto one of these two, "Blocked" going by way
    of OPEN to "In Progress". *)
Theorem status_round_trip_stable_or_collapsed :
  (trackerStatusToBoardState "Completed" = IsState CLOSED /\
   boardStateToTrackerStatus CLOSED "Completed" = "Completed" /\
   status_round_trip "Completed" = "Completed") /\
  (trackerStatusToBoardState "Blocked" = IsState OPEN /\
   boardStateToTrackerStatus OPEN "Blocked" = "In Progress" /\
   status_round_trip "Blocked" = "In Progress") /\
  (forall s, In s (map fst NOTION_TO_GITHUB_STATUS) ->
     (status_round_trip s = s <-> s = "In Progress" \/ s = "Completed")) /\
  (forall s st, trackerStatusToBoardState s = IsState st ->
     status_round_trip s = "In Progress" \/ status_round_trip s = "Completed") /\
  (forall s, status_round_trip (status_round_trip s) = status_round_trip s).
Proof.
  split; [repeat split|]. split; [repeat split|]. split; [|split].
  - intros s Hs. simpl in Hs.
    destruct Hs as [<-|[<-|[<-|[<-|[<-|[<-|[]]]]]]]; vm_compute;
      (split; [intros E | intros [E|E]]); auto; congruence.
  - intros s st E. unfold status_round_trip. rewrite E.
    rewrite boardStateToTrackerStatus_values. destruct st; auto.
  - intros s.
    destruct (status_round_trip_range s) as [E|[E|[E _]]]; rewrite E; auto.
Qed.

(* ====================================================================== *)
(** ** Reasoning about the script monad *)
(* ====================================================================== *)

Lemma bind_ok {A B : Type} (m : M A) (k : A -> M B) (w w1 : World) (a : A) :
  m w = (Ok a, w1) -> bind m k w = k a w1.
Proof. unfold bind. now intros ->. Qed.

Lemma bind_throw {A B : Type} (m : M A) (k : A -> M B) (w w1 : World) (e : string) :
  m w = (Throw e, w1) -> bind m k w = (Throw e, w1).
Proof. unfold bind. now intros ->. Qed.

Lemma request_ok (w : World) :
  next_fault w = None -> request w = (Ok tt, after_request w).
Proof.
  unfold next_fault, request, after_request.
  destruct w as [s c f n o i]; simpl.
  destruct f as [|[e|] rest]; simpl; intros E; try discriminate; reflexivity.
Qed.

Lemma request_throw (w : World) (e : string) :
  next_fault w = Some e -> request w = (Throw e, after_request w).
Proof.
  unfold next_fault, request, after_request.
  destruct w as [s c f n o i]; simpl.
  destruct f as [|[e'|] rest]; simpl; intros E; try discriminate.
  now injection E as ->.
Qed.

Lemma for_of_cons {A : Type} (x : A) (xs : list A) (body : A -> M unit)
    (w w1 : World) :
  body x w = (Ok tt, w1) -> for_of (x :: xs) body w = for_of xs body w1.
Proof. intros E. simpl. now rewrite (bind_ok _ _ _ _ _ E). Qed.

Lemma listProjects_ok (w : World) :
  next_fault w = None ->
  GitHubClient.listProjects w
  = (Ok (firstn 100 (githubProjects (stores w))), after_request w).
Proof.
  intros E. unfold GitHubClient.listProjects.
  rewrite (bind_ok _ _ _ _ _ (request_ok w E)). reflexivity.
Qed.

Section Conflict.

Context `{DateImpl}.

Lemma project_conflict_turn (dryRun : bool) (repo : string)
    (p : NotionProject.t) (gp : GitHubProject.t) (st : SyncState) (w : World) :
  truthy (NotionProject.githubProjectId p) = true ->
  next_fault w = None ->
  find (fun g => String.eqb (GitHubProject.id g)
                   (text (NotionProject.githubProjectId p)))
    (firstn 100 (githubProjects (stores w))) = Some gp ->
  determineSyncDirection (NotionProject.updatedAt p)
    (GitHubProject.updatedAt gp) (NotionProject.lastSyncAt p) = Ok st ->
  direction st = conflict ->
  syncProject_guarded dryRun repo p w
  = (Ok tt,
     say [ stdout (nl ++ "→ Processing: " ++ NotionProject.name p) [];
           stdout ("  ℹ️  Sync: conflict (" ++ reason st ++ ")") [];
           stdout "  ⚠️  CONFLICT: Manual resolution required" [] ]
       (after_request w)).
Proof.
  intros L F G D C.
  unfold syncProject_guarded, syncProject, try_catch, console_log, modify.
  unfold bind at 1. cbv beta iota. rewrite L.
  set (w0 := with_console _ w).
  assert (F0 : next_fault w0 = None) by exact F.
  rewrite (bind_ok _ _ _ _ _ (listProjects_ok w0 F0)).
  change (githubProjects (stores w0)) with (githubProjects (stores w)).
  rewrite G. unfold lift. unfold bind. rewrite D, C. simpl.
  unfold say, after_request, w0. simpl.
  rewrite <- !app_assoc. reflexivity.
Qed.

Lemma action_conflict_turn (dryRun : bool) (repo : string)
    (githubProject : GitHubProject.t) (issues : list GitHubIssue.t)
    (a : NotionAction.t) (gi : GitHubIssue.t) (st : SyncState) (w : World) :
  truthy (NotionAction.githubIssueId a) = true ->
  find (fun i => String.eqb (GitHubIssue.id i)
                   (text (NotionAction.githubIssueId a))) issues = Some gi ->
  determineSyncDirection (NotionAction.updatedAt a)
    (GitHubIssue.updatedAt gi) (NotionAction.lastSyncAt a) = Ok st ->
  direction st = conflict ->
  syncAction_guarded dryRun repo githubProject issues a w
  = (Ok tt,
     say [ stdout ("    → " ++ NotionAction.title a ++ ": conflict") [];
           stdout "      ⚠️  CONFLICT: Manual resolution required" [] ] w).
Proof.
  intros L G D C.
  unfold syncAction_guarded, syncAction, try_catch, console_log, modify, lift.
  rewrite L, G. unfold bind. rewrite D, C. simpl.
  unfold say. simpl. rewrite <- !app_assoc. reflexivity.
Qed.

(** C2: when the decision for a linked project, or for a linked action, is
    a conflict, the turn ends normally with both stores as they were and no
    write method of either client invoked, and the loop goes on with the
    next entity. *)
Theorem conflict_writes_nothing :
  (forall (dryRun : bool) (repo : string) (p : NotionProject.t)
          (gp : GitHubProject.t) (st : SyncState) (w : World)
          (rest : list NotionProject.t),
     truthy (NotionProject.githubProjectId p) = true ->
     next_fault w = None ->
     find (fun g => String.eqb (GitHubProject.id g)
                      (text (NotionProject.githubProjectId p)))
       (firstn 100 (githubProjects (stores w))) = Some gp ->
     determineSyncDirection (NotionProject.updatedAt p)
       (GitHubProject.updatedAt gp) (NotionProject.lastSyncAt p) = Ok st ->
     direction st = conflict ->
     exists w',
       syncProject_guarded dryRun repo p w = (Ok tt, w') /\
       stores w' = stores w /\
       invoked w' = invoked w /\
       for_of (p :: rest) (syncProject_guarded dryRun repo) w
       = for_of rest (syncProject_guarded dryRun repo) w') /\
  (forall (dryRun : bool) (repo : string) (githubProject : GitHubProject.t)
          (issues : list GitHubIssue.t) (a : NotionAction.t)
          (gi : GitHubIssue.t) (st : SyncState) (w : World)
          (rest : list NotionAction.t),
     truthy (NotionAction.githubIssueId a) = true ->
     find (fun i => String.eqb (GitHubIssue.id i)
                      (text (NotionAction.githubIssueId a))) issues = Some gi ->
     determineSyncDirection (NotionAction.updatedAt a)
       (GitHubIssue.updatedAt gi) (NotionAction.lastSyncAt a) = Ok st ->
     direction st = conflict ->
     exists w',
       syncAction_guarded dryRun repo githubProject issues a w = (Ok tt, w') /\
       stores w' = stores w /\
       invoked w' = invoked w /\
       for_of (a :: rest) (syncAction_guarded dryRun repo githubProject issues) w
       = for_of rest (syncAction_guarded dryRun repo githubProject issues) w').
Proof.
  split.
  - intros dryRun repo p gp st w rest L F G D C.
    pose proof (project_conflict_turn dryRun repo p gp st w L F G D C) as E.
    eexists. split; [exact E|]. repeat split.
    now apply for_of_cons.
  - intros dryRun repo gproj issues a gi st w rest L G D C.
    pose proof (action_conflict_turn dryRun repo gproj issues a gi st w L G D C) as E.
    eexists. split; [exact E|]. repeat split.
    now apply for_of_cons.
Qed.

End Conflict.

(** The conflict theorem on the sample stores: the project pair and the
    action pair of [conflict_world], both edited on both sides. *)
Lemma conflict_writes_nothing_witness :
  (exists w',
     @syncProject_guarded iso_dates false "chittyreception" launch_plan
       conflict_world = (Ok tt, w') /\
     stores w' = stores conflict_world /\
     invoked w' = invoked conflict_world /\
     for_of [launch_plan]
       (@syncProject_guarded iso_dates false "chittyreception") conflict_world
     = for_of [] (@syncProject_guarded iso_dates false "chittyreception") w') /\
  (exists w',
     @syncAction_guarded iso_dates false "chittyreception"
       (launch_board t_plus2) [copy_issue "Write copy" OPEN t_plus2]
       (NotionClient.to_action (write_copy "In Progress" (Some "I_2") t_plus1))
       conflict_world = (Ok tt, w') /\
     stores w' = stores conflict_world /\
     invoked w' = invoked conflict_world /\
     for_of [NotionClient.to_action (write_copy "In Progress" (Some "I_2") t_plus1)]
       (@syncAction_guarded iso_dates false "chittyreception"
          (launch_board t_plus2) [copy_issue "Write copy" OPEN t_plus2])
       conflict_world
     = for_of []
         (@syncAction_guarded iso_dates false "chittyreception"
            (launch_board t_plus2) [copy_issue "Write copy" OPEN t_plus2]) w').
Proof.
  split.
  - eapply (proj1 (@conflict_writes_nothing iso_dates)); reflexivity.
  - eapply (proj2 (@conflict_writes_nothing iso_dates)); reflexivity.
Defined.

(* ====================================================================== *)
(** ** Relations a computation keeps *)
(* ====================================================================== *)

Section Keeps.

Variable R : World -> World -> Prop.
Hypothesis R_refl : forall w, R w w.
Hypothesis R_trans : forall a b c, R a b -> R b c -> R a c.

Lemma keeps_ret {A : Type} (a : A) : keeps R (ret a).
Proof. intros w r w' E. injection E as _ <-. apply R_refl. Qed.

Lemma keeps_throw {A : Type} (e : string) : keeps R (@throw A e).
Proof. intros w r w' E. injection E as _ <-. apply R_refl. Qed.

Lemma keeps_lift {A : Type} (x : Result A) : keeps R (lift x).
Proof. intros w r w' E. injection E as _ <-. apply R_refl. Qed.

Lemma keeps_gets {A : Type} (f : World -> A) : keeps R (gets f).
Proof. intros w r w' E. injection E as _ <-. apply R_refl. Qed.

Lemma keeps_modify (f : World -> World) :
  (forall w, R w (f w)) -> keeps R (modify f).
Proof. intros F w r w' E. injection E as _ <-. apply F. Qed.

Lemma keeps_bind {A B : Type} (m : M A) (k : A -> M B) :
  keeps R m -> (forall a, keeps R (k a)) -> keeps R (bind m k).
Proof.
  intros Km Kk w r w' E. unfold bind in E.
  destruct (m w) as [[a|e] w1] eqn:Em.
  - eapply R_trans; [eapply Km; eauto | eapply Kk; eauto].
  - injection E as _ <-. eapply Km; eauto.
Qed.

Lemma keeps_try_catch {A : Type} (m : M A) (h : string -> M A) :
  keeps R m -> (forall e, keeps R (h e)) -> keeps R (try_catch m h).
Proof.
  intros Km Kh w r w' E. unfold try_catch in E.
  destruct (m w) as [[a|e] w1] eqn:Em.
  - injection E as _ <-. eapply Km; eauto.
  - eapply R_trans; [eapply Km; eauto | eapply Kh; eauto].
Qed.

Lemma keeps_for_of {A : Type} (xs : list A) (body : A -> M unit) :
  (forall x, keeps R (body x)) -> keeps R (for_of xs body).
Proof.
  intros Kb. induction xs as [|x xs IH]; simpl.
  - apply keeps_ret.
  - apply keeps_bind; auto.
Qed.

Lemma keeps_console_log (msg : string) (args : list ConsoleArg) :
  (forall w c, R w (say [c] w)) -> keeps R (console_log msg args).
Proof. intros F. apply keeps_modify. intros w. apply F. Qed.

Lemma keeps_console_error (msg : string) (args : list ConsoleArg) :
  (forall w c, R w (say [c] w)) -> keeps R (console_error msg args).
Proof. intros F. apply keeps_modify. intros w. apply F. Qed.

Lemma keeps_record (c : WriteCall) :
  (forall w i, R w (with_invoked i w)) -> keeps R (record c).
Proof. intros F. apply keeps_modify. intros w. apply F. Qed.

Lemma keeps_set_stores (f : Stores -> Stores) :
  (forall w, R w (with_stores (f (stores w)) w)) -> keeps R (set_stores f).
Proof. intros F. apply keeps_modify. intros w. apply F. Qed.

Lemma keeps_Date_now :
  (forall w c, R w (with_clock c w)) -> keeps R Date_now.
Proof. intros F w r w' E. injection E as _ <-. apply F. Qed.

Lemma keeps_request :
  (forall w f, R w (with_faults f w)) -> keeps R request.
Proof.
  intros F w r w' E. unfold request in E.
  destruct (faults w) as [|[e|] rest]; injection E as _ <-;
    auto using R_refl.
Qed.

End Keeps.

Create HintDb keeps.

(** Breaks a [keeps] goal along the syntax of the script; [refl] and
    [trans] are the proofs that the relation is a preorder, [prim] settles
    what is asked of it on the console, the history, the clock and the
    faults. *)
Ltac keeps_script refl trans prim :=
  repeat first
    [ apply (keeps_ret _ refl)
    | apply (keeps_throw _ refl)
    | apply (keeps_lift _ refl)
    | apply (keeps_gets _ refl)
    | apply keeps_console_log; prim
    | apply keeps_console_error; prim
    | apply keeps_record; prim
    | apply keeps_Date_now; prim
    | apply (keeps_request _ refl); prim
    | apply keeps_set_stores; prim
    | apply keeps_modify; prim
    | solve [ auto with keeps ]
    | apply (keeps_bind _ trans); [ | intros ? ]
    | apply (keeps_try_catch _ trans); [ | intros ? ]
    | apply (keeps_for_of _ refl trans); intros ?
    | match goal with
      | |- keeps _ (if ?b then _ else _) => destruct b
      | |- keeps _ (match ?x with _ => _ end) => destruct x
      end ].

(* ====================================================================== *)
(** ** Dry run *)
(* ====================================================================== *)

Lemma same_stores_refl (w : World) : same_stores w w.
Proof. reflexivity. Qed.

Lemma same_stores_trans (a b c : World) :
  same_stores a b -> same_stores b c -> same_stores a c.
Proof. unfold same_stores. congruence. Qed.

Ltac dry := keeps_script same_stores_refl same_stores_trans
              ltac:(intros; reflexivity).

Lemma dry_updateProject (pageId : string) (u : NotionProjectPartial.t) :
  keeps same_stores (NotionClient.updateProject pageId u true).
Proof. unfold NotionClient.updateProject. dry. Qed.

Lemma dry_updateAction (pageId : string) (u : NotionActionPartial.t) :
  keeps same_stores (NotionClient.updateAction pageId u true).
Proof. unfold NotionClient.updateAction. dry. Qed.

Lemma read_getProjects : keeps same_stores NotionClient.getProjects.
Proof. unfold NotionClient.getProjects. dry. Qed.

Lemma read_getActions (projectId : option string) :
  keeps same_stores (NotionClient.getActions projectId).
Proof. unfold NotionClient.getActions. dry. Qed.

Lemma read_listProjects : keeps same_stores GitHubClient.listProjects.
Proof. unfold GitHubClient.listProjects. dry. Qed.

Lemma read_getIssuesByProject (projectId : string) :
  keeps same_stores (GitHubClient.getIssuesByProject projectId).
Proof. unfold GitHubClient.getIssuesByProject. dry. Qed.

#[local] Hint Resolve read_listProjects : keeps.

Lemma dry_getOrCreateProject (title : string) (description : option string) :
  keeps same_stores (GitHubClient.getOrCreateProject title description true).
Proof. unfold GitHubClient.getOrCreateProject. dry. Qed.

Lemma dry_createIssue (repo title : string) (body projectId : option string) :
  keeps same_stores (GitHubClient.createIssue repo title body projectId true).
Proof. unfold GitHubClient.createIssue. dry. Qed.

Lemma dry_updateIssue (issueId : string) (u : IssueUpdates.t) :
  keeps same_stores (GitHubClient.updateIssue issueId u true).
Proof. unfold GitHubClient.updateIssue. dry. Qed.

Lemma dry_addIssueToProject (issueId projectId : string) :
  keeps same_stores (GitHubClient.addIssueToProject issueId projectId true).
Proof. unfold GitHubClient.addIssueToProject. dry. Qed.

#[local] Hint Resolve dry_updateProject dry_updateAction read_getProjects
  read_getActions read_getIssuesByProject dry_getOrCreateProject
  dry_createIssue dry_updateIssue dry_addIssueToProject : keeps.

Section DryRun.

Context `{DateImpl}.

Lemma dry_syncAction (repo : string) (gp : GitHubProject.t)
    (issues : list GitHubIssue.t) (a : NotionAction.t) :
  keeps same_stores (syncAction_guarded true repo gp issues a).
Proof. unfold syncAction_guarded, syncAction. dry. Qed.

Lemma dry_syncProjects (repo : string) :
  keeps same_stores (syncProjects true repo).
Proof.
  pose proof dry_syncAction.
  unfold syncProjects, syncProject_guarded, syncProject, linkProject,
    syncActions.
  dry.
Qed.

Lemma dry_run (repo : string) : keeps same_stores (run true repo).
Proof.
  pose proof dry_syncProjects. unfold run. dry.
Qed.

End DryRun.


(* ====================================================================== *)
(** ** Failures and completion *)
(* ====================================================================== *)

Lemma getProjects_spec (w : World) :
  NotionClient.getProjects w
  = match next_fault w with
    | None => (Ok (notionProjects (stores w)), after_request w)
    | Some e => (Throw e, after_request w)
    end.
Proof.
  unfold NotionClient.getProjects.
  destruct (next_fault w) as [e|] eqn:F.
  - now rewrite (bind_throw _ _ _ _ _ (request_throw w e F)).
  - now rewrite (bind_ok _ _ _ _ _ (request_ok w F)).
Qed.

Lemma for_of_returns {A : Type} (xs : list A) (body : A -> M unit) :
  (forall x w, exists w', body x w = (Ok tt, w')) ->
  forall w, exists w', for_of xs body w = (Ok tt, w').
Proof.
  intros B. induction xs as [|x xs IH]; intros w; simpl.
  - now exists w.
  - destruct (B x w) as [w1 E]. rewrite (bind_ok _ _ _ _ _ E). apply IH.
Qed.

Section Running.

Context `{DateImpl}.

Lemma syncProject_guarded_eq (d : bool) (repo : string) (p : NotionProject.t)
    (w : World) :
  syncProject_guarded d repo p w
  = match syncProject d repo p (say [processing p] w) with
    | (Ok a, w1) => (Ok a, w1)
    | (Throw e, w1) => (Ok tt, say [project_error e] w1)
    end.
Proof. reflexivity. Qed.

Lemma syncAction_guarded_eq (d : bool) (repo : string) (gp : GitHubProject.t)
    (issues : list GitHubIssue.t) (a : NotionAction.t) (w : World) :
  syncAction_guarded d repo gp issues a w
  = match syncAction d repo gp issues a w with
    | (Ok x, w1) => (Ok x, w1)
    | (Throw e, w1) => (Ok tt, say [action_error a e] w1)
    end.
Proof. reflexivity. Qed.

Lemma syncProject_guarded_returns (d : bool) (repo : string)
    (p : NotionProject.t) (w : World) :
  exists w', syncProject_guarded d repo p w = (Ok tt, w').
Proof.
  rewrite syncProject_guarded_eq.
  destruct (syncProject d repo p _) as [[[]|e] w1]; eauto.
Qed.

Lemma syncAction_guarded_returns (d : bool) (repo : string)
    (gp : GitHubProject.t) (issues : list GitHubIssue.t) (a : NotionAction.t)
    (w : World) :
  exists w', syncAction_guarded d repo gp issues a w = (Ok tt, w').
Proof.
  rewrite syncAction_guarded_eq.
  destruct (syncAction d repo gp issues a w) as [[[]|e] w1]; eauto.
Qed.

Lemma syncProjects_returns (d : bool) (repo : string) (w : World) :
  next_fault w = None -> exists w', syncProjects d repo w = (Ok tt, w').
Proof.
  intros F. unfold syncProjects, console_log, modify.
  unfold bind at 1. cbv beta iota.
  set (w0 := with_console _ w).
  assert (E := getProjects_spec w0).
  replace (next_fault w0) with (@None string) in E by (symmetry; exact F).
  rewrite (bind_ok _ _ _ _ _ E).
  unfold bind at 1. cbv beta iota.
  apply for_of_returns. intros; apply syncProject_guarded_returns.
Qed.

Lemma syncProjects_throws (d : bool) (repo : string) (w : World) (e : string) :
  next_fault w = Some e -> exists w', syncProjects d repo w = (Throw e, w').
Proof.
  intros F. unfold syncProjects, console_log, modify.
  unfold bind at 1. cbv beta iota.
  set (w0 := with_console _ w).
  assert (E := getProjects_spec w0).
  replace (next_fault w0) with (Some e) in E by (symmetry; exact F).
  rewrite (bind_throw _ _ _ _ _ E). eauto.
Qed.

Lemma run_eq (d : bool) (repo : string) (w : World) :
  run d repo w
  = match syncProjects d repo (say (banner d repo) w) with
    | (Ok _, w1) => (Ok tt, say (closing_report d) w1)
    | (Throw e, w1) =>
        (Throw e, say [stderr (nl ++ "❌ Sync failed:") [arg_error e]] w1)
    end.
Proof.
  unfold run, console_log, console_error, modify, try_catch, throw.
  unfold bind at 1 2 3 4. cbv beta iota.
  match goal with
  | |- context [bind (syncProjects d repo) _ ?w0] =>
      replace w0 with (say (banner d repo) w)
        by (unfold say, banner; simpl; now rewrite <- !app_assoc)
  end.
  unfold bind.
  destruct (syncProjects d repo (say (banner d repo) w)) as [[[]|e] w1].
  - destruct d; simpl; unfold say, closing_report; simpl;
      rewrite <- ?app_assoc; reflexivity.
  - reflexivity.
Qed.

Lemma run_returns (d : bool) (repo : string) (w : World) :
  next_fault w = None ->
  exists w1,
    syncProjects d repo (say (banner d repo) w) = (Ok tt, w1) /\
    run d repo w = (Ok tt, say (closing_report d) w1).
Proof.
  intros F. rewrite run_eq.
  destruct (syncProjects_returns d repo (say (banner d repo) w) F) as [w1 E].
  exists w1. now rewrite E.
Qed.

Lemma run_throws (d : bool) (repo : string) (w : World) (e : string) :
  next_fault w = Some e -> exists w', run d repo w = (Throw e, w').
Proof.
  intros F. rewrite run_eq.
  destruct (syncProjects_throws d repo (say (banner d repo) w) e F) as [w1 E].
  rewrite E. eauto.
Qed.

End Running.

(* ====================================================================== *)
(** ** The console only grows *)
(* ====================================================================== *)

Lemma console_grows_refl (w : World) : console_grows w w.
Proof. exists []. now rewrite app_nil_r. Qed.

Lemma console_grows_trans (a b c : World) :
  console_grows a b -> console_grows b c -> console_grows a c.
Proof.
  intros [x X] [y Y]. exists (x ++ y)%list. now rewrite Y, X, app_assoc.
Qed.

Ltac grows_prim :=
  intros;
  first [ eexists; reflexivity
        | exists []; simpl; now rewrite app_nil_r ].

Ltac grows := keeps_script console_grows_refl console_grows_trans grows_prim.

Lemma grows_updateProject (pageId : string) (u : NotionProjectPartial.t)
    (d : bool) : keeps console_grows (NotionClient.updateProject pageId u d).
Proof. unfold NotionClient.updateProject. grows. Qed.

Lemma grows_updateAction (pageId : string) (u : NotionActionPartial.t)
    (d : bool) : keeps console_grows (NotionClient.updateAction pageId u d).
Proof. unfold NotionClient.updateAction. grows. Qed.

Lemma grows_getActions (projectId : option string) :
  keeps console_grows (NotionClient.getActions projectId).
Proof. unfold NotionClient.getActions. grows. Qed.

Lemma grows_listProjects : keeps console_grows GitHubClient.listProjects.
Proof. unfold GitHubClient.listProjects. grows. Qed.

Lemma grows_getIssuesByProject (projectId : string) :
  keeps console_grows (GitHubClient.getIssuesByProject projectId).
Proof. unfold GitHubClient.getIssuesByProject. grows. Qed.

Lemma grows_getOrCreateProject (title : string) (description : option string)
    (d : bool) :
  keeps console_grows (GitHubClient.getOrCreateProject title description d).
Proof.
  pose proof grows_listProjects.
  unfold GitHubClient.getOrCreateProject, GitHubClient.createProjectV2. grows.
Qed.

Lemma grows_addIssueToProject (issueId projectId : string) (d : bool) :
  keeps console_grows (GitHubClient.addIssueToProject issueId projectId d).
Proof. unfold GitHubClient.addIssueToProject. grows. Qed.

Lemma grows_createIssue (repo title : string) (body projectId : option string)
    (d : bool) :
  keeps console_grows (GitHubClient.createIssue repo title body projectId d).
Proof.
  pose proof grows_addIssueToProject.
  unfold GitHubClient.createIssue, GitHubClient.repository,
    GitHubClient.createIssue_mutation.
  grows.
Qed.

Lemma grows_mutate_issue (issueId : string) (f : GitHubIssue.t -> GitHubIssue.t) :
  keeps console_grows (GitHubClient.mutate_issue issueId f).
Proof. unfold GitHubClient.mutate_issue. grows. Qed.

Lemma grows_updateIssue (issueId : string) (u : IssueUpdates.t) (d : bool) :
  keeps console_grows (GitHubClient.updateIssue issueId u d).
Proof.
  pose proof grows_mutate_issue.
  unfold GitHubClient.updateIssue. grows.
Qed.

Section ConsoleGrows.

Context `{DateImpl}.

Lemma grows_syncAction_guarded (d : bool) (repo : string)
    (gp : GitHubProject.t) (issues : list GitHubIssue.t) (a : NotionAction.t) :
  keeps console_grows (syncAction_guarded d repo gp issues a).
Proof.
  pose proof grows_updateIssue. pose proof grows_updateAction.
  pose proof grows_createIssue.
  unfold syncAction_guarded, syncAction. grows.
Qed.

Lemma grows_syncProject (d : bool) (repo : string) (p : NotionProject.t) :
  keeps console_grows (syncProject d repo p).
Proof.
  pose proof grows_syncAction_guarded. pose proof grows_listProjects.
  pose proof grows_getOrCreateProject. pose proof grows_updateProject.
  pose proof grows_getActions. pose proof grows_getIssuesByProject.
  unfold syncProject, linkProject, syncActions. grows.
Qed.

End ConsoleGrows.

(* ====================================================================== *)
(** ** The claims on runs: dry run, failures, the closing report *)
(* ====================================================================== *)

Lemma append_empty (s : string) : s ++ "" = s.
Proof. induction s as [|c s IH]; simpl; congruence. Qed.

Lemma append_assoc (a b c : string) : (a ++ b) ++ c = a ++ (b ++ c).
Proof. induction a as [|x a IH]; simpl; congruence. Qed.

Lemma prefix_app (n b : string) : String.prefix n (n ++ b) = true.
Proof.
  induction n as [|x m IH]; simpl.
  - now destruct b.
  - destruct (ascii_dec x x); [exact IH | congruence].
Qed.

Lemma contains_here (n b : string) : contains n (n ++ b) = true.
Proof.
  destruct (n ++ b) as [|c rest] eqn:E.
  - destruct n; [reflexivity | discriminate].
  - pose proof (prefix_app n b) as P. rewrite E in P.
    change (String.prefix n (String c rest) || contains n rest = true).
    now rewrite P.
Qed.

Lemma contains_app (a n b : string) : contains n (a ++ n ++ b) = true.
Proof.
  induction a as [|c a IH].
  - exact (contains_here n b).
  - change (String.prefix n (String c (a ++ n ++ b))
            || contains n (a ++ n ++ b) = true).
    rewrite IH. apply orb_true_r.
Qed.

Lemma contains_end (a n : string) : contains n (a ++ n) = true.
Proof.
  pose proof (contains_app a n "") as C. now rewrite append_empty in C.
Qed.

(** Every line printed in the turn of a project is one of [turn_line]. *)
Lemma prints_turn_lines_refl (w : World) : prints_turn_lines w w.
Proof. exists []. split; [now rewrite app_nil_r | constructor]. Qed.

Lemma prints_turn_lines_trans (a b c : World) :
  prints_turn_lines a b -> prints_turn_lines b c -> prints_turn_lines a c.
Proof.
  intros (x & X & Fx) (y & Y & Fy). exists (x ++ y)%list. split.
  - now rewrite Y, X, app_assoc.
  - apply Forall_app. now split.
Qed.

Lemma lines_console_log (msg : string) (args : list ConsoleArg) :
  turn_line (stdout msg args) -> keeps prints_turn_lines (console_log msg args).
Proof.
  intros L w r w' E. injection E as _ <-.
  exists [stdout msg args]. split; [reflexivity | now constructor].
Qed.

Lemma lines_console_error (msg : string) (args : list ConsoleArg) :
  turn_line (stderr msg args) -> keeps prints_turn_lines (console_error msg args).
Proof.
  intros L w r w' E. injection E as _ <-.
  exists [stderr msg args]. split; [reflexivity | now constructor].
Qed.

Ltac lines_prim :=
  intros; exists []; split; [simpl; now rewrite app_nil_r | constructor].

Ltac lines :=
  repeat first
    [ apply (keeps_ret _ prints_turn_lines_refl)
    | apply (keeps_throw _ prints_turn_lines_refl)
    | apply (keeps_lift _ prints_turn_lines_refl)
    | apply (keeps_gets _ prints_turn_lines_refl)
    | apply lines_console_log; solve [ constructor ]
    | apply lines_console_error; solve [ constructor ]
    | apply keeps_record; lines_prim
    | apply keeps_Date_now; lines_prim
    | apply (keeps_request _ prints_turn_lines_refl); lines_prim
    | apply keeps_set_stores; lines_prim
    | apply keeps_modify; lines_prim
    | solve [ auto with keeps ]
    | apply (keeps_bind _ prints_turn_lines_trans); [ | intros ? ]
    | apply (keeps_try_catch _ prints_turn_lines_trans); [ | intros ? ]
    | apply (keeps_for_of _ prints_turn_lines_refl prints_turn_lines_trans);
      intros ?
    | match goal with
      | |- keeps _ (if ?b then _ else _) => destruct b
      | |- keeps _ (match ?x with _ => _ end) => destruct x
      end ].

Lemma lines_updateProject (pageId : string) (u : NotionProjectPartial.t)
    (d : bool) : keeps prints_turn_lines (NotionClient.updateProject pageId u d).
Proof. unfold NotionClient.updateProject. lines. Qed.

Lemma lines_updateAction (pageId : string) (u : NotionActionPartial.t)
    (d : bool) : keeps prints_turn_lines (NotionClient.updateAction pageId u d).
Proof. unfold NotionClient.updateAction. lines. Qed.

Lemma lines_getActions (projectId : option string) :
  keeps prints_turn_lines (NotionClient.getActions projectId).
Proof. unfold NotionClient.getActions. lines. Qed.

Lemma lines_listProjects : keeps prints_turn_lines GitHubClient.listProjects.
Proof. unfold GitHubClient.listProjects. lines. Qed.

Lemma lines_getIssuesByProject (projectId : string) :
  keeps prints_turn_lines (GitHubClient.getIssuesByProject projectId).
Proof. unfold GitHubClient.getIssuesByProject. lines. Qed.

Lemma lines_getOrCreateProject (title : string) (description : option string)
    (d : bool) :
  keeps prints_turn_lines (GitHubClient.getOrCreateProject title description d).
Proof.
  pose proof lines_listProjects.
  unfold GitHubClient.getOrCreateProject, GitHubClient.createProjectV2. lines.
Qed.

Lemma lines_addIssueToProject (issueId projectId : string) (d : bool) :
  keeps prints_turn_lines (GitHubClient.addIssueToProject issueId projectId d).
Proof. unfold GitHubClient.addIssueToProject. lines. Qed.

Lemma lines_createIssue (repo title : string) (body projectId : option string)
    (d : bool) :
  keeps prints_turn_lines (GitHubClient.createIssue repo title body projectId d).
Proof.
  pose proof lines_addIssueToProject.
  unfold GitHubClient.createIssue, GitHubClient.repository,
    GitHubClient.createIssue_mutation.
  lines.
Qed.

Lemma lines_mutate_issue (issueId : string) (f : GitHubIssue.t -> GitHubIssue.t) :
  keeps prints_turn_lines (GitHubClient.mutate_issue issueId f).
Proof. unfold GitHubClient.mutate_issue. lines. Qed.

Lemma lines_updateIssue (issueId : string) (u : IssueUpdates.t) (d : bool) :
  keeps prints_turn_lines (GitHubClient.updateIssue issueId u d).
Proof.
  pose proof lines_mutate_issue.
  unfold GitHubClient.updateIssue. lines.
Qed.

Section TurnLines.

Context `{DateImpl}.

Lemma lines_syncAction_guarded (d : bool) (repo : string)
    (gp : GitHubProject.t) (issues : list GitHubIssue.t) (a : NotionAction.t) :
  keeps prints_turn_lines (syncAction_guarded d repo gp issues a).
Proof.
  pose proof lines_updateIssue. pose proof lines_updateAction.
  pose proof lines_createIssue.
  unfold syncAction_guarded, syncAction. lines.
Qed.

Lemma lines_syncProject_guarded (d : bool) (repo : string)
    (p : NotionProject.t) :
  keeps prints_turn_lines (syncProject_guarded d repo p).
Proof.
  pose proof lines_syncAction_guarded. pose proof lines_listProjects.
  pose proof lines_getOrCreateProject. pose proof lines_updateProject.
  pose proof lines_getActions. pose proof lines_getIssuesByProject.
  unfold syncProject_guarded, syncProject, linkProject, syncActions. lines.
Qed.

(** What [syncProjects] prints when it returns: its two heading lines, then
    lines of the turns of the projects. *)
Lemma lines_syncProjects (d : bool) (repo : string) (w w1 : World) :
  syncProjects d repo w = (Ok tt, w1) ->
  exists turns,
    console w1
    = (console w
       ++ projects_heading (List.length (notionProjects (stores w)))
       ++ turns)%list /\
    Forall turn_line turns.
Proof.
  intros E. unfold syncProjects, console_log, modify in E.
  unfold bind at 1 in E. cbv beta iota in E.
  set (w0 := with_console _ w) in E.
  assert (G := getProjects_spec w0).
  destruct (next_fault w0) as [e|].
  - rewrite (bind_throw _ _ _ _ _ G) in E. discriminate.
  - rewrite (bind_ok _ _ _ _ _ G) in E.
    unfold bind at 1 in E. cbv beta iota in E.
    destruct (keeps_for_of _ prints_turn_lines_refl prints_turn_lines_trans
                _ _ (lines_syncProject_guarded d repo) _ _ _ E)
      as (turns & C & T).
    exists turns. split; [|exact T]. rewrite C.
    unfold w0, projects_heading. destruct w; simpl.
    now rewrite <- !app_assoc.
Qed.

End TurnLines.

Section Runs.

Context `{DateImpl}.

(** C4: with [dryRun] set, each write method of the clients returns early
    (or, for the two creations, returns the synthetic record) with both
    stores as they were; the whole run leaves both stores as they were, and
    it completes, with the reminder as its last line, as soon as the first
    listing of the tracker's projects goes through. *)
Theorem dry_run_writes_nothing :
  (forall pageId u w, exists w',
     NotionClient.updateProject pageId u true w = (Ok tt, w') /\
     stores w' = stores w) /\
  (forall pageId u w, exists w',
     NotionClient.updateAction pageId u true w = (Ok tt, w') /\
     stores w' = stores w) /\
  (forall repo title body projectId w, exists w',
     GitHubClient.createIssue repo title body projectId true w
     = (Ok (GitHubClient.dry_run_issue title body (iso_string (clock w))), w') /\
     stores w' = stores w) /\
  (forall issueId u w, exists w',
     GitHubClient.updateIssue issueId u true w = (Ok tt, w') /\
     stores w' = stores w) /\
  (forall issueId projectId w, exists w',
     GitHubClient.addIssueToProject issueId projectId true w = (Ok tt, w') /\
     stores w' = stores w) /\
  (forall title description w,
     next_fault w = None ->
     find (fun p => String.eqb (GitHubProject.title p) title)
       (firstn 100 (githubProjects (stores w))) = None ->
     exists w',
       GitHubClient.getOrCreateProject title description true w
       = (Ok (GitHubClient.dry_run_project title description
                (iso_string (clock w))), w') /\
       stores w' = stores w) /\
  (forall title description,
     keeps same_stores (GitHubClient.getOrCreateProject title description true)) /\
  (forall repo, keeps same_stores (run true repo)) /\
  (forall repo w,
     next_fault w = None ->
     exists w1,
       run true repo w = (Ok tt, say (closing_report true) w1) /\
       stores (say (closing_report true) w1) = stores w).
Proof.
  repeat split; try solve [intros; eexists; split; reflexivity].
  - intros title description w F G.
    unfold GitHubClient.getOrCreateProject, record, modify.
    unfold bind at 1. cbv beta iota.
    set (w0 := with_invoked _ w).
    assert (F0 : next_fault w0 = None) by exact F.
    rewrite (bind_ok _ _ _ _ _ (listProjects_ok w0 F0)).
    change (githubProjects (stores w0)) with (githubProjects (stores w)).
    rewrite G. eexists; split; reflexivity.
  - apply dry_getOrCreateProject.
  - apply dry_run.
  - intros repo w F.
    destruct (run_returns true repo w F) as (w1 & _ & E).
    exists w1. split; [exact E|].
    exact (dry_run repo _ _ _ E).
Qed.

(** C9, as amended: a run that completes prints no summary of counts.
    Its whole output is the banner, the two heading lines of [syncProjects]
    (the second giving the number of tracker projects found), lines of the
    turns of the projects, each of one of the forms of [turn_line], and the
    closing report: the line "Sync completed successfully!", followed under
    dry run by the reminder to run with DRY_RUN=false.  The closing report
    is the same whatever the run did, and carries no number. *)
Theorem completed_run_closing_report (d : bool) (repo : string) (w w' : World) :
  run d repo w = (Ok tt, w') ->
  exists w1 turns,
    syncProjects d repo (say (banner d repo) w) = (Ok tt, w1) /\
    w' = say (closing_report d) w1 /\
    console w' = (console w1 ++ closing_report d)%list /\
    stores w' = stores w1 /\
    console w'
    = (console w ++ banner d repo
       ++ projects_heading (List.length (notionProjects (stores w)))
       ++ turns ++ closing_report d)%list /\
    Forall turn_line turns /\
    closing_report d
    = (stdout (nl ++ "✅ Sync completed successfully!") []
       :: (if d
           then [stdout (nl ++ "💡 Run with DRY_RUN=false to apply changes") []]
           else []))%list /\
    forallb (fun c => negb (has_digit (entry_text c))) (closing_report d) = true.
Proof.
  intros E. rewrite run_eq in E.
  destruct (syncProjects d repo (say (banner d repo) w)) as [[[]|e] w1] eqn:S;
    [|discriminate].
  injection E as <-.
  destruct (lines_syncProjects d repo _ _ S) as (turns & C & T).
  exists w1, turns.
  split; [reflexivity|]. split; [reflexivity|]. split; [reflexivity|].
  split; [reflexivity|]. split.
  - unfold say at 1. cbn [console with_console]. rewrite C.
    unfold say. destruct w; simpl. now rewrite <- !app_assoc.
  - split; [exact T|]. split; [reflexivity|]. destruct d; reflexivity.
Qed.

(** C5, as amended: a failure in the turn of a project, or of an action, is
    caught and logged -- for an action with its title and the text of the
    error, for a project with the text of the error alone, after the
    "Processing" line that names the project -- and the loop goes on with
    the next entity; the run as a whole throws exactly when the first
    listing of the tracker's projects does. *)
Theorem failures_are_caught_per_entity :
  (forall d repo p rest w, exists w',
     syncProject_guarded d repo p w = (Ok tt, w') /\
     for_of (p :: rest) (syncProject_guarded d repo) w
     = for_of rest (syncProject_guarded d repo) w') /\
  (forall d repo p w e w1,
     syncProject d repo p (say [processing p] w) = (Throw e, w1) ->
     syncProject_guarded d repo p w = (Ok tt, say [project_error e] w1) /\
     exists between,
       console (say [project_error e] w1)
       = (console w ++ [processing p] ++ between ++ [project_error e])%list) /\
  (forall d repo gp issues a rest w, exists w',
     syncAction_guarded d repo gp issues a w = (Ok tt, w') /\
     for_of (a :: rest) (syncAction_guarded d repo gp issues) w
     = for_of rest (syncAction_guarded d repo gp issues) w') /\
  (forall d repo gp issues a w e w1,
     syncAction d repo gp issues a w = (Throw e, w1) ->
     syncAction_guarded d repo gp issues a w = (Ok tt, say [action_error a e] w1) /\
     contains (NotionAction.title a) (entry_text (action_error a e)) = true /\
     contains e (entry_text (action_error a e)) = true) /\
  (forall d repo w,
     (exists e w', run d repo w = (Throw e, w')) <->
     (exists e w', NotionClient.getProjects w = (Throw e, w'))).
Proof.
  split; [|split; [|split; [|split]]].
  - intros d repo p rest w.
    destruct (syncProject_guarded_returns d repo p w) as [w' E].
    exists w'. split; [exact E | now apply for_of_cons].
  - intros d repo p w e w1 E. split.
    + rewrite syncProject_guarded_eq. now rewrite E.
    + destruct (grows_syncProject d repo p _ _ _ E) as [between B].
      exists between. unfold say in *. simpl in *. rewrite B.
      now rewrite <- !app_assoc.
  - intros d repo gp issues a rest w.
    destruct (syncAction_guarded_returns d repo gp issues a w) as [w' E].
    exists w'. split; [exact E | now apply for_of_cons].
  - intros d repo gp issues a w e w1 E. split; [|split].
    + rewrite syncAction_guarded_eq. now rewrite E.
    + apply contains_app.
    + unfold action_error, entry_text.
      rewrite <- !append_assoc. apply contains_end.
  - intros d repo w. split.
    + intros (e & w' & E).
      destruct (next_fault w) as [e'|] eqn:F.
      * rewrite getProjects_spec, F. eauto.
      * destruct (run_returns d repo w F) as (w1 & _ & E'). congruence.
    + intros (e & w' & E). rewrite getProjects_spec in E.
      destruct (next_fault w) as [e'|] eqn:F; [|discriminate].
      destruct (run_throws d repo w e' F) as [w2 E2]. eauto.
Qed.

End Runs.

(** The dry run of a first run: the project would be created, nothing is
    written, the run completes. *)
Lemma dry_run_writes_nothing_witness :
  (exists w',
     GitHubClient.getOrCreateProject "Launch Plan" (Some "Q2 launch") true
       first_run_world
     = (Ok (GitHubClient.dry_run_project "Launch Plan" (Some "Q2 launch")
              (iso_string (clock first_run_world))), w') /\
     stores w' = stores first_run_world) /\
  (exists w1,
     @run iso_dates true "chittyreception" first_run_world
     = (Ok tt, say (closing_report true) w1) /\
     stores (say (closing_report true) w1) = stores first_run_world).
Proof.
  destruct (@dry_run_writes_nothing iso_dates)
    as (_ & _ & _ & _ & _ & G & _ & _ & R).
  split.
  - apply G; reflexivity.
  - apply R; reflexivity.
Defined.

(** The output of the first live run, between the heading and the closing
    report. *)
Lemma completed_run_closing_report_witness :
  exists w1 turns,
    snd (@run iso_dates false "chittyreception" first_run_world)
    = say (closing_report false) w1 /\
    console (snd (@run iso_dates false "chittyreception" first_run_world))
    = (banner false "chittyreception" ++ projects_heading 1 ++ turns
       ++ closing_report false)%list /\
    Forall turn_line turns.
Proof.
  destruct (@completed_run_closing_report iso_dates false "chittyreception"
              first_run_world
              (snd (@run iso_dates false "chittyreception" first_run_world)))
    as (w1 & turns & _ & E & _ & _ & C & T & _).
  - vm_compute. reflexivity.
  - exists w1, turns. split; [exact E|]. split; [exact C | exact T].
Defined.

(** The first live run creates one project and one issue and completes.
    Its whole output is the fourteen lines below: the last is the
    completion line, and no line of it is a summary of counts; none speaks
    of conflicts or of errors, as a summary of the eight counts would. *)
Lemma completed_run_reports_no_counts :
  exists w',
    @run iso_dates false "chittyreception" first_run_world = (Ok tt, w') /\
    List.length (githubProjects (stores first_run_world)) = 0%nat /\
    List.length (githubProjects (stores w')) = 1%nat /\
    List.length (githubIssues (stores first_run_world)) = 0%nat /\
    List.length (githubIssues (stores w')) = 1%nat /\
    console first_run_world = [] /\
    console w'
    = [ stdout "🔄 ChittyCan™ Notion ↔ GitHub Sync" [];
        stdout "====================================" [];
        stdout "Mode: 🚀 LIVE" [];
        stdout ("Repository: chittyreception" ++ nl) [];
        stdout (nl ++ "📊 Syncing Projects..." ++ nl) [];
        stdout "Found 1 Notion projects" [];
        stdout (nl ++ "→ Processing: Launch Plan") [];
        stdout "✓ Created GitHub project: Launch Plan" [];
        stdout "  ✓ Synced with GitHub Project #3" [];
        stdout (nl ++ "  📝 Syncing Actions for Launch Plan...") [];
        stdout "  Found 1 Notion actions, 0 GitHub issues" [];
        stdout "✓ Created GitHub issue #4: Write copy" [];
        stdout "    ✓ Created & linked GitHub issue #4: Write copy" [];
        stdout (nl ++ "✅ Sync completed successfully!") [] ] /\
    forallb (fun c => negb (contains "onflict" (entry_text c)
                          || contains "ONFLICT" (entry_text c)
                          || contains "rror" (entry_text c)
                          || contains "RROR" (entry_text c)))
      (console w') = true.
Proof.
  eexists. split; [vm_compute; reflexivity|].
  repeat split.
Qed.

(** A project whose first request to the board is refused. *)
Lemma failures_are_caught_per_entity_witness :
  exists w1,
    @syncProject_guarded iso_dates false "chittyreception" launch_plan_unlinked
      board_refuses_world
    = (Ok tt, say [project_error "Error: GitHub unavailable"] w1).
Proof.
  destruct (@failures_are_caught_per_entity iso_dates) as (_ & P & _).
  eexists.
  refine (proj1 (P false "chittyreception" launch_plan_unlinked
                   board_refuses_world "Error: GitHub unavailable" _ _)).
  vm_compute. reflexivity.
Defined.

(** The board refuses the request made for the project "Launch Plan"
    (page np-1): the run completes, and its one error line carries neither
    the name nor the identifier of the project. *)
Lemma project_error_line_names_no_project :
  exists w',
    @run iso_dates false "chittyreception" board_down_world = (Ok tt, w') /\
    filter is_stderr (console w')
    = [stderr "  ✗ Error syncing project: Error: GitHub unavailable" []] /\
    contains (NotionProject.name launch_plan_unlinked)
      "  ✗ Error syncing project: Error: GitHub unavailable" = false /\
    contains (NotionProject.id launch_plan_unlinked)
      "  ✗ Error syncing project: Error: GitHub unavailable" = false.
Proof.
  eexists. split; [vm_compute; reflexivity|]. repeat split.
Qed.

(* ====================================================================== *)
(** ** Stale links *)
(* ====================================================================== *)

Lemma no_faults_next (w : World) : faults w = [] -> next_fault w = None.
Proof. unfold next_fault. now intros ->. Qed.

Lemma no_faults_after_request (w : World) : faults w = [] -> after_request w = w.
Proof.
  unfold after_request. destruct w as [s c f n o i]; simpl. now intros ->.
Qed.

Lemma getOrCreateProject_found (title : string) (description : option string)
    (d : bool) (w : World) (existing : GitHubProject.t) :
  next_fault w = None ->
  find (fun p => String.eqb (GitHubProject.title p) title)
    (firstn 100 (githubProjects (stores w))) = Some existing ->
  exists w',
    GitHubClient.getOrCreateProject title description d w = (Ok existing, w') /\
    stores w' = stores w.
Proof.
  intros F G.
  unfold GitHubClient.getOrCreateProject, record, modify.
  unfold bind at 1. cbv beta iota.
  set (w0 := with_invoked _ w).
  assert (F0 : next_fault w0 = None) by exact F.
  rewrite (bind_ok _ _ _ _ _ (listProjects_ok w0 F0)).
  change (githubProjects (stores w0)) with (githubProjects (stores w)).
  rewrite G. eexists; split; reflexivity.
Qed.

Lemma getOrCreateProject_created (title : string) (description : option string)
    (w : World) :
  faults w = [] ->
  find (fun p => String.eqb (GitHubProject.title p) title)
    (firstn 100 (githubProjects (stores w))) = None ->
  exists created w',
    GitHubClient.getOrCreateProject title description false w
    = (Ok created, w') /\
    GitHubProject.title created = title /\
    GitHubProject.shortDescription created = description /\
    githubProjects (stores w') = (githubProjects (stores w) ++ [created])%list.
Proof.
  intros F G.
  unfold GitHubClient.getOrCreateProject, record, modify.
  unfold bind at 1. cbv beta iota.
  set (w0 := with_invoked _ w).
  assert (F0 : next_fault w0 = None) by (apply no_faults_next; exact F).
  rewrite (bind_ok _ _ _ _ _ (listProjects_ok w0 F0)).
  change (githubProjects (stores w0)) with (githubProjects (stores w)).
  rewrite G.
  rewrite no_faults_after_request by exact F.
  unfold GitHubClient.createProjectV2, console_log, set_stores, modify, gets,
    Date_now, ret, bind, request.
  simpl. repeat (rewrite F; simpl).
  eexists; eexists; split; [reflexivity|]. repeat split.
Qed.

Section StaleLinks.

Context `{DateImpl}.

(** C8, as amended: a project whose stored board id resolves to no board
    project gets the "not found" warning and is then treated exactly as an
    unlinked project: matched by exact title among the board's projects, or
    created.  An action whose stored issue id is not among the issues of
    the board project gets the warning and nothing else: the turn ends with
    both stores as they were and no write method invoked. *)
Theorem stale_link_relinks_projects_only :
  (forall d repo p w,
     truthy (NotionProject.githubProjectId p) = true ->
     next_fault w = None ->
     find (fun g => String.eqb (GitHubProject.id g)
                      (text (NotionProject.githubProjectId p)))
       (firstn 100 (githubProjects (stores w))) = None ->
     syncProject d repo p w
     = syncProject d repo (unlinked p) (say [project_missing] (after_request w))) /\
  (forall d repo p w,
     syncProject d repo (unlinked p) w
     = bind (GitHubClient.getOrCreateProject (NotionProject.name p)
               (NotionProject.description p) d)
         (linkProject d repo p) w) /\
  (forall title description d w existing,
     next_fault w = None ->
     find (fun p => String.eqb (GitHubProject.title p) title)
       (firstn 100 (githubProjects (stores w))) = Some existing ->
     exists w',
       GitHubClient.getOrCreateProject title description d w = (Ok existing, w') /\
       stores w' = stores w) /\
  (forall title description w,
     faults w = [] ->
     find (fun p => String.eqb (GitHubProject.title p) title)
       (firstn 100 (githubProjects (stores w))) = None ->
     exists created w',
       GitHubClient.getOrCreateProject title description false w
       = (Ok created, w') /\
       GitHubProject.title created = title /\
       GitHubProject.shortDescription created = description /\
       githubProjects (stores w') = (githubProjects (stores w) ++ [created])%list) /\
  (forall d repo gp issues a w,
     truthy (NotionAction.githubIssueId a) = true ->
     find (fun i => String.eqb (GitHubIssue.id i)
                      (text (NotionAction.githubIssueId a))) issues = None ->
     syncAction_guarded d repo gp issues a w = (Ok tt, say [issue_missing a] w) /\
     stores (say [issue_missing a] w) = stores w /\
     invoked (say [issue_missing a] w) = invoked w).
Proof.
  split; [|split; [|split; [|split]]].
  - intros d repo p w L F G.
    unfold syncProject at 1. rewrite L.
    rewrite (bind_ok _ _ _ _ _ (listProjects_ok w F)). rewrite G.
    reflexivity.
  - reflexivity.
  - intros. now apply getOrCreateProject_found.
  - intros. now apply getOrCreateProject_created.
  - intros d repo gp issues a w L G.
    unfold syncAction_guarded, syncAction, try_catch. rewrite L, G.
    repeat split.
Qed.

End StaleLinks.

(** A project linked to a board project that is gone, on a board without a
    project of its name: one is created. *)
Lemma stale_link_relinks_projects_only_witness :
  @syncProject iso_dates false "chittyreception" launch_plan stale_project_world
  = @syncProject iso_dates false "chittyreception" (unlinked launch_plan)
      (say [project_missing] (after_request stale_project_world)) /\
  exists created w',
    GitHubClient.getOrCreateProject "Launch Plan" (Some "Q2 launch") false
      stale_project_world = (Ok created, w') /\
    GitHubProject.title created = "Launch Plan" /\
    GitHubProject.shortDescription created = Some "Q2 launch" /\
    githubProjects (stores w')
    = (githubProjects (stores stale_project_world) ++ [created])%list.
Proof.
  destruct (@stale_link_relinks_projects_only iso_dates) as (P & _ & _ & C & _).
  split.
  - apply P; reflexivity.
  - apply C; reflexivity.
Defined.

(** An action linked to an issue that the board's project does not list:
    after a live run no issue has been created, the action is linked as
    before, and [createIssue] has not been invoked. *)
Lemma stale_issue_is_not_recreated :
  exists w',
    @run iso_dates false "chittyreception" stale_issue_world = (Ok tt, w') /\
    In (stdout "    ⚠️  Linked GitHub issue not found for: Write copy" [])
      (console w') /\
    githubIssues (stores w') = githubIssues (stores stale_issue_world) /\
    map ActionPage.githubIssueId (notionActions (stores w')) = [Some "I_2"] /\
    issue_of "I_2" w' = None /\
    existsb is_createIssue (invoked w') = false.
Proof.
  eexists. split; [vm_compute; reflexivity|].
  split; [|repeat split].
  simpl. tauto.
Qed.

(* ====================================================================== *)
(** ** What a sync propagates *)
(* ====================================================================== *)

Lemma update_first_find {A : Type} (p : A -> bool) (g : A -> A) (l : list A)
    (x : A) :
  find p l = Some x -> p (g x) = true ->
  exists l', update_first p g l = Some l' /\ find p l' = Some (g x).
Proof.
  intros F G. induction l as [|a l IH]; simpl in *; [discriminate|].
  destruct (p a) eqn:Pa.
  - injection F as ->. eexists; split; [reflexivity|]. simpl. now rewrite G.
  - destruct (IH F) as (l' & U & F'). rewrite U.
    eexists; split; [reflexivity|]. simpl. now rewrite Pa.
Qed.

Lemma update_first_map {A B : Type} (p : A -> bool) (g : A -> A) (h : A -> B)
    (l l' : list A) :
  (forall x, h (g x) = h x) -> update_first p g l = Some l' ->
  map h l' = map h l.
Proof.
  intros G. revert l'. induction l as [|a l IH]; simpl; intros l' U;
    [discriminate|].
  destruct (p a).
  - injection U as <-. simpl. now rewrite G.
  - destruct (update_first p g l) as [r|]; [|discriminate].
    injection U as <-. simpl. now rewrite (IH r).
Qed.

Lemma mutate_issue_live (issueId : string) (f : GitHubIssue.t -> GitHubIssue.t)
    (w : World) (i0 : GitHubIssue.t) :
  faults w = [] ->
  issue_of issueId w = Some i0 ->
  GitHubIssue.id (f i0) = GitHubIssue.id i0 ->
  exists w',
    GitHubClient.mutate_issue issueId f w = (Ok tt, w') /\
    faults w' = [] /\
    notionActions (stores w') = notionActions (stores w) /\
    issue_of issueId w' = Some (GitHubClient.touch (iso_string (clock w)) (f i0)).
Proof.
  intros F I E. unfold issue_of in I.
  assert (P : (fun i => String.eqb (GitHubIssue.id i) issueId)
                (GitHubClient.touch (iso_string (clock w)) (f i0)) = true).
  { simpl. rewrite E. exact (proj2 (find_some _ _ I)). }
  destruct (update_first_find _ (fun i => GitHubClient.touch (iso_string (clock w)) (f i))
              _ _ I P) as (l' & U & F').
  unfold GitHubClient.mutate_issue, bind, request, Date_now, gets, set_stores,
    modify, throw.
  rewrite F. simpl. rewrite U.
  eexists; split; [reflexivity|]. simpl. repeat split; auto.
Qed.



















Section Propagation.

Context `{DateImpl}.




Lemma bind_console_log {B : Type} (msg : string) (args : list ConsoleArg)
    (k : unit -> M B) (w : World) :
  bind (console_log msg args) k w = k tt (say [stdout msg args] w).
Proof. reflexivity. Qed.





End Propagation.



(* ====================================================================== *)
(** ** More on the decision and on the status table *)
(* ====================================================================== *)

(** X1: a status maps to CLOSED exactly when it is "Completed" or
    "Cancelled" (with this spelling), to a value that is no state exactly
    when it names a member of [Object.prototype], and to OPEN otherwise:
    an unknown or differently spelled status keeps the issue open. *)
Theorem board_state_of_status (s : string) :
  (trackerStatusToBoardState s = IsState CLOSED <->
   s = "Completed" \/ s = "Cancelled") /\
  (forall k, trackerStatusToBoardState s = NotAState k <->
             k = s /\ existsb (String.eqb s) Object_prototype = true) /\
  (existsb (String.eqb s) Object_prototype = false ->
   s <> "Completed" -> s <> "Cancelled" ->
   trackerStatusToBoardState s = IsState OPEN).
Proof.
  unfold trackerStatusToBoardState, js_get, NOTION_TO_GITHUB_STATUS.
  cbn [own_property].
  destruct (String.eqb_spec "Not Started" s) as [<-|N1];
    [repeat split; try (intros [E|E]); try intros [E F]; intros;
     try (vm_compute in F; discriminate F); congruence|].
  destruct (String.eqb_spec "In Progress" s) as [<-|N2];
    [repeat split; try (intros [E|E]); try intros [E F]; intros;
     try (vm_compute in F; discriminate F); congruence|].
  destruct (String.eqb_spec "Blocked" s) as [<-|N3];
    [repeat split; try (intros [E|E]); try intros [E F]; intros;
     try (vm_compute in F; discriminate F); congruence|].
  destruct (String.eqb_spec "On Hold" s) as [<-|N4];
    [repeat split; try (intros [E|E]); try intros [E F]; intros;
     try (vm_compute in F; discriminate F); congruence|].
  destruct (String.eqb_spec "Completed" s) as [<-|N5];
    [repeat split; try (intros [E|E]); try intros [E F]; intros;
     try (vm_compute in F; discriminate F); solve [congruence | auto]|].
  destruct (String.eqb_spec "Cancelled" s) as [<-|N6];
    [repeat split; try (intros [E|E]); try intros [E F]; intros;
     try (vm_compute in F; discriminate F); solve [congruence | auto]|].
  destruct (existsb (String.eqb s) Object_prototype) eqn:P.
  - repeat split; try (intros [E|E]); try intros [E F]; intros;
      congruence.
  - repeat split; try (intros [E|E]); try intros [E F]; intros;
      congruence.
Qed.

Section NeverSynced.

Context `{DateImpl}.

(** X2: a pair with no [lastSyncAt] (missing or empty) and two valid
    timestamps after the epoch is always decided a conflict, the reason
    giving both times in ISO form: a linked pair that lost its Last Sync
    date is not synced in either direction. *)
Theorem never_synced_pair_conflicts
    (l r : string) (s : option string) (tl tr : Z) :
  truthy s = false ->
  Date_of_string l = Some tl ->
  Date_of_string r = Some tr ->
  tl > 0 -> tr > 0 ->
  determineSyncDirection l r s
  = Ok (mkSyncState conflict
          ("Both updated since last sync (Notion: " ++ iso_string tl
           ++ ", GitHub: " ++ iso_string tr ++ ")")).
Proof.
  intros S Hl Hr Pl Pr.
  unfold determineSyncDirection, lastSync_time. rewrite S.
  rewrite !Date_of_number_of_string, Hl, Hr. simpl.
  destruct (Z.gtb_spec tl 0); [|lia].
  destruct (Z.gtb_spec tr 0); [|lia].
  reflexivity.
Qed.

End NeverSynced.

Lemma never_synced_pair_conflicts_witness :
  decided (@determineSyncDirection iso_dates t_plus1 t_before None)
  = Some conflict.
Proof.
  rewrite (@never_synced_pair_conflicts iso_dates t_plus1 t_before None
             1709251200001 1709208000000); reflexivity || lia.
Defined.

(* ====================================================================== *)
(** ** Database identifiers *)
(* ====================================================================== *)

Lemma length_append (a b : string) :
  String.length (a ++ b) = (String.length a + String.length b)%nat.
Proof. induction a as [|c a IH]; simpl; congruence. Qed.

Lemma substring_all (s : string) : substring 0 (String.length s) s = s.
Proof. induction s as [|c s IH]; simpl; congruence. Qed.

Lemma substring_empty (n m : nat) : substring n m "" = "".
Proof. destruct n, m; reflexivity. Qed.

Lemma substring_zero (s : string) (n : nat) : substring n 0 s = "".
Proof.
  revert n. induction s as [|c s IH]; intros n.
  - apply substring_empty.
  - destruct n; simpl; auto.
Qed.

Lemma substring_split (s : string) (n a b : nat) :
  substring n (a + b) s = substring n a s ++ substring (n + a) b s.
Proof.
  revert n a. induction s as [|c s IH]; intros n a.
  - now rewrite !substring_empty.
  - destruct n as [|n].
    + destruct a as [|a]; simpl; [reflexivity|].
      now rewrite (IH 0%nat a).
    + simpl. apply IH.
Qed.

Lemma length_substring (s : string) (n m : nat) :
  (n + m <= String.length s)%nat -> String.length (substring n m s) = m.
Proof.
  revert n m. induction s as [|c s IH]; intros n m L; simpl in L.
  - assert (n = 0%nat /\ m = 0%nat) as [-> ->] by lia. reflexivity.
  - destruct n as [|n].
    + destruct m as [|m]; simpl; [reflexivity|].
      rewrite (IH 0%nat m); [reflexivity | simpl; lia].
    + simpl. apply IH. lia.
Qed.

Lemma all_chars_substring (p : ascii -> bool) (s : string) (n m : nat) :
  all_chars p s = true -> all_chars p (substring n m s) = true.
Proof.
  revert n m. induction s as [|c s IH]; intros n m A.
  - now rewrite substring_empty.
  - simpl in A. apply andb_true_iff in A as [Pc A].
    destruct n as [|n].
    + destruct m as [|m]; simpl; [reflexivity|].
      rewrite Pc. now apply IH.
    + simpl. now apply IH.
Qed.

Lemma all_chars_weaken (p q : ascii -> bool) (s : string) :
  (forall c, p c = true -> q c = true) ->
  all_chars p s = true -> all_chars q s = true.
Proof.
  intros W. induction s as [|c s IH]; simpl; [reflexivity|].
  intros A. apply andb_true_iff in A as [Pc A].
  rewrite (W c Pc). now apply IH.
Qed.

Lemma hex_is_word (c : ascii) : is_hex_digit c = true -> is_word_char c = true.
Proof.
  unfold is_hex_digit, is_word_char, in_range.
  intros E. apply orb_true_iff in E as [E|E]; [apply orb_true_iff in E as [E|E]|];
    apply andb_true_iff in E as [A B];
    apply Nat.leb_le in A; apply Nat.leb_le in B.
  - replace ((48 <=? nat_of_ascii c)%nat && (nat_of_ascii c <=? 57)%nat)
      with true; [reflexivity|].
    symmetry. apply andb_true_iff. split; now apply Nat.leb_le.
  - replace ((97 <=? nat_of_ascii c)%nat && (nat_of_ascii c <=? 122)%nat)
      with true; [now rewrite orb_true_r|].
    symmetry. apply andb_true_iff. split; apply Nat.leb_le; lia.
  - replace ((65 <=? nat_of_ascii c)%nat && (nat_of_ascii c <=? 90)%nat)
      with true; [now rewrite !orb_true_r|].
    symmetry. apply andb_true_iff. split; apply Nat.leb_le; lia.
Qed.

Lemma hex_is_no_dash (c : ascii) : is_hex_digit c = true -> Ascii.eqb c "-" = false.
Proof.
  intros E. destruct (Ascii.eqb_spec c "-") as [->|]; [discriminate|reflexivity].
Qed.

Lemma remove_dashes_app (a b : string) :
  remove_dashes (a ++ b) = remove_dashes a ++ remove_dashes b.
Proof.
  induction a as [|c a IH]; simpl; [reflexivity|].
  destruct (Ascii.eqb c "-"); simpl; congruence.
Qed.

Lemma remove_dashes_hex (s : string) :
  all_chars is_hex_digit s = true -> remove_dashes s = s.
Proof.
  induction s as [|c s IH]; simpl; [reflexivity|].
  intros A. apply andb_true_iff in A as [Pc A].
  rewrite (hex_is_no_dash c Pc). now rewrite IH.
Qed.

Lemma dash_first_32_short (s : string) :
  (String.length s < 32)%nat -> dash_first_32 s = s.
Proof.
  induction s as [|c s IH]; intros L.
  - reflexivity.
  - assert (W : word32_here (String c s) = false).
    { unfold word32_here.
      replace (32 <=? String.length (String c s))%nat with false;
        [reflexivity|].
      symmetry. apply Nat.leb_gt. exact L. }
    change (dash_first_32 (String c s))
      with (if word32_here (String c s)
            then substring 0 8 (String c s) ++ "-" ++ substring 8 4 (String c s)
                 ++ "-" ++ substring 12 4 (String c s) ++ "-"
                 ++ substring 16 4 (String c s) ++ "-"
                 ++ substring 20 12 (String c s)
                 ++ substring 32 (String.length (String c s) - 32) (String c s)
            else String c (dash_first_32 s)).
    rewrite W, IH; [reflexivity | simpl in L; lia].
Qed.

Lemma dash_first_32_eq (s : string) :
  dash_first_32 s
  = if word32_here s then
      substring 0 8 s ++ "-" ++ substring 8 4 s ++ "-" ++ substring 12 4 s
        ++ "-" ++ substring 16 4 s ++ "-" ++ substring 20 12 s
        ++ substring 32 (String.length s - 32) s
    else
      match s with
      | EmptyString => EmptyString
      | String c rest => String c (dash_first_32 rest)
      end.
Proof. destruct s; reflexivity. Qed.

Lemma cut_in_six (s : string) :
  (32 <= String.length s)%nat ->
  s = substring 0 8 s ++ substring 8 4 s ++ substring 12 4 s
      ++ substring 16 4 s ++ substring 20 12 s
      ++ substring 32 (String.length s - 32) s.
Proof.
  intros L. set (k := (String.length s - 32)%nat).
  assert (E5 : substring 20 (12 + k) s
               = substring 20 12 s ++ substring 32 k s)
    by exact (substring_split s 20 12 k).
  assert (E4 : substring 16 (4 + (12 + k)) s
               = substring 16 4 s ++ substring 20 (12 + k) s)
    by exact (substring_split s 16 4 (12 + k)).
  assert (E3 : substring 12 (4 + (4 + (12 + k))) s
               = substring 12 4 s ++ substring 16 (4 + (12 + k)) s)
    by exact (substring_split s 12 4 (4 + (12 + k))).
  assert (E2 : substring 8 (4 + (4 + (4 + (12 + k)))) s
               = substring 8 4 s ++ substring 12 (4 + (4 + (12 + k))) s)
    by exact (substring_split s 8 4 (4 + (4 + (12 + k)))).
  assert (E1 : substring 0 (8 + (4 + (4 + (4 + (12 + k))))) s
               = substring 0 8 s ++ substring 8 (4 + (4 + (4 + (12 + k)))) s)
    by exact (substring_split s 0 8 (4 + (4 + (4 + (12 + k))))).
  rewrite <- E5, <- E4, <- E3, <- E2, <- E1.
  replace (8 + (4 + (4 + (4 + (12 + k)))))%nat with (String.length s)
    by (unfold k; lia).
  symmetry. apply substring_all.
Qed.

Lemma dash_first_32_hex (s : string) :
  all_chars is_hex_digit s = true ->
  remove_dashes (dash_first_32 s) = s.
Proof.
  intros A.
  destruct (word32_here s) eqn:W.
  - rewrite dash_first_32_eq, W.
    unfold word32_here in W. apply andb_true_iff in W as [L _].
    apply Nat.leb_le in L.
    rewrite !remove_dashes_app.
    rewrite (remove_dashes_hex (substring 0 8 s)),
      (remove_dashes_hex (substring 8 4 s)),
      (remove_dashes_hex (substring 12 4 s)),
      (remove_dashes_hex (substring 16 4 s)),
      (remove_dashes_hex (substring 20 12 s)),
      (remove_dashes_hex (substring 32 (String.length s - 32) s))
      by (now apply all_chars_substring).
    simpl. symmetry. now apply cut_in_six.
  - assert (L : (String.length s < 32)%nat).
    { unfold word32_here in W. apply andb_false_iff in W as [W|W].
      - now apply Nat.leb_gt.
      - rewrite (all_chars_substring is_word_char s 0 32) in W; [discriminate|].
        apply (all_chars_weaken is_hex_digit); auto using hex_is_word. }
    rewrite dash_first_32_short by exact L.
    now apply remove_dashes_hex.
Qed.

Lemma take_while_app (p : ascii -> bool) (a b : string) :
  all_chars p a = true -> take_while p (a ++ b) = a ++ take_while p b.
Proof.
  induction a as [|c a IH]; simpl; [reflexivity|].
  intros A. apply andb_true_iff in A as [Pc A].
  rewrite Pc. now rewrite IH.
Qed.

Lemma take_while_cut (p : ascii -> bool) (s : string) :
  exists post,
    s = take_while p s ++ post /\
    take_while p post = "" /\
    all_chars p (take_while p s) = true.
Proof.
  induction s as [|c s (post & E & T & A)]; simpl.
  - exists "". repeat split.
  - destruct (p c) eqn:Pc.
    + exists post. simpl. rewrite Pc, A. repeat split; congruence.
    + exists (String c s). simpl. rewrite Pc. repeat split.
Qed.

Lemma ds_here_not_d (c : ascii) (t : string) :
  is_d c = false -> ds_here (String c t) = None.
Proof.
  intros D. destruct t as [|a [|b t]]; simpl; try reflexivity.
  now rewrite D.
Qed.

Lemma ds_match_skip (pre rest : string) :
  all_chars (fun c => negb (is_d c)) pre = true ->
  ds_match (pre ++ rest) = ds_match rest.
Proof.
  induction pre as [|c pre IH]; simpl; [reflexivity|].
  intros A. apply andb_true_iff in A as [D A].
  apply negb_true_iff in D.
  change (match ds_here (String c (pre ++ rest)) with
          | Some captured => Some captured
          | None => ds_match (pre ++ rest)
          end = ds_match rest).
  rewrite (ds_here_not_d c _ D). now apply IH.
Qed.

Lemma ds_match_eq (url : string) :
  ds_match url
  = match ds_here url with
    | Some captured => Some captured
    | None =>
        match url with
        | EmptyString => None
        | String _ rest => ds_match rest
        end
    end.
Proof. destruct url; reflexivity. Qed.

Lemma ds_here_some (u captured : string) :
  ds_here u = Some captured ->
  exists d s rest,
    u = String d (String s (String "/" rest)) /\
    is_d d = true /\ is_s s = true /\
    captured = take_while is_hex_digit rest /\ captured <> "".
Proof.
  destruct u as [|d [|s [|slash rest]]]; simpl; try discriminate.
  destruct (is_d d) eqn:D; [|discriminate].
  destruct (is_s s) eqn:S; [|discriminate].
  destruct (Ascii.eqb_spec slash "/") as [->|]; [|discriminate].
  simpl. destruct (take_while is_hex_digit rest) eqn:T; [discriminate|].
  intros E. injection E as <-.
  exists d, s, rest. repeat split; auto. discriminate.
Qed.

Lemma ds_match_some (url captured : string) :
  ds_match url = Some captured ->
  exists pre d s post,
    url = pre ++ String d (String s (String "/" (captured ++ post))) /\
    is_d d = true /\ is_s s = true /\
    captured <> "" /\ all_chars is_hex_digit captured = true /\
    take_while is_hex_digit post = "".
Proof.
  induction url as [|c url IH]; rewrite ds_match_eq.
  - discriminate.
  - destruct (ds_here (String c url)) as [cap|] eqn:Hh.
    + intros E. injection E as ->.
      destruct (ds_here_some _ _ Hh) as (d & s & rest & U & D & S & C & N).
      destruct (take_while_cut is_hex_digit rest) as (post & R & T & A).
      exists "", d, s, post. simpl. rewrite U, C. rewrite <- R.
      repeat split; auto. now rewrite <- C.
    + intros E. destruct (IH E) as (pre & d & s & post & U & R).
      exists (String c pre), d, s, post. simpl. now rewrite U.
Qed.

Lemma ds_match_found (pre post : string) (d s c : ascii) :
  is_d d = true -> is_s s = true -> is_hex_digit c = true ->
  exists captured,
    ds_match (pre ++ String d (String s (String "/" (String c post))))
    = Some captured.
Proof.
  intros D S C. induction pre as [|x pre IH].
  - simpl append. rewrite ds_match_eq. simpl. rewrite D, S, C. simpl. eauto.
  - simpl append. rewrite ds_match_eq.
    destruct (ds_here _) as [cap|]; [eauto | exact IH].
Qed.

(** X3: for a url made of a prefix without the letter d, then [ds/], a
    non-empty run of hexadecimal digits and a rest that does not go on with
    one, [extractDatabaseId] returns the run with its first 32 characters
    cut 8-4-4-4-12; removing the dashes gives the run back, and a run of
    exactly 32 digits gives the 36 characters of a dashed identifier. *)
Theorem extractDatabaseId_of_url (pre id post : string) :
  all_chars (fun c => negb (is_d c)) pre = true ->
  id <> "" ->
  all_chars is_hex_digit id = true ->
  take_while is_hex_digit post = "" ->
  extractDatabaseId (pre ++ "ds/" ++ id ++ post) = Ok (dash_first_32 id) /\
  remove_dashes (dash_first_32 id) = id /\
  (String.length id = 32%nat ->
   dash_first_32 id
   = substring 0 8 id ++ "-" ++ substring 8 4 id ++ "-" ++ substring 12 4 id
     ++ "-" ++ substring 16 4 id ++ "-" ++ substring 20 12 id /\
   String.length (dash_first_32 id) = 36%nat).
Proof.
  intros P N A T. split; [|split].
  - unfold extractDatabaseId. rewrite (ds_match_skip pre _ P).
    rewrite ds_match_eq.
    assert (Hh : ds_here ("ds/" ++ id ++ post) = Some id).
    { simpl. rewrite (take_while_app _ _ _ A), T, append_empty.
      destruct id; [congruence | reflexivity]. }
    now rewrite Hh.
  - now apply dash_first_32_hex.
  - intros L.
    assert (W : word32_here id = true).
    { unfold word32_here. rewrite L. simpl Nat.leb.
      rewrite (all_chars_substring is_word_char id 0 32); [reflexivity|].
      apply (all_chars_weaken is_hex_digit); auto using hex_is_word. }
    assert (E : dash_first_32 id
                = substring 0 8 id ++ "-" ++ substring 8 4 id ++ "-"
                  ++ substring 12 4 id ++ "-" ++ substring 16 4 id ++ "-"
                  ++ substring 20 12 id).
    { rewrite dash_first_32_eq, W, L. simpl Nat.sub.
      now rewrite substring_zero, append_empty. }
    split; [exact E|]. rewrite E.
    rewrite !length_append, !length_substring by lia. reflexivity.
Qed.

(** X4: whatever [extractDatabaseId] returns is, once its dashes are
    removed, a non-empty run of hexadecimal digits that stands in the url
    right after [ds/] (in any case) and is not followed there by another
    hexadecimal digit. *)
Theorem extractDatabaseId_result (url r : string) :
  extractDatabaseId url = Ok r ->
  exists pre d s post,
    url = pre ++ String d (String s (String "/" (remove_dashes r ++ post))) /\
    is_d d = true /\ is_s s = true /\
    remove_dashes r <> "" /\
    all_chars is_hex_digit (remove_dashes r) = true /\
    take_while is_hex_digit post = "".
Proof.
  unfold extractDatabaseId.
  destruct (ds_match url) as [cap|] eqn:M; [|discriminate].
  intros E. injection E as <-.
  destruct (ds_match_some url cap M) as (pre & d & s & post & U & D & S & N & A & T).
  rewrite (dash_first_32_hex cap A).
  exists pre, d, s, post. repeat split; auto.
Qed.

(** X5: [extractDatabaseId] succeeds exactly on the urls in which [ds/]
    (in any case) is followed by a hexadecimal digit; on every other text it
    throws the error that quotes the url. *)
Theorem extractDatabaseId_fails (url : string) :
  ((exists r, extractDatabaseId url = Ok r) <->
   (exists pre d s c post,
      url = pre ++ String d (String s (String "/" (String c post))) /\
      is_d d = true /\ is_s s = true /\ is_hex_digit c = true)) /\
  ((exists r, extractDatabaseId url = Ok r) \/
   extractDatabaseId url
   = Throw ("Error: Could not extract database ID from URL: " ++ url)).
Proof.
  split; [split|].
  - intros [r E]. unfold extractDatabaseId in E.
    destruct (ds_match url) as [cap|] eqn:M; [|discriminate].
    destruct (ds_match_some url cap M)
      as (pre & d & s & post & U & D & S & N & A & T).
    destruct cap as [|c cap]; [congruence|].
    simpl in A. apply andb_true_iff in A as [C _].
    exists pre, d, s, c, (cap ++ post). auto.
  - intros (pre & d & s & c & post & -> & D & S & C).
    destruct (ds_match_found pre post d s c D S C) as [cap M].
    unfold extractDatabaseId. rewrite M. eauto.
  - unfold extractDatabaseId. destruct (ds_match url); eauto.
Qed.

(** A Notion url with a 32-digit identifier. *)
Lemma extractDatabaseId_of_url_witness :
  extractDatabaseId
    "https://www.notion.so/acme/ds/0123456789abcdef0123456789abcdef?db=1"
  = Ok "01234567-89ab-cdef-0123-456789abcdef".
Proof.
  refine (proj1 (extractDatabaseId_of_url "https://www.notion.so/acme/"
                   "0123456789abcdef0123456789abcdef" "?db=1" _ _ _ _));
    try reflexivity.
  discriminate.
Defined.

Lemma extractDatabaseId_result_witness :
  exists pre d s post,
    "https://www.notion.so/acme/DS/0123456789ABCDEF0123456789abcdef99?db=1"
    = pre ++ String d (String s (String "/"
               (remove_dashes "01234567-89AB-CDEF-0123-456789abcdef99" ++ post))) /\
    is_d d = true /\ is_s s = true /\
    remove_dashes "01234567-89AB-CDEF-0123-456789abcdef99" <> "" /\
    all_chars is_hex_digit
      (remove_dashes "01234567-89AB-CDEF-0123-456789abcdef99") = true /\
    take_while is_hex_digit post = "".
Proof.
  apply (extractDatabaseId_result
           "https://www.notion.so/acme/DS/0123456789ABCDEF0123456789abcdef99?db=1").
  reflexivity.
Defined.

(** The leftmost [ds/] followed by a hexadecimal digit is the one read. *)
Example extractDatabaseId_leftmost :
  extractDatabaseId
    "https://www.notion.so/brands/features/ds/0123456789abcdef0123456789abcdef"
  = Ok "fea".
Proof. reflexivity. Qed.

(* ====================================================================== *)
(** ** Page properties *)
(* ====================================================================== *)

(** What [getPropertyValue] returns, by the type asked. *)
Lemma getPropertyValue_by_type
    (properties : list (string * Property)) (name type : string) :
  (js_get properties name = Undefined ->
   getPropertyValue properties name type = V_null) /\
  getPropertyValue properties name type <> V_number 0 /\
  (type <> "title" -> type <> "rich_text" ->
   falsy (getPropertyValue properties name type) = true ->
   getPropertyValue properties name type = V_null) /\
  (js_get properties name <> Undefined ->
   type = "title" \/ type = "rich_text" ->
   exists s, getPropertyValue properties name type = V_string s) /\
  (js_get properties name <> Undefined -> type = "relation" ->
   exists ids, getPropertyValue properties name type = V_ids ids).
Proof.
  assert (Cases :
    type = "title" \/ type = "rich_text" \/ type = "select" \/
    type = "number" \/ type = "url" \/ type = "date" \/
    type = "relation" \/
    (type <> "title" /\ type <> "rich_text" /\ type <> "relation" /\
     getPropertyValue properties name type = V_null)).
  { unfold getPropertyValue.
    destruct (String.eqb_spec type "title"); [tauto|].
    destruct (String.eqb_spec type "rich_text"); [tauto|].
    destruct (String.eqb_spec type "select"); [tauto|].
    destruct (String.eqb_spec type "number"); [tauto|].
    destruct (String.eqb_spec type "url"); [tauto|].
    destruct (String.eqb_spec type "date"); [tauto|].
    destruct (String.eqb_spec type "relation"); [tauto|].
    do 7 right. repeat split; auto.
    now destruct (js_get properties name). }
  split; [unfold getPropertyValue; intros ->; reflexivity|].
  destruct Cases as [->|[->|[->|[->|[->|[->|[->|(N1 & N2 & N3 & O)]]]]]]];
    try (rewrite O; repeat split; intros; try discriminate; try reflexivity;
         try tauto; try congruence);
    unfold getPropertyValue, or_empty, or_null; cbn [String.eqb];
    destruct (js_get properties name) as [[items|items|o|[z|]|o|o|ids|]|k|];
    simpl;
    repeat match goal with
           | |- context [truthy ?o] => destruct (truthy o) eqn:?
           | |- context [?z =? 0] => destruct (Z.eqb_spec z 0)
           end;
    (repeat split; intros; try discriminate; try reflexivity; try tauto;
     try congruence; eauto).
  all: try (match goal with D : _ \/ _ |- _ => destruct D; discriminate end).
  all: try (match goal with
            | T : truthy ?o = true |- _ => destruct o as [[|]|]
            end; simpl in *; congruence).
  all: try (simpl in *;
            match goal with
            | F : (?z =? 0) = true |- _ => apply Z.eqb_eq in F; congruence
            end).
Qed.

(** X6: [getPropertyValue] reads a missing property as [null] whatever the
    type asked, and never returns the number 0.  Of a stored select, url or
    date an empty or missing value reads as [null] and any other as its
    text; a stored number reads as [null] when it is missing or 0 and as
    itself otherwise; a stored relation reads as the list of its ids, the
    empty relation as the empty list and not as [null]; a stored title or
    rich text reads as its first plain text, as the empty text when it has
    none.  For every type but title and rich_text a result that counts as
    false is [null]; a property that is there always reads as a text when
    title or rich_text is asked, and as a list when relation is. *)
Theorem getPropertyValue_results
    (properties : list (string * Property)) (name : string) :
  (forall type,
     (js_get properties name = Undefined ->
      getPropertyValue properties name type = V_null) /\
     getPropertyValue properties name type <> V_number 0 /\
     (type <> "title" -> type <> "rich_text" ->
      falsy (getPropertyValue properties name type) = true ->
      getPropertyValue properties name type = V_null) /\
     (js_get properties name <> Undefined ->
      type = "title" \/ type = "rich_text" ->
      exists s, getPropertyValue properties name type = V_string s) /\
     (js_get properties name <> Undefined -> type = "relation" ->
      exists ids, getPropertyValue properties name type = V_ids ids)) /\
  (forall o, truthy o = false ->
     (js_get properties name = Own (P_select o) ->
      getPropertyValue properties name "select" = V_null) /\
     (js_get properties name = Own (P_url o) ->
      getPropertyValue properties name "url" = V_null) /\
     (js_get properties name = Own (P_date o) ->
      getPropertyValue properties name "date" = V_null)) /\
  (forall o, truthy o = true ->
     (js_get properties name = Own (P_select o) ->
      getPropertyValue properties name "select" = V_string (text o)) /\
     (js_get properties name = Own (P_url o) ->
      getPropertyValue properties name "url" = V_string (text o)) /\
     (js_get properties name = Own (P_date o) ->
      getPropertyValue properties name "date" = V_string (text o))) /\
  (forall n, js_get properties name = Own (P_number n) ->
     getPropertyValue properties name "number"
     = match n with
       | Some 0 => V_null
       | Some z => V_number z
       | None => V_null
       end) /\
  (forall ids, js_get properties name = Own (P_relation ids) ->
     getPropertyValue properties name "relation" = V_ids ids) /\
  (forall items,
     (js_get properties name = Own (P_title items) ->
      getPropertyValue properties name "title"
      = V_string (text (hd_error items))) /\
     (js_get properties name = Own (P_rich_text items) ->
      getPropertyValue properties name "rich_text"
      = V_string (text (hd_error items)))).
Proof.
  split; [|split; [|split; [|split; [|split]]]].
  - intros type. apply getPropertyValue_by_type.
  - intros o T. repeat split; intros E; unfold getPropertyValue, or_null;
      rewrite E; simpl; now rewrite T.
  - intros o T. repeat split; intros E; unfold getPropertyValue, or_null;
      rewrite E; simpl; now rewrite T.
  - intros n E. unfold getPropertyValue. rewrite E. simpl.
    destruct n as [[|z|z]|]; reflexivity.
  - intros ids E. unfold getPropertyValue. now rewrite E.
  - intros items. split; intros E; unfold getPropertyValue, or_empty;
      rewrite E; simpl; now destruct items as [|[|c s] rest].
Qed.

(* ====================================================================== *)
(** ** Configuration and the entry point *)
(* ====================================================================== *)

Section Configuration.

Context `{ZodImpl}.

Lemma check_min1_passes (path message : string) (v : option string) :
  check_min1 path message v = [] <-> truthy v = true.
Proof.
  unfold check_min1. destruct v as [[|c s]|]; simpl; split; intros E;
    congruence.
Qed.

Lemma check_url_passes (path message : string) (v : option string) :
  check_url path message v = [] <-> exists u, v = Some u /\ is_url u = true.
Proof.
  unfold check_url. destruct v as [u|]; simpl.
  - destruct (is_url u) eqn:U; split; intros E; try discriminate; eauto.
    destruct E as (u' & E & U'). congruence.
  - split; [discriminate | intros (u & E & _); discriminate].
Qed.

Lemma check_enum_passes (path v : string) :
  check_enum path v = [] <-> v = "true" \/ v = "false".
Proof.
  unfold check_enum.
  destruct (String.eqb_spec v "true"), (String.eqb_spec v "false"); simpl;
    split; intros E; try discriminate; try tauto.
Qed.

(** The text [validateEnv] hands to the schema for [DRY_RUN]. *)
Lemma dry_run_text (v : option string) :
  (if truthy v then text v else "true") = "true" \/
  (if truthy v then text v else "true") = "false" <->
  v = None \/ v = Some "" \/ v = Some "true" \/ v = Some "false".
Proof.
  destruct v as [[|c s]|]; simpl.
  - split; intros _; auto.
  - split.
    + intros [E|E]; rewrite E; auto.
    + intros [E|[E|[E|E]]]; try discriminate; inversion E; auto.
  - split; intros _; auto.
Qed.

Lemma EnvSchema_parse_accepts (e : ProcessEnv.t) (env : Env.t) :
  EnvSchema_parse e = inr env ->
  truthy (ProcessEnv.NOTION_TOKEN e) = true /\
  (exists u, ProcessEnv.NOTION_PROJECTS_DS e = Some u /\ is_url u = true) /\
  (exists u, ProcessEnv.NOTION_ACTIONS_DS e = Some u /\ is_url u = true) /\
  truthy (ProcessEnv.GITHUB_TOKEN e) = true /\
  truthy (ProcessEnv.GITHUB_ORG e) = true /\
  (Env.DRY_RUN env = "true" \/ Env.DRY_RUN env = "false") /\
  Env.DRY_RUN env
  = (if truthy (ProcessEnv.DRY_RUN e) then text (ProcessEnv.DRY_RUN e)
     else "true") /\
  Env.NOTION_PROJECTS_DS env = text (ProcessEnv.NOTION_PROJECTS_DS e) /\
  Env.NOTION_ACTIONS_DS env = text (ProcessEnv.NOTION_ACTIONS_DS e).
Proof.
  unfold EnvSchema_parse.
  match goal with
  | |- match ?found with _ => _ end = _ -> _ =>
      destruct found as [|i more] eqn:I
  end; [|discriminate].
  intros E. injection E as <-. simpl.
  apply app_eq_nil in I as [I1 I].
  apply app_eq_nil in I as [I2 I].
  apply app_eq_nil in I as [I3 I].
  apply app_eq_nil in I as [I4 I].
  apply app_eq_nil in I as [I5 I6].
  apply check_min1_passes in I1, I4, I5.
  apply check_url_passes in I2, I3.
  apply check_enum_passes in I6.
  repeat split; auto.
Qed.

Lemma EnvSchema_parse_accepted (e : ProcessEnv.t) :
  truthy (ProcessEnv.NOTION_TOKEN e) = true ->
  (exists u, ProcessEnv.NOTION_PROJECTS_DS e = Some u /\ is_url u = true) ->
  (exists u, ProcessEnv.NOTION_ACTIONS_DS e = Some u /\ is_url u = true) ->
  truthy (ProcessEnv.GITHUB_TOKEN e) = true ->
  truthy (ProcessEnv.GITHUB_ORG e) = true ->
  (ProcessEnv.DRY_RUN e = None \/ ProcessEnv.DRY_RUN e = Some "" \/
   ProcessEnv.DRY_RUN e = Some "true" \/ ProcessEnv.DRY_RUN e = Some "false") ->
  exists env, EnvSchema_parse e = inr env.
Proof.
  intros T1 U2 U3 T4 T5 D.
  unfold EnvSchema_parse.
  rewrite (proj2 (check_min1_passes _ _ _) T1),
    (proj2 (check_url_passes _ _ _) U2), (proj2 (check_url_passes _ _ _) U3),
    (proj2 (check_min1_passes _ _ _) T4), (proj2 (check_min1_passes _ _ _) T5),
    (proj2 (check_enum_passes _ _) (proj2 (dry_run_text _) D)).
  simpl. eauto.
Qed.

(** X7: the schema accepts the environment exactly when the two tokens and
    the organization are non-empty, the two locators are urls, and DRY_RUN
    is unset, empty, "true" or "false"; on any other environment the
    script prints the issues and exits with code 1 having sent no request,
    invoked no write and left both stores as they were. *)
Theorem configuration_is_checked_first `{DateImpl} (e : ProcessEnv.t) :
  ((exists env, EnvSchema_parse e = inr env) <->
   truthy (ProcessEnv.NOTION_TOKEN e) = true /\
   (exists u, ProcessEnv.NOTION_PROJECTS_DS e = Some u /\ is_url u = true) /\
   (exists u, ProcessEnv.NOTION_ACTIONS_DS e = Some u /\ is_url u = true) /\
   truthy (ProcessEnv.GITHUB_TOKEN e) = true /\
   truthy (ProcessEnv.GITHUB_ORG e) = true /\
   (ProcessEnv.DRY_RUN e = None \/ ProcessEnv.DRY_RUN e = Some "" \/
    ProcessEnv.DRY_RUN e = Some "true" \/ ProcessEnv.DRY_RUN e = Some "false")) /\
  (forall issues argv2 w,
     EnvSchema_parse e = inl issues ->
     issues <> [] /\
     fst (main e argv2 w) = 1 /\
     stores (snd (main e argv2 w)) = stores w /\
     faults (snd (main e argv2 w)) = faults w /\
     invoked (snd (main e argv2 w)) = invoked w /\
     console (snd (main e argv2 w))
     = (console w
        ++ stderr "❌ Environment validation failed:" []
           :: map (fun i => stderr ("  - " ++ fst i ++ ": " ++ snd i) []) issues)%list).
Proof.
  split; [split|].
  - intros [env E].
    destruct (EnvSchema_parse_accepts e env E)
      as (T1 & U2 & U3 & T4 & T5 & D & Dv & _).
    repeat split; auto. apply dry_run_text. now rewrite <- Dv.
  - intros (T1 & U2 & U3 & T4 & T5 & D). now apply EnvSchema_parse_accepted.
  - intros issues argv2 w E. split.
    + unfold EnvSchema_parse in E.
      match type of E with
      | match ?found with _ => _ end = _ => destruct found; [discriminate|]
      end.
      injection E as <-. discriminate.
    + unfold main, validateEnv. rewrite E. repeat split.
Qed.

End Configuration.

Section EntryPoint.

Context `{DateImpl} `{ZodImpl}.

(** X8: unless DRY_RUN is exactly "false", the script leaves both stores
    as they were, whatever the rest of the environment, the argument and
    the fate of the requests: unset, empty and "true" give a dry run, and
    every other text stops the script before it starts. *)
Theorem main_writes_only_when_DRY_RUN_is_false
    (e : ProcessEnv.t) (argv2 : option string) (w : World) :
  ProcessEnv.DRY_RUN e <> Some "false" ->
  stores (snd (main e argv2 w)) = stores w.
Proof.
  intros D. unfold main, validateEnv.
  destruct (EnvSchema_parse e) as [issues|env] eqn:P; [reflexivity|].
  destruct (EnvSchema_parse_accepts e env P)
    as (_ & _ & _ & _ & _ & Dt & Dv & _).
  assert (T : Env.DRY_RUN env = "true").
  { destruct Dt as [T|F]; [exact T|]. exfalso. apply D.
    rewrite Dv in F. destruct (ProcessEnv.DRY_RUN e) as [[|c s]|];
      simpl in F; congruence. }
  rewrite T. simpl String.eqb.
  destruct (extractDatabaseId (Env.NOTION_PROJECTS_DS env)); [|reflexivity].
  destruct (extractDatabaseId (Env.NOTION_ACTIONS_DS env)); [|reflexivity].
  match goal with
  | |- context [run true ?repo w] =>
      destruct (run true repo w) as [[[]|err] w2] eqn:R;
      pose proof (dry_run repo w _ w2 R) as S
  end; exact S.
Qed.

(** X9: the exit code is 0 or 1, and it is 0 exactly when the environment
    is accepted, both locators yield a database identifier and the first
    listing of the tracker's projects goes through; conflicts and failures
    on single projects or actions do not change it. *)
Theorem main_exit_code (e : ProcessEnv.t) (argv2 : option string) (w : World) :
  (fst (main e argv2 w) = 0 \/ fst (main e argv2 w) = 1) /\
  (fst (main e argv2 w) = 0 <->
   (exists env,
      EnvSchema_parse e = inr env /\
      (exists id, extractDatabaseId (Env.NOTION_PROJECTS_DS env) = Ok id) /\
      (exists id, extractDatabaseId (Env.NOTION_ACTIONS_DS env) = Ok id)) /\
   next_fault w = None).
Proof.
  unfold main, validateEnv.
  destruct (EnvSchema_parse e) as [issues|env] eqn:P.
  { split; [now right|]. split; [discriminate|].
    intros [(env & E & _) _]. discriminate. }
  destruct (extractDatabaseId (Env.NOTION_PROJECTS_DS env)) as [i1|e1] eqn:X1.
  2:{ split; [now right|]. split; [discriminate|].
      intros [(env' & E & [id I] & _) _]. injection E as <-. congruence. }
  destruct (extractDatabaseId (Env.NOTION_ACTIONS_DS env)) as [i2|e2] eqn:X2.
  2:{ split; [now right|]. split; [discriminate|].
      intros [(env' & E & _ & [id I]) _]. injection E as <-. congruence. }
  set (d := String.eqb (Env.DRY_RUN env) "true").
  set (repo := if truthy argv2 then text argv2 else "chittyreception").
  destruct (next_fault w) as [err|] eqn:F.
  - destruct (run_throws d repo w err F) as [w2 R]. rewrite R.
    split; [now right|]. split; [discriminate|]. intros [_ N]. discriminate.
  - destruct (run_returns d repo w F) as (w1 & _ & R). rewrite R.
    split; [now left|]. split; [|reflexivity].
    intros _. split; [|reflexivity]. exists env. eauto.
Qed.

End EntryPoint.

(** DRY_RUN set to "yes": the script stops before it starts. *)
Lemma configuration_is_checked_first_witness :
  fst (@main iso_dates sample_zod (sample_env (Some "yes")) None first_run_world) = 1 /\
  stores (snd (@main iso_dates sample_zod (sample_env (Some "yes")) None
                 first_run_world)) = stores first_run_world.
Proof.
  destruct (@configuration_is_checked_first sample_zod iso_dates
              (sample_env (Some "yes"))) as [_ R].
  destruct (R [("DRY_RUN",
                "Invalid enum value. Expected 'true' | 'false', received 'yes'")]
              None first_run_world eq_refl) as (_ & C & S & _).
  split; [exact C | exact S].
Defined.

(** DRY_RUN left unset on the first run. *)
Lemma main_writes_only_when_DRY_RUN_is_false_witness :
  stores (snd (@main iso_dates sample_zod (sample_env None) None first_run_world))
  = stores first_run_world.
Proof.
  apply (@main_writes_only_when_DRY_RUN_is_false iso_dates sample_zod).
  discriminate.
Defined.

(* ====================================================================== *)
(** ** What the engine invokes and what it creates *)
(* ====================================================================== *)

Lemma appended_calls_frame (P : WriteCall -> bool) (w w' : World) :
  invoked w' = invoked w -> appended_calls P w w'.
Proof. intros E. exists []. now rewrite app_nil_r. Qed.

Lemma appended_calls_refl (P : WriteCall -> bool) (w : World) :
  appended_calls P w w.
Proof. now apply appended_calls_frame. Qed.

Lemma appended_calls_trans (P : WriteCall -> bool) (a b c : World) :
  appended_calls P a b -> appended_calls P b c -> appended_calls P a c.
Proof.
  intros (x & X & Px) (y & Y & Py). exists (x ++ y)%list. split.
  - now rewrite Y, X, app_assoc.
  - rewrite forallb_app. now rewrite Px, Py.
Qed.

Lemma appended_calls_record (P : WriteCall -> bool) (c : WriteCall) (w : World) :
  P c = true -> appended_calls P w (with_invoked (invoked w ++ [c]) w).
Proof. intros Pc. exists [c]. split; [reflexivity | simpl; now rewrite Pc]. Qed.

Lemma flags_follow_refl (d : bool) (w : World) : flags_follow d w w.
Proof. apply appended_calls_refl. Qed.

Lemma flags_follow_trans (d : bool) (a b c : World) :
  flags_follow d a b -> flags_follow d b c -> flags_follow d a c.
Proof. apply appended_calls_trans. Qed.

Ltac flags_prim :=
  intros;
  first [ apply appended_calls_frame; reflexivity
        | apply appended_calls_record; simpl; apply Bool.eqb_reflx ].

Ltac flags d :=
  repeat first
    [ apply (keeps_ret _ (flags_follow_refl _))
    | apply (keeps_throw _ (flags_follow_refl _))
    | apply (keeps_lift _ (flags_follow_refl _))
    | apply (keeps_gets _ (flags_follow_refl _))
    | apply keeps_Date_now; flags_prim
    | apply (keeps_request _ (flags_follow_refl _)); flags_prim
    | apply keeps_modify; flags_prim
    | solve [ auto with keeps ]
    | apply (keeps_bind _ (flags_follow_trans _)); [ | intros ? ]
    | apply (keeps_try_catch _ (flags_follow_trans _)); [ | intros ? ]
    | apply (keeps_for_of _ (flags_follow_refl _) (flags_follow_trans _));
      intros ?
    | match goal with
      | |- keeps _ (if ?b then _ else _) => destruct b
      | |- keeps _ (match ?x with _ => _ end) => destruct x
      end ].

Lemma flags_updateProject (pageId : string) (u : NotionProjectPartial.t)
    (d : bool) : keeps (flags_follow d) (NotionClient.updateProject pageId u d).
Proof. unfold NotionClient.updateProject. flags d. Qed.

Lemma flags_updateAction (pageId : string) (u : NotionActionPartial.t)
    (d : bool) : keeps (flags_follow d) (NotionClient.updateAction pageId u d).
Proof. unfold NotionClient.updateAction. flags d. Qed.

Lemma flags_getProjects (d : bool) :
  keeps (flags_follow d) NotionClient.getProjects.
Proof. unfold NotionClient.getProjects. flags d. Qed.

Lemma flags_getActions (d : bool) (projectId : option string) :
  keeps (flags_follow d) (NotionClient.getActions projectId).
Proof. unfold NotionClient.getActions. flags d. Qed.

Lemma flags_listProjects (d : bool) :
  keeps (flags_follow d) GitHubClient.listProjects.
Proof. unfold GitHubClient.listProjects. flags d. Qed.

Lemma flags_getIssuesByProject (d : bool) (projectId : string) :
  keeps (flags_follow d) (GitHubClient.getIssuesByProject projectId).
Proof. unfold GitHubClient.getIssuesByProject. flags d. Qed.

Lemma flags_getOrCreateProject (title : string) (description : option string)
    (d : bool) :
  keeps (flags_follow d) (GitHubClient.getOrCreateProject title description d).
Proof.
  pose proof (flags_listProjects d).
  unfold GitHubClient.getOrCreateProject, GitHubClient.createProjectV2.
  flags d.
Qed.

Lemma flags_addIssueToProject (issueId projectId : string) (d : bool) :
  keeps (flags_follow d) (GitHubClient.addIssueToProject issueId projectId d).
Proof. unfold GitHubClient.addIssueToProject. flags d. Qed.

Lemma flags_createIssue (repo title : string) (body projectId : option string)
    (d : bool) :
  keeps (flags_follow d) (GitHubClient.createIssue repo title body projectId d).
Proof.
  pose proof (fun i p => flags_addIssueToProject i p d).
  unfold GitHubClient.createIssue, GitHubClient.repository,
    GitHubClient.createIssue_mutation.
  flags d.
Qed.

Lemma flags_mutate_issue (d : bool) (issueId : string)
    (f : GitHubIssue.t -> GitHubIssue.t) :
  keeps (flags_follow d) (GitHubClient.mutate_issue issueId f).
Proof. unfold GitHubClient.mutate_issue. flags d. Qed.

Lemma flags_updateIssue (issueId : string) (u : IssueUpdates.t) (d : bool) :
  keeps (flags_follow d) (GitHubClient.updateIssue issueId u d).
Proof.
  pose proof (flags_mutate_issue d).
  unfold GitHubClient.updateIssue. flags d.
Qed.

Section Flags.

Context `{DateImpl}.

Lemma flags_syncAction_guarded (d : bool) (repo : string)
    (gp : GitHubProject.t) (issues : list GitHubIssue.t) (a : NotionAction.t) :
  keeps (flags_follow d) (syncAction_guarded d repo gp issues a).
Proof.
  pose proof (fun i u => flags_updateIssue i u d).
  pose proof (fun i u => flags_updateAction i u d).
  pose proof (fun r t b p => flags_createIssue r t b p d).
  unfold syncAction_guarded, syncAction. flags d.
Qed.

(** X10: every write method that a run invokes, on either client and at
    any depth, is invoked with the run's own [dryRun] flag. *)
Theorem dry_run_flag_is_threaded (d : bool) (repo : string) (w w' : World)
    (r : Result unit) :
  run d repo w = (r, w') ->
  exists calls,
    invoked w' = (invoked w ++ calls)%list /\
    forall c, In c calls -> flag_of c = d.
Proof.
  intros E.
  assert (K : keeps (flags_follow d) (run d repo)).
  { pose proof (flags_syncAction_guarded d).
    pose proof (fun i u => flags_updateProject i u d).
    pose proof (flags_getActions d). pose proof (flags_getIssuesByProject d).
    pose proof (flags_listProjects d). pose proof (flags_getProjects d).
    pose proof (fun t b => flags_getOrCreateProject t b d).
    unfold run, syncProjects, syncProject_guarded, syncProject, linkProject,
      syncActions.
    flags d. }
  destruct (K w r w' E) as (calls & I & F).
  exists calls. split; [exact I|].
  intros c Hc. rewrite forallb_forall in F.
  apply Bool.eqb_prop. now apply F.
Qed.

End Flags.

Lemma dry_run_flag_is_threaded_witness :
  exists calls,
    invoked (snd (@run iso_dates false "chittyreception" first_run_world))
    = (invoked first_run_world ++ calls)%list /\
    forall c, In c calls -> flag_of c = false.
Proof.
  apply (@dry_run_flag_is_threaded iso_dates false "chittyreception"
           first_run_world _ (fst (@run iso_dates false "chittyreception"
                                      first_run_world))).
  vm_compute. reflexivity.
Defined.

Lemma records_kept_refl (w : World) : records_kept w w.
Proof.
  repeat split; try reflexivity; exists []; now rewrite app_nil_r.
Qed.

Lemma records_kept_trans (a b c : World) :
  records_kept a b -> records_kept b c -> records_kept a c.
Proof.
  intros (P1 & A1 & [x1 X1] & [y1 Y1] & [z1 Z1])
         (P2 & A2 & [x2 X2] & [y2 Y2] & [z2 Z2]).
  split; [congruence|]. split; [congruence|]. repeat split.
  - exists (x1 ++ x2)%list. now rewrite X2, X1, app_assoc.
  - exists (y1 ++ y2)%list. now rewrite Y2, Y1, app_assoc.
  - exists (z1 ++ z2)%list. now rewrite Z2, Z1, app_assoc.
Qed.

Ltac records_prim :=
  intros; unfold records_kept; simpl;
  repeat split; try reflexivity;
  first [ exists []; now rewrite app_nil_r
        | rewrite map_app; eexists; reflexivity
        | eexists; reflexivity ].

Ltac records := keeps_script records_kept_refl records_kept_trans records_prim.

Lemma records_project_pages (f : NotionProject.t -> NotionProject.t)
    (p : NotionProject.t -> bool) (e : string) :
  (forall x, NotionProject.id (f x) = NotionProject.id x) ->
  keeps records_kept
    (pages <- gets (fun w => notionProjects (stores w)) ;;
     match update_first p f pages with
     | Some pages' => set_stores (with_notionProjects pages')
     | None => throw e
     end).
Proof.
  intros C w r w' E. unfold bind, gets, set_stores, modify, throw in E.
  destruct (update_first p f (notionProjects (stores w))) as [l'|] eqn:U;
    injection E as _ <-; [|apply records_kept_refl].
  unfold records_kept; simpl. split; [eapply update_first_map; eauto|].
  repeat split; try reflexivity; exists []; now rewrite app_nil_r.
Qed.

Lemma records_action_pages (f : ActionPage.t -> ActionPage.t)
    (p : ActionPage.t -> bool) (e : string) :
  (forall x, ActionPage.id (f x) = ActionPage.id x) ->
  keeps records_kept
    (pages <- gets (fun w => notionActions (stores w)) ;;
     match update_first p f pages with
     | Some pages' => set_stores (with_notionActions pages')
     | None => throw e
     end).
Proof.
  intros C w r w' E. unfold bind, gets, set_stores, modify, throw in E.
  destruct (update_first p f (notionActions (stores w))) as [l'|] eqn:U;
    injection E as _ <-; [|apply records_kept_refl].
  unfold records_kept; simpl. split; [reflexivity|].
  split; [eapply update_first_map; eauto|].
  repeat split; try reflexivity; exists []; now rewrite app_nil_r.
Qed.

Lemma records_issues (f : GitHubIssue.t -> GitHubIssue.t)
    (p : GitHubIssue.t -> bool) (e : string) :
  (forall x, GitHubIssue.id (f x) = GitHubIssue.id x) ->
  keeps records_kept
    (issues <- gets (fun w => githubIssues (stores w)) ;;
     match update_first p f issues with
     | Some issues' => set_stores (with_githubIssues issues')
     | None => throw e
     end).
Proof.
  intros C w r w' E. unfold bind, gets, set_stores, modify, throw in E.
  destruct (update_first p f (githubIssues (stores w))) as [l'|] eqn:U;
    injection E as _ <-; [|apply records_kept_refl].
  unfold records_kept; simpl. repeat split; try reflexivity;
    try (exists []; now rewrite app_nil_r).
  exists []. rewrite app_nil_r. eapply update_first_map; eauto.
Qed.

Lemma records_updateProject (pageId : string) (u : NotionProjectPartial.t)
    (d : bool) : keeps records_kept (NotionClient.updateProject pageId u d).
Proof.
  pose proof (fun a b => records_project_pages
                (NotionClient.project_properties u a b)
                (fun p => String.eqb (NotionProject.id p) pageId)
                ("APIResponseError: Could not find page with ID: " ++ pageId)
                (fun x => eq_refl)).
  unfold NotionClient.updateProject. records.
Qed.

Lemma records_updateAction (pageId : string) (u : NotionActionPartial.t)
    (d : bool) : keeps records_kept (NotionClient.updateAction pageId u d).
Proof.
  pose proof (fun a b => records_action_pages
                (NotionClient.action_properties u a b)
                (fun p => String.eqb (ActionPage.id p) pageId)
                ("APIResponseError: Could not find page with ID: " ++ pageId)
                (fun x => eq_refl)).
  unfold NotionClient.updateAction. records.
Qed.

Lemma records_getProjects : keeps records_kept NotionClient.getProjects.
Proof. unfold NotionClient.getProjects. records. Qed.

Lemma records_getActions (projectId : option string) :
  keeps records_kept (NotionClient.getActions projectId).
Proof. unfold NotionClient.getActions. records. Qed.

Lemma records_listProjects : keeps records_kept GitHubClient.listProjects.
Proof. unfold GitHubClient.listProjects. records. Qed.

Lemma records_getIssuesByProject (projectId : string) :
  keeps records_kept (GitHubClient.getIssuesByProject projectId).
Proof. unfold GitHubClient.getIssuesByProject. records. Qed.

Lemma records_getOrCreateProject (title : string) (description : option string)
    (d : bool) :
  keeps records_kept (GitHubClient.getOrCreateProject title description d).
Proof.
  pose proof records_listProjects.
  unfold GitHubClient.getOrCreateProject, GitHubClient.createProjectV2.
  records.
Qed.

Lemma records_addIssueToProject (issueId projectId : string) (d : bool) :
  keeps records_kept (GitHubClient.addIssueToProject issueId projectId d).
Proof. unfold GitHubClient.addIssueToProject. records. Qed.

Lemma records_createIssue (repo title : string) (body projectId : option string)
    (d : bool) :
  keeps records_kept (GitHubClient.createIssue repo title body projectId d).
Proof.
  pose proof records_addIssueToProject.
  unfold GitHubClient.createIssue, GitHubClient.repository,
    GitHubClient.createIssue_mutation.
  records.
Qed.

Lemma records_mutate_issue (issueId : string)
    (f : GitHubIssue.t -> GitHubIssue.t) :
  (forall x, GitHubIssue.id (f x) = GitHubIssue.id x) ->
  keeps records_kept (GitHubClient.mutate_issue issueId f).
Proof.
  intros C.
  pose proof (fun now => records_issues
                (fun i => GitHubClient.touch now (f i))
                (fun i => String.eqb (GitHubIssue.id i) issueId)
                "GraphqlResponseError: Could not resolve to a node"
                (fun x => C x)).
  unfold GitHubClient.mutate_issue. records.
Qed.

Lemma records_updateIssue (issueId : string) (u : IssueUpdates.t) (d : bool) :
  keeps records_kept (GitHubClient.updateIssue issueId u d).
Proof.
  pose proof (fun s => records_mutate_issue issueId (GitHubClient.set_state s)
                         (fun x => eq_refl)).
  pose proof (fun t b => records_mutate_issue issueId
                           (GitHubClient.set_title_body t b) (fun x => eq_refl)).
  unfold GitHubClient.updateIssue. records.
Qed.

Section Records.

Context `{DateImpl}.

Lemma records_syncAction_guarded (d : bool) (repo : string)
    (gp : GitHubProject.t) (issues : list GitHubIssue.t) (a : NotionAction.t) :
  keeps records_kept (syncAction_guarded d repo gp issues a).
Proof.
  pose proof records_updateIssue. pose proof records_updateAction.
  pose proof records_createIssue.
  unfold syncAction_guarded, syncAction. records.
Qed.

(** X11: over a whole run, dry or live and whatever fails, no record is
    deleted on either side and the tracker gains none: the pages of the two
    tracker databases are the same ones in the same order, and the board's
    projects, issues and project items are those it had, followed by the
    ones created. *)
Theorem run_deletes_nothing (d : bool) (repo : string) (w w' : World)
    (r : Result unit) :
  run d repo w = (r, w') ->
  map NotionProject.id (notionProjects (stores w'))
  = map NotionProject.id (notionProjects (stores w)) /\
  map ActionPage.id (notionActions (stores w'))
  = map ActionPage.id (notionActions (stores w)) /\
  (exists more,
     map GitHubProject.id (githubProjects (stores w'))
     = (map GitHubProject.id (githubProjects (stores w)) ++ more)%list) /\
  (exists more,
     map GitHubIssue.id (githubIssues (stores w'))
     = (map GitHubIssue.id (githubIssues (stores w)) ++ more)%list) /\
  (exists more,
     githubProjectItems (stores w')
     = (githubProjectItems (stores w) ++ more)%list).
Proof.
  intros E.
  assert (K : keeps records_kept (run d repo)).
  { pose proof records_syncAction_guarded. pose proof records_updateProject.
    pose proof records_getActions. pose proof records_getIssuesByProject.
    pose proof records_listProjects. pose proof records_getProjects.
    pose proof records_getOrCreateProject.
    unfold run, syncProjects, syncProject_guarded, syncProject, linkProject,
      syncActions.
    records. }
  exact (K w r w' E).
Qed.

End Records.

Lemma run_deletes_nothing_witness :
  map ActionPage.id
    (notionActions
       (stores (snd (@run iso_dates false "chittyreception" renamed_world))))
  = map ActionPage.id (notionActions (stores renamed_world)).
Proof.
  refine (proj1 (proj2 (@run_deletes_nothing iso_dates false "chittyreception"
                          renamed_world _
                          (fst (@run iso_dates false "chittyreception"
                                  renamed_world)) _))).
  vm_compute. reflexivity.
Defined.

Lemma creates_nothing_refl (w : World) : creates_nothing w w.
Proof. repeat split; apply appended_calls_refl. Qed.

Lemma creates_nothing_trans (a b c : World) :
  creates_nothing a b -> creates_nothing b c -> creates_nothing a c.
Proof.
  intros (P1 & I1 & T1 & C1) (P2 & I2 & T2 & C2).
  repeat split; try congruence. eapply appended_calls_trans; eauto.
Qed.

Ltac creates_prim :=
  intros; unfold creates_nothing; simpl;
  repeat split; try reflexivity;
  first [ apply appended_calls_frame; reflexivity
        | apply appended_calls_record; reflexivity ].

Ltac creates :=
  keeps_script creates_nothing_refl creates_nothing_trans creates_prim.

Lemma creates_nothing_issues (f : GitHubIssue.t -> GitHubIssue.t)
    (p : GitHubIssue.t -> bool) (e : string) :
  (forall x, GitHubIssue.id (f x) = GitHubIssue.id x) ->
  keeps creates_nothing
    (issues <- gets (fun w => githubIssues (stores w)) ;;
     match update_first p f issues with
     | Some issues' => set_stores (with_githubIssues issues')
     | None => throw e
     end).
Proof.
  intros C w r w' E. unfold bind, gets, set_stores, modify, throw in E.
  destruct (update_first p f (githubIssues (stores w))) as [l'|] eqn:U;
    injection E as _ <-; [|apply creates_nothing_refl].
  unfold creates_nothing; simpl. repeat split.
  - eapply update_first_map; eauto.
  - now apply appended_calls_frame.
Qed.

Lemma creates_nothing_mutate_issue (issueId : string)
    (f : GitHubIssue.t -> GitHubIssue.t) :
  (forall x, GitHubIssue.id (f x) = GitHubIssue.id x) ->
  keeps creates_nothing (GitHubClient.mutate_issue issueId f).
Proof.
  intros C.
  pose proof (fun now => creates_nothing_issues
                (fun i => GitHubClient.touch now (f i))
                (fun i => String.eqb (GitHubIssue.id i) issueId)
                "GraphqlResponseError: Could not resolve to a node"
                (fun x => C x)).
  unfold GitHubClient.mutate_issue. creates.
Qed.

Lemma creates_nothing_updateIssue (issueId : string) (u : IssueUpdates.t)
    (d : bool) : keeps creates_nothing (GitHubClient.updateIssue issueId u d).
Proof.
  pose proof (fun s => creates_nothing_mutate_issue issueId
                         (GitHubClient.set_state s) (fun x => eq_refl)).
  pose proof (fun t b => creates_nothing_mutate_issue issueId
                           (GitHubClient.set_title_body t b) (fun x => eq_refl)).
  unfold GitHubClient.updateIssue. creates.
Qed.

Lemma creates_nothing_updateAction (pageId : string)
    (u : NotionActionPartial.t) (d : bool) :
  keeps creates_nothing (NotionClient.updateAction pageId u d).
Proof. unfold NotionClient.updateAction. creates. Qed.

Lemma no_project_created_refl (w : World) : no_project_created w w.
Proof. split; [reflexivity | apply appended_calls_refl]. Qed.

Lemma no_project_created_trans (a b c : World) :
  no_project_created a b -> no_project_created b c -> no_project_created a c.
Proof.
  intros (P1 & C1) (P2 & C2). split; [congruence|].
  eapply appended_calls_trans; eauto.
Qed.

Ltac no_project_prim :=
  intros; unfold no_project_created; simpl;
  split; [ reflexivity
         | first [ apply appended_calls_frame; reflexivity
                 | apply appended_calls_record; reflexivity ] ].

Ltac no_project :=
  keeps_script no_project_created_refl no_project_created_trans
    no_project_prim.

Lemma no_project_updateProject (pageId : string) (u : NotionProjectPartial.t)
    (d : bool) : keeps no_project_created (NotionClient.updateProject pageId u d).
Proof. unfold NotionClient.updateProject. no_project. Qed.

Lemma no_project_updateAction (pageId : string) (u : NotionActionPartial.t)
    (d : bool) : keeps no_project_created (NotionClient.updateAction pageId u d).
Proof. unfold NotionClient.updateAction. no_project. Qed.

Lemma no_project_getActions (projectId : option string) :
  keeps no_project_created (NotionClient.getActions projectId).
Proof. unfold NotionClient.getActions. no_project. Qed.

Lemma no_project_getIssuesByProject (projectId : string) :
  keeps no_project_created (GitHubClient.getIssuesByProject projectId).
Proof. unfold GitHubClient.getIssuesByProject. no_project. Qed.

Lemma no_project_addIssueToProject (issueId projectId : string) (d : bool) :
  keeps no_project_created
    (GitHubClient.addIssueToProject issueId projectId d).
Proof. unfold GitHubClient.addIssueToProject. no_project. Qed.

Lemma no_project_createIssue (repo title : string)
    (body projectId : option string) (d : bool) :
  keeps no_project_created
    (GitHubClient.createIssue repo title body projectId d).
Proof.
  pose proof no_project_addIssueToProject.
  unfold GitHubClient.createIssue, GitHubClient.repository,
    GitHubClient.createIssue_mutation.
  no_project.
Qed.

Lemma no_project_mutate_issue (issueId : string)
    (f : GitHubIssue.t -> GitHubIssue.t) :
  keeps no_project_created (GitHubClient.mutate_issue issueId f).
Proof. unfold GitHubClient.mutate_issue. no_project. Qed.

Lemma no_project_updateIssue (issueId : string) (u : IssueUpdates.t) (d : bool) :
  keeps no_project_created (GitHubClient.updateIssue issueId u d).
Proof.
  pose proof no_project_mutate_issue.
  unfold GitHubClient.updateIssue. no_project.
Qed.

Lemma listProjects_throw (w : World) (e : string) :
  next_fault w = Some e ->
  GitHubClient.listProjects w = (Throw e, after_request w).
Proof.
  intros F. unfold GitHubClient.listProjects.
  now rewrite (bind_throw _ _ _ _ _ (request_throw w e F)).
Qed.

Section Linked.

Context `{DateImpl}.

(** X12: the turn of an action that is already linked (its stored issue id
    is non-empty) creates nothing on the board, dry or live and whatever
    fails: the board's projects and project items are as they were, its
    issues are the same ones, and neither [createIssue] nor
    [getOrCreateProject] is invoked. *)
Theorem linked_action_creates_nothing (d : bool) (repo : string)
    (gp : GitHubProject.t) (issues : list GitHubIssue.t) (a : NotionAction.t)
    (w w' : World) (r : Result unit) :
  truthy (NotionAction.githubIssueId a) = true ->
  syncAction_guarded d repo gp issues a w = (r, w') ->
  githubProjects (stores w') = githubProjects (stores w) /\
  map GitHubIssue.id (githubIssues (stores w'))
  = map GitHubIssue.id (githubIssues (stores w)) /\
  githubProjectItems (stores w') = githubProjectItems (stores w) /\
  exists calls,
    invoked w' = (invoked w ++ calls)%list /\
    existsb is_createIssue calls = false /\
    existsb is_getOrCreateProject calls = false.
Proof.
  intros L E.
  assert (K : keeps creates_nothing (syncAction_guarded d repo gp issues a)).
  { pose proof creates_nothing_updateIssue.
    pose proof creates_nothing_updateAction.
    unfold syncAction_guarded, syncAction. rewrite L. creates. }
  destruct (K w r w' E) as (P & I & T & calls & C & F).
  repeat split; auto. exists calls. split; [exact C|].
  clear C. induction calls as [|c calls IH]; [split; reflexivity|].
  simpl in F. apply andb_true_iff in F as [Fc F].
  apply andb_true_iff in Fc as [F1 F2].
  destruct (IH F) as [I1 I2]. simpl. rewrite I1, I2.
  apply negb_true_iff in F1, F2. now rewrite F1, F2.
Qed.

Lemma no_project_syncAction_guarded (d : bool) (repo : string)
    (gp : GitHubProject.t) (issues : list GitHubIssue.t) (a : NotionAction.t) :
  keeps no_project_created (syncAction_guarded d repo gp issues a).
Proof.
  pose proof no_project_updateIssue. pose proof no_project_updateAction.
  pose proof no_project_createIssue.
  unfold syncAction_guarded, syncAction. no_project.
Qed.

Lemma no_project_linkProject (d : bool) (repo : string) (p : NotionProject.t)
    (gp : GitHubProject.t) :
  keeps no_project_created (linkProject d repo p gp).
Proof.
  pose proof no_project_syncAction_guarded.
  pose proof no_project_updateProject.
  pose proof no_project_getActions. pose proof no_project_getIssuesByProject.
  unfold linkProject, syncActions. no_project.
Qed.

(** X13: the turn of a project whose stored board id is that of one of the
    first hundred board projects never creates a board project and never
    looks one up by title, dry or live and whatever fails: the board's
    projects are as they were and [getOrCreateProject] is not invoked. *)
Theorem linked_project_creates_no_project (d : bool) (repo : string)
    (p : NotionProject.t) (gp : GitHubProject.t) (w w' : World)
    (r : Result unit) :
  truthy (NotionProject.githubProjectId p) = true ->
  find (fun g => String.eqb (GitHubProject.id g)
                   (text (NotionProject.githubProjectId p)))
    (firstn 100 (githubProjects (stores w))) = Some gp ->
  syncProject_guarded d repo p w = (r, w') ->
  githubProjects (stores w') = githubProjects (stores w) /\
  exists calls,
    invoked w' = (invoked w ++ calls)%list /\
    existsb is_getOrCreateProject calls = false.
Proof.
  intros L G E.
  assert (R : no_project_created w w').
  { rewrite syncProject_guarded_eq in E. unfold syncProject in E.
    rewrite L in E. set (w0 := say [processing p] w) in E.
    assert (S0 : no_project_created w w0)
      by (split; [reflexivity | now apply appended_calls_frame]).
    destruct (next_fault w0) as [err|] eqn:F.
    - rewrite (bind_throw _ _ _ _ _ (listProjects_throw w0 err F)) in E.
      injection E as _ <-.
      split; [reflexivity | now apply appended_calls_frame].
    - rewrite (bind_ok _ _ _ _ _ (listProjects_ok w0 F)) in E.
      change (githubProjects (stores w0)) with (githubProjects (stores w)) in E.
      rewrite G in E.
      match type of E with
      | match ?m ?w1 with _ => _ end = _ =>
          assert (K : keeps no_project_created m)
            by (pose proof no_project_linkProject; no_project);
          destruct (m w1) as [[x|err] w2] eqn:B; apply K in B;
          injection E as _ <-
      end.
      + eapply no_project_created_trans; [|exact B].
        split; [reflexivity | now apply appended_calls_frame].
      + eapply no_project_created_trans;
          [|eapply no_project_created_trans; [exact B|]];
          split; try reflexivity; now apply appended_calls_frame. }
  destruct R as (P & calls & C & F).
  split; [exact P|]. exists calls. split; [exact C|].
  clear C. induction calls as [|c calls IH]; [reflexivity|].
  simpl in F. apply andb_true_iff in F as [Fc F].
  apply negb_true_iff in Fc. simpl. now rewrite Fc, IH.
Qed.

End Linked.

Lemma linked_action_creates_nothing_witness :
  map GitHubIssue.id
    (githubIssues
       (stores (snd (@syncAction_guarded iso_dates false "chittyreception"
                       (launch_board t_before)
                       [copy_issue "Write copy (old)" OPEN t_before]
                       (NotionClient.to_action
                          (write_copy "Completed" (Some "I_2") t_plus1))
                       completed_world))))
  = map GitHubIssue.id (githubIssues (stores completed_world)).
Proof.
  refine (proj1 (proj2 (@linked_action_creates_nothing iso_dates false
                          "chittyreception" (launch_board t_before)
                          [copy_issue "Write copy (old)" OPEN t_before]
                          (NotionClient.to_action
                             (write_copy "Completed" (Some "I_2") t_plus1))
                          completed_world _ (Ok tt) eq_refl _))).
  vm_compute. reflexivity.
Defined.

Lemma linked_project_creates_no_project_witness :
  githubProjects
    (stores (snd (@syncProject_guarded iso_dates false "chittyreception"
                    launch_plan completed_world)))
  = githubProjects (stores completed_world).
Proof.
  refine (proj1 (@linked_project_creates_no_project iso_dates false
                   "chittyreception" launch_plan (launch_board t_before)
                   completed_world _ (Ok tt) eq_refl eq_refl _)).
  vm_compute. reflexivity.
Defined.

(* ====================================================================== *)
(** ** Creating issues *)
(* ====================================================================== *)

Lemma createIssue_live (repo title pid : string) (body : option string)
    (w : World) :
  faults w = [] ->
  existsb (String.eqb repo) (githubRepos (stores w)) = true ->
  truthy (Some pid) = true ->
  existsb (fun p => String.eqb (GitHubProject.id p) pid)
    (githubProjects (stores w)) = true ->
  exists issue w',
    GitHubClient.createIssue repo title body (Some pid) false w = (Ok issue, w') /\
    issue = GitHubIssue.mk ("I_" ++ nat_to_string (fresh w)) (Z.of_nat (fresh w))
              title body OPEN
              ("https://github.com/issues/" ++ nat_to_string (fresh w))
              (iso_string (clock w)) /\
    faults w' = [] /\
    notionActions (stores w') = notionActions (stores w) /\
    githubIssues (stores w') = (githubIssues (stores w) ++ [issue])%list /\
    In (pid, GitHubIssue.id issue) (githubProjectItems (stores w')).
Proof.
  intros F R T P. destruct w as [s c f n o i]. simpl in *. subst f.
  unfold GitHubClient.createIssue, GitHubClient.repository,
    GitHubClient.createIssue_mutation, GitHubClient.addIssueToProject,
    record, console_log, set_stores, modify, gets, Date_now, ret, throw,
    bind, request.
  simpl. rewrite R. simpl. rewrite T. simpl. rewrite P.
  rewrite existsb_app. simpl. rewrite String.eqb_refl, orb_true_r. simpl.
  destruct (existsb _ (githubProjectItems s)) eqn:I.
  - eexists; eexists. split; [reflexivity|]. simpl. repeat split.
    apply existsb_exists in I as ([a b] & In1 & E). simpl in E.
    apply andb_true_iff in E as [Ea Eb].
    apply String.eqb_eq in Ea, Eb. now subst.
  - eexists; eexists. split; [reflexivity|]. simpl. repeat split.
    apply in_or_app. right. now left.
Qed.

Lemma updateAction_writes (pageId : string) (u : NotionActionPartial.t)
    (w : World) (page : ActionPage.t) :
  faults w = [] ->
  page_of pageId w = Some page ->
  exists w' pages',
    NotionClient.updateAction pageId u false w = (Ok tt, w') /\
    faults w' = [] /\
    stores w' = with_notionActions pages' (stores w) /\
    find (fun p => String.eqb (ActionPage.id p) pageId) pages'
    = Some (NotionClient.action_properties u (iso_string (clock w))
              (iso_string (clock w + 1)) page).
Proof.
  intros F P. unfold page_of in P.
  set (lastSync := iso_string (clock w)).
  set (edited := iso_string (clock w + 1)).
  assert (Q : (fun p => String.eqb (ActionPage.id p) pageId)
                (NotionClient.action_properties u lastSync edited page) = true)
    by exact (proj2 (find_some _ _ P)).
  destruct (update_first_find _ (NotionClient.action_properties u lastSync edited)
              _ _ P Q) as (l' & U & F').
  unfold NotionClient.updateAction, bind, record, request, Date_now, gets,
    set_stores, modify, throw.
  simpl. rewrite F. simpl. fold lastSync edited. rewrite U.
  eexists; exists l'; split; [reflexivity|]. simpl. repeat split; auto.
Qed.

Section NewIssues.

Context `{DateImpl}.

(** X14: for an action that is not linked, a live turn whose requests go
    through creates one issue with the title and the description of the
    action, puts it in the board project and stores its id and url on the
    action.  The issue is created OPEN whatever the status of the action:
    the state computed from the status is not used. *)
Theorem unlinked_action_gets_an_open_issue (repo : string)
    (gp : GitHubProject.t) (issues : list GitHubIssue.t) (a : NotionAction.t)
    (w : World) (page : ActionPage.t) :
  faults w = [] ->
  truthy (NotionAction.githubIssueId a) = false ->
  existsb (String.eqb repo) (githubRepos (stores w)) = true ->
  truthy (Some (GitHubProject.id gp)) = true ->
  existsb (fun p => String.eqb (GitHubProject.id p) (GitHubProject.id gp))
    (githubProjects (stores w)) = true ->
  page_of (NotionAction.id a) w = Some page ->
  exists issue w' page',
    syncAction false repo gp issues a w = (Ok tt, w') /\
    githubIssues (stores w') = (githubIssues (stores w) ++ [issue])%list /\
    GitHubIssue.title issue = NotionAction.title a /\
    GitHubIssue.body issue = NotionAction.description a /\
    GitHubIssue.state issue = OPEN /\
    In (GitHubProject.id gp, GitHubIssue.id issue)
      (githubProjectItems (stores w')) /\
    page_of (NotionAction.id a) w' = Some page' /\
    ActionPage.githubIssueId page' = Some (GitHubIssue.id issue) /\
    ActionPage.githubIssueUrl page' = Some (GitHubIssue.url issue) /\
    ActionPage.status page' = ActionPage.status page.
Proof.
  intros F L R T P Pg. unfold syncAction. rewrite L.
  destruct (createIssue_live repo (NotionAction.title a) (GitHubProject.id gp)
              (NotionAction.description a) w F R T P)
    as (issue & w1 & E1 & Ei & F1 & N1 & I1 & It1).
  rewrite (bind_ok _ _ _ _ _ E1).
  assert (Pg1 : page_of (NotionAction.id a) w1 = Some page)
    by (unfold page_of in *; now rewrite N1).
  match goal with
  | |- context [NotionClient.updateAction ?i ?u false] =>
      destruct (updateAction_writes i u w1 page F1 Pg1)
        as (w2 & pages' & E2 & F2 & S2 & P2)
  end.
  rewrite (bind_ok _ _ _ _ _ E2).
  match type of P2 with
  | _ = Some ?pg => exists issue; eexists; exists pg
  end.
  split; [reflexivity|].
  unfold page_of. simpl. rewrite S2. simpl.
  split; [exact I1|]. rewrite Ei in *. simpl.
  repeat split; auto.
Qed.

End NewIssues.

Lemma unlinked_action_gets_an_open_issue_witness :
  exists issue w' page',
    @syncAction iso_dates false "chittyreception" (launch_board t_before) []
      (NotionClient.to_action (write_copy "Completed" None t_plus1))
      (unlinked_action_world []) = (Ok tt, w') /\
    githubIssues (stores w') = [issue] /\
    GitHubIssue.title issue = "Write copy" /\
    GitHubIssue.state issue = OPEN /\
    page_of "na-1" w' = Some page' /\
    ActionPage.githubIssueId page' = Some (GitHubIssue.id issue) /\
    ActionPage.status page' = "Completed".
Proof.
  destruct (@unlinked_action_gets_an_open_issue iso_dates "chittyreception"
              (launch_board t_before) []
              (NotionClient.to_action (write_copy "Completed" None t_plus1))
              (unlinked_action_world [])
              (write_copy "Completed" None t_plus1))
    as (issue & w' & page' & E & I & T & _ & S & _ & P & L & _ & St);
    try reflexivity.
  exists issue, w', page'. repeat split; auto.
Defined.

Section OrphanIssues.

Context `{DateImpl}.

(** X15: creating the issue and putting it in the board project are two
    requests.  When the first goes through and the second is refused, the
    turn of the unlinked action ends with the error logged, the new issue
    left on the board outside the project, and the action as it was, still
    without an issue id. *)
Theorem refused_project_item_leaves_an_orphan_issue (repo : string)
    (gp : GitHubProject.t) (issues : list GitHubIssue.t) (a : NotionAction.t)
    (w : World) (e : string) (rest : list (option string)) :
  truthy (NotionAction.githubIssueId a) = false ->
  faults w = None :: None :: Some e :: rest ->
  existsb (String.eqb repo) (githubRepos (stores w)) = true ->
  truthy (Some (GitHubProject.id gp)) = true ->
  exists issue w',
    syncAction_guarded false repo gp issues a w = (Ok tt, w') /\
    githubIssues (stores w') = (githubIssues (stores w) ++ [issue])%list /\
    GitHubIssue.title issue = NotionAction.title a /\
    githubProjectItems (stores w') = githubProjectItems (stores w) /\
    notionActions (stores w') = notionActions (stores w) /\
    console w' = (console w ++ [action_error a e])%list /\
    faults w' = rest.
Proof.
  intros L F R T. destruct w as [s c f n o i]. simpl in *. subst f.
  unfold syncAction_guarded, syncAction, try_catch. rewrite L.
  unfold GitHubClient.createIssue, GitHubClient.repository,
    GitHubClient.createIssue_mutation, GitHubClient.addIssueToProject,
    record, console_log, console_error, set_stores, modify, gets, Date_now,
    ret, throw, bind, request.
  simpl. rewrite R. simpl. rewrite T. simpl.
  eexists; eexists. split; [reflexivity|]. simpl. repeat split.
Qed.

End OrphanIssues.

Lemma refused_project_item_leaves_an_orphan_issue_witness :
  exists issue w',
    @syncAction_guarded iso_dates false "chittyreception"
      (launch_board t_before) []
      (NotionClient.to_action (write_copy "Completed" None t_plus1))
      (unlinked_action_world [None; None; Some "Error: timeout"])
    = (Ok tt, w') /\
    githubIssues (stores w') = [issue] /\
    githubProjectItems (stores w') = [] /\
    map ActionPage.githubIssueId (notionActions (stores w')) = [None].
Proof.
  destruct (@refused_project_item_leaves_an_orphan_issue iso_dates
              "chittyreception" (launch_board t_before) []
              (NotionClient.to_action (write_copy "Completed" None t_plus1))
              (unlinked_action_world [None; None; Some "Error: timeout"])
              "Error: timeout" [])
    as (issue & w' & E & I & _ & It & N & _); try reflexivity.
  exists issue, w'. rewrite I, It, N. repeat split. exact E.
Defined.

(* ====================================================================== *)
(** ** The first link of a project *)
(* ====================================================================== *)

Lemma projects_stay_refl (w : World) : projects_stay w w.
Proof. split; [reflexivity | exists []; now rewrite app_nil_r]. Qed.

Lemma projects_stay_trans (a b c : World) :
  projects_stay a b -> projects_stay b c -> projects_stay a c.
Proof.
  intros [T1 [x X]] [T2 [y Y]]. split; [congruence|].
  exists (x ++ y)%list. now rewrite Y, X, app_assoc.
Qed.

Ltac stay_prim :=
  intros; split;
  [ reflexivity
  | first [ exists []; simpl; now rewrite app_nil_r | eexists; reflexivity ] ].

Ltac stay := keeps_script projects_stay_refl projects_stay_trans stay_prim.

Lemma stay_updateAction (pageId : string) (u : NotionActionPartial.t)
    (d : bool) : keeps projects_stay (NotionClient.updateAction pageId u d).
Proof. unfold NotionClient.updateAction. stay. Qed.

Lemma stay_getActions (projectId : option string) :
  keeps projects_stay (NotionClient.getActions projectId).
Proof. unfold NotionClient.getActions. stay. Qed.

Lemma stay_getIssuesByProject (projectId : string) :
  keeps projects_stay (GitHubClient.getIssuesByProject projectId).
Proof. unfold GitHubClient.getIssuesByProject. stay. Qed.

Lemma stay_addIssueToProject (issueId projectId : string) (d : bool) :
  keeps projects_stay (GitHubClient.addIssueToProject issueId projectId d).
Proof. unfold GitHubClient.addIssueToProject. stay. Qed.

Lemma stay_createIssue (repo title : string) (body projectId : option string)
    (d : bool) :
  keeps projects_stay (GitHubClient.createIssue repo title body projectId d).
Proof.
  pose proof stay_addIssueToProject.
  unfold GitHubClient.createIssue, GitHubClient.repository,
    GitHubClient.createIssue_mutation.
  stay.
Qed.

Lemma stay_mutate_issue (issueId : string) (f : GitHubIssue.t -> GitHubIssue.t) :
  keeps projects_stay (GitHubClient.mutate_issue issueId f).
Proof. unfold GitHubClient.mutate_issue. stay. Qed.

Lemma stay_updateIssue (issueId : string) (u : IssueUpdates.t) (d : bool) :
  keeps projects_stay (GitHubClient.updateIssue issueId u d).
Proof.
  pose proof stay_mutate_issue.
  unfold GitHubClient.updateIssue. stay.
Qed.

Lemma updateProject_writes (pageId : string) (u : NotionProjectPartial.t)
    (w : World) (row : NotionProject.t) :
  faults w = [] ->
  project_row pageId w = Some row ->
  exists w' pages',
    NotionClient.updateProject pageId u false w = (Ok tt, w') /\
    faults w' = [] /\
    stores w' = with_notionProjects pages' (stores w) /\
    find (fun p => String.eqb (NotionProject.id p) pageId) pages'
    = Some (NotionClient.project_properties u (iso_string (clock w))
              (iso_string (clock w + 1)) row).
Proof.
  intros F P. unfold project_row in P.
  set (lastSync := iso_string (clock w)).
  set (edited := iso_string (clock w + 1)).
  assert (Q : (fun p => String.eqb (NotionProject.id p) pageId)
                (NotionClient.project_properties u lastSync edited row) = true)
    by exact (proj2 (find_some _ _ P)).
  destruct (update_first_find _ (NotionClient.project_properties u lastSync edited)
              _ _ P Q) as (l' & U & F').
  unfold NotionClient.updateProject, bind, record, request, Date_now, gets,
    set_stores, modify, throw.
  simpl. rewrite F. simpl. fold lastSync edited. rewrite U.
  eexists; exists l'; split; [reflexivity|]. simpl. repeat split; auto.
Qed.

Lemma getOrCreateProject_creates (title : string) (description : option string)
    (w : World) :
  faults w = [] ->
  find (fun p => String.eqb (GitHubProject.title p) title)
    (firstn 100 (githubProjects (stores w))) = None ->
  exists created w',
    GitHubClient.getOrCreateProject title description false w
    = (Ok created, w') /\
    created = GitHubProject.mk ("PVT_" ++ nat_to_string (fresh w))
                (Z.of_nat (fresh w)) title
                ("https://github.com/projects/" ++ nat_to_string (fresh w))
                description (iso_string (clock w)) /\
    faults w' = [] /\
    notionProjects (stores w') = notionProjects (stores w) /\
    githubProjects (stores w') = (githubProjects (stores w) ++ [created])%list.
Proof.
  intros F G.
  unfold GitHubClient.getOrCreateProject, record, modify.
  unfold bind at 1. cbv beta iota.
  set (w0 := with_invoked _ w).
  assert (F0 : next_fault w0 = None) by (apply no_faults_next; exact F).
  rewrite (bind_ok _ _ _ _ _ (listProjects_ok w0 F0)).
  change (githubProjects (stores w0)) with (githubProjects (stores w)).
  rewrite G.
  rewrite no_faults_after_request by exact F.
  unfold GitHubClient.createProjectV2, console_log, set_stores, modify, gets,
    Date_now, ret, bind, request.
  simpl. repeat (rewrite F; simpl).
  eexists; eexists; split; [reflexivity|]. repeat split. exact F.
Qed.

Section FirstLink.

Context `{DateImpl}.

Lemma stay_syncAction_guarded (d : bool) (repo : string)
    (gp : GitHubProject.t) (issues : list GitHubIssue.t) (a : NotionAction.t) :
  keeps projects_stay (syncAction_guarded d repo gp issues a).
Proof.
  pose proof stay_updateIssue. pose proof stay_updateAction.
  pose proof stay_createIssue.
  unfold syncAction_guarded, syncAction. stay.
Qed.

Lemma stay_syncActions (d : bool) (p : NotionProject.t) (gp : GitHubProject.t)
    (repo : string) :
  keeps projects_stay (syncActions d p gp repo).
Proof.
  pose proof stay_syncAction_guarded.
  pose proof stay_getActions. pose proof stay_getIssuesByProject.
  unfold syncActions. stay.
Qed.

(** The link is written before the actions are synced, and stays. *)
Lemma linkProject_links (repo : string) (p : NotionProject.t)
    (gp : GitHubProject.t) (w : World) (row : NotionProject.t) :
  faults w = [] ->
  project_row (NotionProject.id p) w = Some row ->
  truthy (Some (GitHubProject.id gp)) = true ->
  truthy (Some (GitHubProject.url gp)) = true ->
  exists r w' row',
    linkProject false repo p gp w = (r, w') /\
    project_row (NotionProject.id p) w' = Some row' /\
    NotionProject.githubProjectId row' = Some (GitHubProject.id gp) /\
    NotionProject.githubProjectUrl row' = Some (GitHubProject.url gp) /\
    NotionProject.lastSyncAt row' = Some (iso_string (clock w)) /\
    NotionProject.name row' = NotionProject.name row /\
    exists created,
      githubProjects (stores w') = (githubProjects (stores w) ++ created)%list.
Proof.
  intros F P Ti Tu. unfold linkProject.
  match goal with
  | |- context [NotionClient.updateProject ?i ?u false] =>
      destruct (updateProject_writes i u w row F P)
        as (w1 & pages' & E1 & F1 & S1 & P1)
  end.
  rewrite (bind_ok _ _ _ _ _ E1). rewrite bind_console_log.
  match goal with
  | |- context [syncActions false p gp repo ?w2] =>
      destruct (syncActions false p gp repo w2) as [r w3] eqn:E3;
      destruct (stay_syncActions false p gp repo w2 r w3 E3) as [N3 [cr G3]]
  end.
  match type of P1 with
  | _ = Some ?row' => exists r, w3, row'
  end.
  split; [reflexivity|].
  unfold project_row. rewrite N3. simpl. rewrite S1. simpl.
  split; [exact P1|].
  unfold NotionClient.project_properties.
  cbn [NotionProject.githubProjectId NotionProject.githubProjectUrl
       NotionProject.lastSyncAt NotionProject.name
       NotionProjectPartial.githubProjectId
       NotionProjectPartial.githubProjectUrl].
  simpl in Ti, Tu. rewrite Ti, Tu.
  repeat split. exists cr. rewrite G3. simpl. now rewrite S1.
Qed.

(** X16: for a project that is not linked and has no namesake among the
    first hundred board projects, a live turn whose requests go through
    creates a board project with the name and the description of the
    project and stores its id and url, with the time of the sync, on the
    tracker project -- before the actions are synced, so that the link is
    there whatever happens to them. *)
Theorem unlinked_project_is_created_and_linked (repo : string)
    (p : NotionProject.t) (w : World) (row : NotionProject.t) :
  faults w = [] ->
  truthy (NotionProject.githubProjectId p) = false ->
  find (fun g => String.eqb (GitHubProject.title g) (NotionProject.name p))
    (firstn 100 (githubProjects (stores w))) = None ->
  project_row (NotionProject.id p) w = Some row ->
  exists gp r w' row',
    syncProject false repo p w = (r, w') /\
    In gp (githubProjects (stores w')) /\
    GitHubProject.title gp = NotionProject.name p /\
    GitHubProject.shortDescription gp = NotionProject.description p /\
    project_row (NotionProject.id p) w' = Some row' /\
    NotionProject.githubProjectId row' = Some (GitHubProject.id gp) /\
    NotionProject.githubProjectUrl row' = Some (GitHubProject.url gp) /\
    truthy (NotionProject.lastSyncAt row') = true /\
    NotionProject.name row' = NotionProject.name row.
Proof.
  intros F L G P. unfold syncProject. rewrite L.
  destruct (getOrCreateProject_creates (NotionProject.name p)
              (NotionProject.description p) w F G)
    as (gp & w1 & E1 & Eg & F1 & N1 & G1).
  rewrite (bind_ok _ _ _ _ _ E1).
  assert (P1 : project_row (NotionProject.id p) w1 = Some row)
    by (unfold project_row in *; now rewrite N1).
  destruct (linkProject_links repo p gp w1 row F1 P1)
    as (r & w2 & row' & E2 & P2 & Li & Lu & Ls & Ln & cr & G2);
    try (rewrite Eg; reflexivity).
  exists gp, r, w2, row'. split; [exact E2|].
  split.
  { rewrite G2, G1. apply in_or_app. left. apply in_or_app. right. now left. }
  rewrite Eg at 1 2. simpl. repeat split; auto.
  rewrite Ls. destruct (iso_string (clock w1)) eqn:I; [|reflexivity].
  exfalso. revert I. unfold iso_string.
  destruct (civil_from_days _) as [[y m] dd]. unfold iso_year.
  destruct ((0 <=? y) && (y <=? 9999)); [|destruct (y <? 0)]; simpl;
    try discriminate.
  unfold pad. destruct (zeros _); simpl; [|discriminate].
  unfold Z_to_string. destruct (Z.to_int y) as [u|u]; simpl;
    [destruct u; discriminate | discriminate].
Qed.

End FirstLink.

Lemma unlinked_project_is_created_and_linked_witness :
  exists gp r w' row',
    @syncProject iso_dates false "chittyreception" launch_plan_unlinked
      first_run_world = (r, w') /\
    In gp (githubProjects (stores w')) /\
    GitHubProject.title gp = "Launch Plan" /\
    project_row "np-1" w' = Some row' /\
    NotionProject.githubProjectId row' = Some (GitHubProject.id gp).
Proof.
  destruct (@unlinked_project_is_created_and_linked iso_dates "chittyreception"
              launch_plan_unlinked first_run_world launch_plan_unlinked)
    as (gp & r & w' & row' & E & I & T & _ & P & L & _); try reflexivity.
  exists gp, r, w', row'. repeat split; auto.
Defined.

(* ====================================================================== *)
(** ** Edges of the clients and of the run *)
(* ====================================================================== *)

(** X17: [updateIssue] sends the title and the body only when one of them
    is non-empty.  With an empty (or missing) title and an empty (or
    missing) body a live call leaves the title and the body of the issue as
    they are, and changes at most its state. *)
Theorem updateIssue_without_title_or_body (issueId : string)
    (title body : option string) (state : option StateArg) (w : World)
    (i0 : GitHubIssue.t) :
  faults w = [] ->
  issue_of issueId w = Some i0 ->
  truthy title = false ->
  truthy body = false ->
  exists w' i',
    GitHubClient.updateIssue issueId (IssueUpdates.mk title body state) false w
    = (Ok tt, w') /\
    issue_of issueId w' = Some i' /\
    GitHubIssue.title i' = GitHubIssue.title i0 /\
    GitHubIssue.body i' = GitHubIssue.body i0 /\
    GitHubIssue.state i'
    = match state with
      | Some (IsState s) => s
      | _ => GitHubIssue.state i0
      end.
Proof.
  intros F I T B.
  unfold GitHubClient.updateIssue, record, modify.
  unfold bind at 1. cbv beta iota.
  set (w0 := with_invoked _ w).
  assert (F0 : faults w0 = []) by exact F.
  assert (I0 : issue_of issueId w0 = Some i0) by exact I.
  cbn [IssueUpdates.state IssueUpdates.title IssueUpdates.body].
  rewrite T, B. cbn [orb].
  destruct state as [[[|]|k]|].
  - destruct (mutate_issue_live issueId (GitHubClient.set_state OPEN) w0 i0
                F0 I0 eq_refl) as (w1 & E1 & F1 & N1 & I1).
    rewrite (bind_ok _ _ _ _ _ E1).
    exists w1; eexists. split; [reflexivity|]. split; [exact I1|].
    repeat split.
  - destruct (mutate_issue_live issueId (GitHubClient.set_state CLOSED) w0 i0
                F0 I0 eq_refl) as (w1 & E1 & F1 & N1 & I1).
    rewrite (bind_ok _ _ _ _ _ E1).
    exists w1; eexists. split; [reflexivity|]. split; [exact I1|].
    repeat split.
  - exists w0, i0. repeat split. exact I0.
  - exists w0, i0. repeat split. exact I0.
Qed.

Lemma updateIssue_without_title_or_body_witness :
  exists w' i',
    GitHubClient.updateIssue "I_2"
      (IssueUpdates.mk (Some "") None (Some (IsState CLOSED))) false
      completed_world = (Ok tt, w') /\
    issue_of "I_2" w' = Some i' /\
    GitHubIssue.title i' = "Write copy (old)" /\
    GitHubIssue.state i' = CLOSED.
Proof.
  destruct (updateIssue_without_title_or_body "I_2" (Some "") None
              (Some (IsState CLOSED)) completed_world
              (copy_issue "Write copy (old)" OPEN t_before))
    as (w' & i' & E & I & T & _ & S); try reflexivity.
  exists w', i'. repeat split; auto.
Defined.

Section FailedListing.

Context `{DateImpl}.

(** X18: when the first listing of the tracker's projects is refused, the
    run throws that very error after printing the banner, the "Syncing
    Projects" line and "Sync failed" with the error; nothing has been
    written or invoked, and one request has been made. *)
Theorem refused_listing_fails_the_run (d : bool) (repo : string) (w : World)
    (e : string) :
  next_fault w = Some e ->
  exists w',
    run d repo w = (Throw e, w') /\
    stores w' = stores w /\
    invoked w' = invoked w /\
    faults w' = tl (faults w) /\
    console w'
    = (console w ++ banner d repo
       ++ [ stdout (nl ++ "📊 Syncing Projects..." ++ nl) [];
            stderr (nl ++ "❌ Sync failed:") [arg_error e] ])%list.
Proof.
  intros F. rewrite run_eq. unfold syncProjects.
  rewrite bind_console_log.
  match goal with
  | |- context [bind NotionClient.getProjects ?k ?w1] =>
      assert (E : NotionClient.getProjects w1 = (Throw e, after_request w1))
        by (rewrite getProjects_spec;
            replace (next_fault w1) with (Some e) by (symmetry; exact F);
            reflexivity);
      rewrite (bind_throw _ k _ _ _ E)
  end.
  eexists. split; [reflexivity|]. unfold say, after_request. simpl.
  repeat split. now rewrite <- !app_assoc.
Qed.

End FailedListing.

Lemma refused_listing_fails_the_run_witness :
  exists w',
    @run iso_dates true "chittyreception" board_refuses_world
    = (Throw "Error: GitHub unavailable", w') /\
    stores w' = stores board_refuses_world /\
    invoked w' = [].
Proof.
  destruct (@refused_listing_fails_the_run iso_dates true "chittyreception"
              board_refuses_world "Error: GitHub unavailable" eq_refl)
    as (w' & E & S & I & _).
  exists w'. repeat split; auto.
Defined.

(** X19: [getOrCreateProject] looks for a namesake among the first hundred
    board projects only.  When the board lists a project of the wanted
    title after its hundredth and none before, a live call whose requests
    go through creates a second project of that title. *)
Theorem namesake_after_the_hundredth_is_duplicated (title : string)
    (description : option string) (w : World) (old : GitHubProject.t) :
  faults w = [] ->
  find (fun p => String.eqb (GitHubProject.title p) title)
    (firstn 100 (githubProjects (stores w))) = None ->
  In old (skipn 100 (githubProjects (stores w))) ->
  GitHubProject.title old = title ->
  exists created w',
    GitHubClient.getOrCreateProject title description false w
    = (Ok created, w') /\
    GitHubProject.title created = title /\
    githubProjects (stores w') = (githubProjects (stores w) ++ [created])%list /\
    (2 <= List.length
            (filter (fun p => String.eqb (GitHubProject.title p) title)
               (githubProjects (stores w'))))%nat.
Proof.
  intros F G O T.
  destruct (getOrCreateProject_creates title description w F G)
    as (created & w' & E & Ec & _ & _ & P).
  exists created, w'. split; [exact E|].
  assert (Tc : GitHubProject.title created = title) by (now rewrite Ec).
  split; [exact Tc|]. split; [exact P|].
  rewrite P, filter_app, length_app. simpl. rewrite Tc, String.eqb_refl. simpl.
  assert (I : In old (filter (fun p => String.eqb (GitHubProject.title p) title)
                        (githubProjects (stores w)))).
  { apply filter_In. split.
    - rewrite <- (firstn_skipn 100 (githubProjects (stores w))).
      apply in_or_app. now right.
    - rewrite T. apply String.eqb_refl. }
  destruct (filter _ (githubProjects (stores w))); [contradiction|].
  simpl. lia.
Qed.

Lemma namesake_after_the_hundredth_is_duplicated_witness :
  exists created w',
    GitHubClient.getOrCreateProject "Launch Plan" (Some "Q2 launch") false
      crowded_world = (Ok created, w') /\
    GitHubProject.title created = "Launch Plan" /\
    (2 <= List.length
            (filter (fun p => String.eqb (GitHubProject.title p) "Launch Plan")
               (githubProjects (stores w'))))%nat.
Proof.
  destruct (namesake_after_the_hundredth_is_duplicated "Launch Plan"
              (Some "Q2 launch") crowded_world (launch_board t_before))
    as (created & w' & E & T & _ & L); try reflexivity.
  - vm_compute. left. reflexivity.
  - exists created, w'. repeat split; auto.
Defined.

(* ====================================================================== *)
(** ** Instances of the statements on single functions *)
(* ====================================================================== *)

(** A status spelled in lower case keeps the issue open. *)
Lemma board_state_of_status_witness :
  trackerStatusToBoardState "completed" = IsState OPEN.
Proof.
  apply (proj2 (proj2 (board_state_of_status "completed")));
    [reflexivity | discriminate | discriminate].
Defined.

(** A locator whose first [ds/] is followed by a hexadecimal digit. *)
Lemma extractDatabaseId_fails_witness :
  exists r, extractDatabaseId "https://www.notion.so/ws/ds/0a1b?v=2" = Ok r.
Proof.
  apply (proj2 (proj1 (extractDatabaseId_fails
                         "https://www.notion.so/ws/ds/0a1b?v=2"))).
  exists "https://www.notion.so/ws/", "d"%char, "s"%char, "0"%char, "a1b?v=2".
  repeat split.
Defined.

(** A page whose Status is an option without a name, whose Estimate is 0
    and whose Actions relation is empty. *)
Lemma getPropertyValue_results_witness :
  getPropertyValue [("Status", P_select (Some ""))] "Status" "select" = V_null /\
  getPropertyValue [("Estimate", P_number (Some 0))] "Estimate" "number"
  = V_null /\
  getPropertyValue [("Actions", P_relation [])] "Actions" "relation" = V_ids [].
Proof.
  split; [|split].
  - refine (proj1 (proj1 (proj2 (getPropertyValue_results
                                   [("Status", P_select (Some ""))] "Status"))
                     (Some "") _) _); reflexivity.
  - exact (proj1 (proj2 (proj2 (proj2 (getPropertyValue_results
                                         [("Estimate", P_number (Some 0))]
                                         "Estimate"))))
             (Some 0) eq_refl).
  - exact (proj1 (proj2 (proj2 (proj2 (proj2 (getPropertyValue_results
                                                [("Actions", P_relation [])]
                                                "Actions")))))
             [] eq_refl).
Defined.

(** A dry run on an accepted environment whose requests go through. *)
Lemma main_exit_code_witness :
  fst (@main iso_dates sample_zod (sample_env None) None first_run_world) = 0.
Proof.
  apply (proj2 (proj2 (@main_exit_code iso_dates sample_zod (sample_env None)
                         None first_run_world))).
  split; [|reflexivity].
  eexists. split; [vm_compute; reflexivity|].
  split; eexists; vm_compute; reflexivity.
Defined.
